(** * fontElectronicShop: the transaction-derived aggregations of the front end

    A shallow embedding of the computations that the Dashboard, Transactions
    and Products pages perform on the records fetched from the backend:

    - [Dashboard.salesByDay], [Dashboard.salesVsExpenses] and
      [Dashboard.topProducts] (pages/Dashboard.tsx);
    - [Transactions.totalItemsSold] and the handlers of the "New Transaction"
      form (pages/Transactions.tsx);
    - the stock colour tiers of pages/Products.tsx and of the dashboard's
      low-stock table;
    - [DashboardPage.getDateRange] and the placeholders of the three charts
      (pages/Dashboard.tsx);
    - [SalesByDate.salesByDate], the sales detail by date, and the events of
      the transaction form, in its two versions (pages/Transactions.tsx);
    - the product form of pages/Products.tsx;
    - the routes of App.tsx with the menu of components/Layout.tsx, and the
      category filter of pages/PublicShop.tsx.

    Conventions of the embedding.

    - A JavaScript number is an integer of [Z]: the model is the code on
      whole numbers that a JavaScript number holds exactly (below 2^53 in
      absolute value).  Where a computation can produce NaN the type is
      [option Z] and [None] is NaN.  Amounts with a decimal fraction, whose
      sums the binary floating point rounds, are outside the model; a
      statement that compares sums taken in different orders or groupings
      says so with [Further.exactSums].
    - A [Date] is its time value, the number of milliseconds since the epoch.
      The host time zone is a [Calendar.Zone]: the offset of local time from
      UTC as it changes with time, so that zones with daylight saving time
      are zones of the model.  An offset [tz : Z] in milliseconds stands for
      the zone that keeps it ([Calendar.fixed]); the statements that hold in
      such zones only are those about a [tz : Z].
    - An object used as a dictionary is the list of its own properties in
      creation order. *)

From Stdlib Require Import ZArith List String Ascii Bool Lia.
From Stdlib Require Import Sorted Permutation DecimalString OrderedTypeEx.
From Stdlib Require Import RelationClasses DecimalPos.
Import ListNotations.

Local Open Scope string_scope.
Local Open Scope list_scope.
Local Open Scope Z_scope.

(* ================================================================== *)
(** * The JavaScript runtime operations used by the pages *)
(* ================================================================== *)

Module JS.

(** [v || 0] for a numeric property read: [undefined] (the property is
    missing) and the falsy number 0 both yield 0. *)
Definition orZero (v : option Z) : Z :=
  match v with
  | Some n => if n =? 0 then 0 else n
  | None => 0
  end.

(** ** Strings of digits *)

Definition isDigit (c : ascii) : bool :=
  ((48 <=? nat_of_ascii c) && (nat_of_ascii c <=? 57))%nat.

Definition digitValue (c : ascii) : Z := Z.of_nat (nat_of_ascii c) - 48.

(** The value of a string made of decimal digits only. *)
Fixpoint digitsValue (acc : Z) (s : string) : option Z :=
  match s with
  | EmptyString => Some acc
  | String c s' =>
      if isDigit c then digitsValue (10 * acc + digitValue c) s' else None
  end.

(** A property key is an array index when it is the canonical decimal
    numeral of an integer in [0, 2^32 - 2]. *)
Definition arrayIndex (k : string) : option Z :=
  match k with
  | EmptyString => None
  | String c rest =>
      if Ascii.eqb c "0" && negb (String.eqb rest "") then None
      else match digitsValue 0 k with
           | Some n => if n <? 4294967295 then Some n else None
           | None => None
           end
  end.

Definition isArrayIndex (k : string) : bool :=
  match arrayIndex k with Some _ => true | None => false end.

(** ** Array.prototype.sort

    The sort is stable, so for a consistent comparator the result is the one
    of any stable sort; an insertion sort from the right is used here: an
    element goes before the first element that it does not compare greater
    than. *)
Section Sort.
Context {A : Type}.
Variable cmp : A -> A -> Z.

Fixpoint insert (x : A) (l : list A) : list A :=
  match l with
  | [] => [x]
  | y :: l' => if cmp x y <=? 0 then x :: l else y :: insert x l'
  end.

Definition sort (l : list A) : list A := fold_right insert [] l.
End Sort.

(** [a.localeCompare(b)].  The keys compared by the dashboard are "dd/mm"
    labels: equal length, digits and a slash at the same place, on which the
    collation order is the order of the character codes. *)
Definition localeCompare (a b : string) : Z :=
  match String.compare a b with
  | Lt => -1
  | Eq => 0
  | Gt => 1
  end.

(** ** Objects used as dictionaries *)

(** The property names that every object literal inherits from
    Object.prototype: reading [map[k]] for one of them yields a truthy value
    that is not an own property of [map]. *)
Definition inheritedNames : list string :=
  [ "constructor"; "__proto__"; "hasOwnProperty"; "isPrototypeOf";
    "propertyIsEnumerable"; "toLocaleString"; "toString"; "valueOf";
    "__defineGetter__"; "__defineSetter__"; "__lookupGetter__";
    "__lookupSetter__" ].

Definition inherited (k : string) : bool :=
  existsb (String.eqb k) inheritedNames.

Section Object.
Context {V : Type}.

(** Own properties, in creation order. *)
Definition Obj : Type := list (string * V).

Fixpoint get (o : Obj) (k : string) : option V :=
  match o with
  | [] => None
  | (k', v) :: o' => if String.eqb k' k then Some v else get o' k
  end.

(** [o[k] = v]: an existing property keeps its place, a new one is
    created last. *)
Fixpoint set (o : Obj) (k : string) (v : V) : Obj :=
  match o with
  | [] => [(k, v)]
  | (k', v') :: o' =>
      if String.eqb k' k then (k', v) :: o' else (k', v') :: set o' k v
  end.

Definition ownKeys (o : Obj) : list string := List.map fst o.

Definition indexOf (kv : string * V) : Z :=
  match arrayIndex (fst kv) with Some n => n | None => 0 end.

(** [Object.entries(o)]: array-index keys in ascending numeric order, then
    the other keys in creation order. *)
Definition entries (o : Obj) : list (string * V) :=
  sort (fun a b => indexOf a - indexOf b)
       (filter (fun kv => isArrayIndex (fst kv)) o)
  ++ filter (fun kv => negb (isArrayIndex (fst kv))) o.
End Object.

Arguments Obj : clear implicits.

(** ** parseInt and Number.prototype.toString *)

Definition isWhiteSpace (c : ascii) : bool :=
  let n := nat_of_ascii c in
  ((n =? 32) || ((9 <=? n) && (n <=? 13)))%nat.

Fixpoint trimStart (s : string) : string :=
  match s with
  | String c s' => if isWhiteSpace c then trimStart s' else s
  | EmptyString => s
  end.

Definition hexValue (c : ascii) : option Z :=
  let n := nat_of_ascii c in
  if isDigit c then Some (digitValue c)
  else if ((97 <=? n) && (n <=? 102))%nat then Some (Z.of_nat n - 87)
  else if ((65 <=? n) && (n <=? 70))%nat then Some (Z.of_nat n - 55)
  else None.

(** The longest prefix of digits in the radix; [None] when there is none. *)
Fixpoint leadingDigits (radix : Z) (acc : option Z) (s : string) : option Z :=
  match s with
  | EmptyString => acc
  | String c s' =>
      match (if radix =? 16 then hexValue c
             else if isDigit c then Some (digitValue c) else None) with
      | Some d =>
          leadingDigits radix
            (Some (radix * match acc with Some a => a | None => 0 end + d)) s'
      | None => acc
      end
  end.

(** [parseInt(s)] with no radix argument; [None] is NaN. *)
Definition parseInt (s : string) : option Z :=
  let s1 := trimStart s in
  let '(sign, s2) :=
    match s1 with
    | String "-" r => (-1, r)
    | String "+" r => (1, r)
    | _ => (1, s1)
    end in
  let body :=
    match s2 with
    | String "0" (String "x" r) => leadingDigits 16 None r
    | String "0" (String "X" r) => leadingDigits 16 None r
    | _ => leadingDigits 10 None s2
    end in
  match body with
  | Some n => Some (sign * n)
  | None => None
  end.

(** [n.toString()] for an integer below 10^21, and for NaN. *)
Definition toString (n : option Z) : string :=
  match n with
  | Some z => NilZero.string_of_int (Z.to_int z)
  | None => "NaN"
  end.

(** [a * b] on numbers: NaN is absorbing. *)
Definition mul (a b : option Z) : option Z :=
  match a, b with
  | Some x, Some y => Some (x * y)
  | _, _ => None
  end.

End JS.


(* ================================================================== *)
(** * Dates *)
(* ================================================================== *)

Module Calendar.

Definition msPerDay : Z := 86400000.

Definition Day (t : Z) : Z := t / msPerDay.
Definition TimeWithinDay (t : Z) : Z := t mod msPerDay.

(** 1 January 1970 was a Thursday; 0 is Sunday. *)
Definition WeekDay (t : Z) : Z := (Day t + 4) mod 7.

(** Year, month (1..12) and day of the month of a day number, in the
    proleptic Gregorian calendar (years counted from 1 March inside each
    400-year era of 146097 days). *)
Definition civil (day : Z) : Z * Z * Z :=
  let z := day + 719468 in
  let era := z / 146097 in
  let doe := z - era * 146097 in
  let yoe := (doe - doe / 1460 + doe / 36524 - doe / 146096) / 365 in
  let doy := doe - (365 * yoe + yoe / 4 - yoe / 100) in
  let mp := (5 * doy + 2) / 153 in
  let d := doy - (153 * mp + 2) / 5 + 1 in
  let m := if mp <? 10 then mp + 3 else mp - 9 in
  (yoe + era * 400 + (if m <=? 2 then 1 else 0), m, d).

(** The day number of a calendar date: the inverse of [civil], used to write
    dates down. *)
Definition dayNumber (y m d : Z) : Z :=
  let y' := if m <=? 2 then y - 1 else y in
  let era := y' / 400 in
  let yoe := y' - era * 400 in
  let doy := (153 * (if 2 <? m then m - 3 else m + 9) + 2) / 5 + d - 1 in
  let doe := yoe * 365 + yoe / 4 - yoe / 100 + doy in
  era * 146097 + doe - 719468.

Definition YearFromTime (t : Z) : Z := fst (fst (civil (Day t))).
Definition MonthFromTime (t : Z) : Z := snd (fst (civil (Day t))) - 1.
Definition DateFromTime (t : Z) : Z := snd (civil (Day t)).

(** [MakeDay(YearFromTime(t), MonthFromTime(t), dt)]: the day number of the
    first of the month of [t], which is [Day(t) - DateFromTime(t) + 1], plus
    [dt - 1].  A [dt] outside the month runs into the neighbouring months. *)
Definition MakeDayInMonth (t dt : Z) : Z :=
  (Day t - DateFromTime t + 1) + (dt - 1).

Definition MakeDate (day time : Z) : Z := day * msPerDay + time.

(** [new Date("YYYY-MM-DD")]: a date-only ISO string is midnight UTC. *)
Definition newDateISO (day : Z) : Z := day * msPerDay.

Definition digitChar (n : Z) : ascii := ascii_of_nat (48 + Z.to_nat (n mod 10)).

(** A '2-digit' field of a date format. *)
Definition twoDigit (n : Z) : string :=
  String (digitChar (n / 10)) (String (digitChar n) EmptyString).

(** The "dd/mm" text of a day number. *)
Definition label (day : Z) : string :=
  let '(_, m, d) := civil day in
  twoDigit d ++ String "/" (twoDigit m).

(** ** The host time zone

    A zone gives the offset of local time from UTC, in milliseconds:
    [offsetAt] at a UTC time value (LocalTZA(t, true) of ECMA-262) and
    [offsetOfLocal] for a local time value (LocalTZA(t, false)). *)
Record Zone := {
  offsetAt : Z -> Z;
  offsetOfLocal : Z -> Z
}.

(** A zone whose offset never changes (no daylight saving time). *)
Definition fixed (tz : Z) : Zone :=
  {| offsetAt := fun _ => tz; offsetOfLocal := fun _ => tz |}.

(** A zone whose offset changes once, from [before] to [after] at the UTC
    time [at_].  A local time that the change repeats or skips is read with
    the offset in force before the change, as ECMA-262 asks. *)
Definition transition (before after at_ : Z) : Zone :=
  {| offsetAt := fun t => if t <? at_ then before else after;
     offsetOfLocal :=
       fun t => if t <? at_ + Z.max before after then before else after |}.

Section Zone.
Variable tz : Zone.

Definition LocalTime (t : Z) : Z := t + offsetAt tz t.
Definition UTC (t : Z) : Z := t - offsetOfLocal tz t.

Definition getDate (d : Z) : Z := DateFromTime (LocalTime d).
Definition getDay (d : Z) : Z := WeekDay (LocalTime d).
Definition localDay (d : Z) : Z := Day (LocalTime d).

(** [d.setDate(dt)]: the new time value; the local time within the day is
    kept. *)
Definition setDate (d dt : Z) : Z :=
  let t := LocalTime d in
  UTC (MakeDate (MakeDayInMonth t dt) (TimeWithinDay t)).

(** [d.toLocaleDateString('fr-FR', { day: '2-digit', month: '2-digit' })] *)
Definition toLocaleDateString (d : Z) : string := label (localDay d).
End Zone.

End Calendar.

(** An offset in milliseconds stands for the zone that keeps it. *)
Coercion Calendar.fixed : Z >-> Calendar.Zone.


(* ================================================================== *)
(** * Records of the REST API (services/api.ts) *)
(* ================================================================== *)

Module Api.

Record ProductRef := { name : string }.

(** A transaction as the pages declare it.  [quantity] is absent on expenses
    and withdrawals; [created_at] stands for the instant that
    [new Date(t.created_at)] denotes. *)
Record Transaction := {
  id : string;
  type : string;
  product_id : option string;
  product : option ProductRef;
  quantity : option Z;
  amount : Z;
  comment : option string;
  created_at : Z
}.

Module Product.
Record t := {
  id : string;
  name : string;
  selling_price : Z;
  stock : Z
}.
End Product.

Definition isSale (t : Transaction) : bool := String.eqb (type t) "Sale".

Definition isExpense (t : Transaction) : bool :=
  String.eqb (type t) "Expense" || String.eqb (type t) "Withdrawal".

End Api.

(* ================================================================== *)
(** * pages/Dashboard.tsx *)
(* ================================================================== *)

Module Dashboard.
Import Api Calendar.

(** A point of chart 1. *)
Record DayPoint := { date : string; ventes : Z }.

(** The totals kept per week, and a bar of chart 2: [{ semaine, ...v }]. *)
Module Week.
Record Totals := { ventes : Z; dépenses : Z }.
Record Point := { semaine : string; totals : Totals }.
End Week.
#[global] Coercion Week.totals : Week.Point >-> Week.Totals.

(** The totals kept per product, and a row of chart 3: [{ produit, ...v }]. *)
Module Top.
Record Totals := { quantite : Z; montant : Z }.
Record Entry := { produit : string; totals : Totals }.
End Top.
#[global] Coercion Top.totals : Top.Entry >-> Top.Totals.

(** The selected period, as [getDateRange] returns it: each bound is the
    empty string ([None]) or a date YYYY-MM-DD, given by its day number. *)
Definition DateRange : Type := option Z * option Z.

Section Charts.
Variable tz : Calendar.Zone.

(** ** Chart 1: sales per day *)

Definition dayKey (t : Transaction) : string :=
  toLocaleDateString tz (created_at t).

(** [map[day] = (map[day] || 0) + t.amount].  The keys of charts 1 and 2
    are dd/mm labels, none of which is a name inherited from
    Object.prototype ([label_not_inherited]): reading [map[key]] is a lookup
    among the own properties. *)
Definition dayStep (map : JS.Obj Z) (t : Transaction) : JS.Obj Z :=
  let day := dayKey t in
  JS.set map day (JS.orZero (JS.get map day) + amount t).

Definition dayMap (transactions : list Transaction) : JS.Obj Z :=
  fold_left dayStep (filter isSale transactions) [].

(** [{ date: key, ventes: map[key] || 0 }] for the day of [cur]. *)
Definition dayPoint (map : JS.Obj Z) (cur : Z) : DayPoint :=
  let key := toLocaleDateString tz cur in
  {| date := key; ventes := JS.orZero (JS.get map key) |}.

(** The [while (cur <= end)] loop.  [fuel] bounds the number of turns;
    [salesByDay] passes the number of half days left plus one, and
    [dayLoop_fuel] shows that any larger bound gives the same list wherever
    a turn moves [cur] forward by half a day at least. *)
Fixpoint dayLoop (fuel : nat) (map : JS.Obj Z) (cur end_ : Z) : list DayPoint :=
  match fuel with
  | O => []
  | S fuel' =>
      if cur <=? end_ then
        dayPoint map cur
        :: dayLoop fuel' map (setDate tz cur (getDate tz cur + 1)) end_
      else []
  end.

Definition salesByDay (transactions : list Transaction) (range : DateRange)
  : list DayPoint :=
  let map := dayMap transactions in
  match range with
  | (Some from, Some to) =>
      let cur := newDateISO from in
      let end_ := newDateISO to in
      dayLoop (Z.to_nat ((end_ - cur) / (msPerDay / 2) + 1)) map cur end_
  | _ =>
      List.map (fun '(date, ventes) => {| date := date; ventes := ventes |})
               (JS.entries map)
  end.

(** ** Chart 2: sales against expenses per week *)

(** The Monday of the week of [t], as the chart computes it. *)
Definition monday (t : Transaction) : Z :=
  let d := created_at t in
  let day := getDay tz d in
  let diff := getDate tz d - day + (if day =? 0 then -6 else 1) in
  setDate tz (created_at t) diff.

Definition weekKey (t : Transaction) : string :=
  toLocaleDateString tz (monday t).

(** One turn of the [forEach]: the totals of the week are created on its
    first transaction, then [+=] replaces a field of the totals found under
    the key (after the creation there always are some). *)
Definition weekStep (map : JS.Obj Week.Totals) (t : Transaction)
  : JS.Obj Week.Totals :=
  let key := weekKey t in
  let map1 :=
    match JS.get map key with
    | Some _ => map
    | None => JS.set map key {| Week.ventes := 0; Week.dépenses := 0 |}
    end in
  let map2 :=
    if isSale t then
      match JS.get map1 key with
      | Some v => JS.set map1 key {| Week.ventes := Week.ventes v + amount t;
                                    Week.dépenses := Week.dépenses v |}
      | None => map1
      end
    else map1 in
  if isExpense t then
    match JS.get map2 key with
    | Some v => JS.set map2 key {| Week.ventes := Week.ventes v;
                                  Week.dépenses := Week.dépenses v + amount t |}
    | None => map2
    end
  else map2.

Definition weekMap (transactions : list Transaction) : JS.Obj Week.Totals :=
  fold_left weekStep transactions [].

Definition salesVsExpenses (transactions : list Transaction)
  : list Week.Point :=
  List.map (fun '(semaine, v) => {| Week.semaine := semaine; Week.totals := v |})
    (JS.sort (fun a b => JS.localeCompare (fst a) (fst b))
             (JS.entries (weekMap transactions))).
End Charts.

(** ** Chart 3: top products *)

(** [t.type === 'Sale' && t.product?.name]: the name, when it is truthy. *)
Definition saleName (t : Transaction) : option string :=
  if isSale t then
    match product t with
    | Some p => if String.eqb (name p) "" then None else Some (name p)
    | None => None
    end
  else None.

Definition hasSaleName (t : Transaction) : bool :=
  match saleName t with Some _ => true | None => false end.

(** One turn of the [forEach].  For a name inherited from Object.prototype,
    [map[name]] is truthy without being an own property: nothing is created
    and the additions land on the inherited value, so [map] keeps its own
    properties. *)
Definition topStep (map : JS.Obj Top.Totals) (t : Transaction)
  : JS.Obj Top.Totals :=
  match saleName t with
  | None => map
  | Some name =>
      if JS.inherited name then map
      else
        let map1 :=
          match JS.get map name with
          | Some _ => map
          | None => JS.set map name {| Top.quantite := 0; Top.montant := 0 |}
          end in
        match JS.get map1 name with
        | Some v =>
            JS.set map1 name
              {| Top.quantite := Top.quantite v + JS.orZero (quantity t);
                 Top.montant := Top.montant v + amount t |}
        | None => map1
        end
  end.

Definition topMap (transactions : list Transaction) : JS.Obj Top.Totals :=
  fold_left topStep (filter hasSaleName transactions) [].

Definition topProducts (transactions : list Transaction) : list Top.Entry :=
  firstn 8
    (JS.sort (fun a b : Top.Entry => Top.montant b - Top.montant a)
       (List.map (fun '(produit, v) => {| Top.produit := produit; Top.totals := v |})
                 (JS.entries (topMap transactions)))).

(** ** The low-stock table: the badge of a row *)
Definition lowStockBadge (stock : Z) : string :=
  if stock =? 0 then "bg-red-100 text-red-800"
  else "bg-orange-100 text-orange-800".

End Dashboard.

(* ================================================================== *)
(** * pages/Transactions.tsx *)
(* ================================================================== *)

Module Transactions.

(** [transactions.filter(t => t.type === 'Sale')
       .reduce((sum, t) => sum + (t.quantity || 0), 0)] *)
Definition totalItemsSold (transactions : list Api.Transaction) : Z :=
  fold_left (fun sum t => sum + JS.orZero (Api.quantity t))
            (filter Api.isSale transactions) 0.

(** [totalSalesAmount] *)
Definition totalSalesAmount (transactions : list Api.Transaction) : Z :=
  fold_left (fun sum t => sum + Api.amount t)
            (filter Api.isSale transactions) 0.

(** ** The "New Transaction" form *)

(** The state of the form: every field is the text of its input. *)
Record FormData := {
  type : string;
  product_id : string;
  quantity : string;
  amount : string;
  comment : string
}.

(** The argument of [transactionApi.createTransaction].  A field that the
    handler does not set is [None]; [quantity] holds the result of
    [parseInt], which may be NaN. *)
Record Request := {
  req_type : string;
  req_amount : option Z;
  req_comment : option string;
  req_product_id : option string;
  req_quantity : option (option Z)
}.

Inductive Outcome :=
| Blocked (error : string)      (* setError(...); return *)
| Created (data : Request).     (* transactionApi.createTransaction(data) *)

Definition initialForm : FormData :=
  {| type := "Sale"; product_id := ""; quantity := ""; amount := ""; comment := "" |}.

Definition findProduct (products : list Api.Product.t) (productId : string)
  : option Api.Product.t :=
  find (fun p => String.eqb (Api.Product.id p) productId) products.

Definition nonEmpty (s : string) : bool := negb (String.eqb s "").

Definition handleProductChange (products : list Api.Product.t) (formData : FormData)
  (productId : string) : FormData :=
  match findProduct products productId with
  | Some product =>
      if nonEmpty (quantity formData) then
        let totalAmount :=
          JS.mul (Some (Api.Product.selling_price product)) (JS.parseInt (quantity formData)) in
        {| type := type formData; product_id := productId;
           quantity := quantity formData; amount := JS.toString totalAmount;
           comment := comment formData |}
      else
        {| type := type formData; product_id := productId;
           quantity := quantity formData; amount := amount formData;
           comment := comment formData |}
  | None =>
      {| type := type formData; product_id := productId;
         quantity := quantity formData; amount := amount formData;
         comment := comment formData |}
  end.

Definition handleQuantityChange (products : list Api.Product.t) (formData : FormData)
  (quantity' : string) : FormData :=
  match findProduct products (product_id formData) with
  | Some product =>
      if nonEmpty quantity' then
        let totalAmount :=
          JS.mul (Some (Api.Product.selling_price product)) (JS.parseInt quantity') in
        {| type := type formData; product_id := product_id formData;
           quantity := quantity'; amount := JS.toString totalAmount;
           comment := comment formData |}
      else
        {| type := type formData; product_id := product_id formData;
           quantity := quantity'; amount := amount formData;
           comment := comment formData |}
  | None =>
      {| type := type formData; product_id := product_id formData;
         quantity := quantity'; amount := amount formData;
         comment := comment formData |}
  end.

(** The [onChange] of the amount input. *)
Definition handleAmountChange (formData : FormData) (value : string) : FormData :=
  {| type := type formData; product_id := product_id formData;
     quantity := quantity formData; amount := value;
     comment := comment formData |}.

(** The [onChange] of the type select. *)
Definition handleTypeChange (formData : FormData) (value : string) : FormData :=
  {| type := value; product_id := ""; quantity := ""; amount := "";
     comment := comment formData |}.

Section Submit.
(** [parseFloat], whose results leave the integers, is a parameter. *)
Variable parseFloat : string -> option Z.

Definition handleSubmit (formData : FormData) : Outcome :=
  let data :=
    {| req_type := type formData;
       req_amount := parseFloat (amount formData);
       req_comment :=
         if nonEmpty (comment formData) then Some (comment formData) else None;
       req_product_id := None;
       req_quantity := None |} in
  if String.eqb (type formData) "Sale" then
    if negb (nonEmpty (product_id formData)) || negb (nonEmpty (quantity formData))
    then Blocked "Product and quantity are required for sales"
    else
      Created
        {| req_type := req_type data;
           req_amount := req_amount data;
           req_comment := req_comment data;
           req_product_id := Some (product_id formData);
           req_quantity := Some (JS.parseInt (quantity formData)) |}
  else Created data.
End Submit.

End Transactions.

(* ================================================================== *)
(** * pages/Products.tsx *)
(* ================================================================== *)

Module Products.

(** The colour of the stock figure on a product card. *)
Definition stockClass (stock : Z) : string :=
  if stock =? 0 then "text-red-600"
  else if stock <? 5 then "text-orange-600"
  else "text-green-600".

End Products.

(* ================================================================== *)
(** * Vocabulary of the statements *)
(* ================================================================== *)

Module Spec.
Import Api Dashboard.

Definition sumZ (l : list Z) : Z := fold_right Z.add 0 l.

(** The sum of [f] over the transactions of [l] that satisfy [p]. *)
Definition total (f : Transaction -> Z) (p : Transaction -> bool)
  (l : list Transaction) : Z :=
  sumZ (List.map f (filter p l)).

(** The distinct keys of a list, each at the place of its first occurrence. *)
Fixpoint firstSeen (l : list string) : list string :=
  match l with
  | [] => []
  | k :: l' => k :: filter (fun k' => negb (String.eqb k' k)) (firstSeen l')
  end.

(** The [n] consecutive day numbers that start at [d]. *)
Fixpoint daysFrom (d : Z) (n : nat) : list Z :=
  match n with
  | O => []
  | S n' => d :: daysFrom (d + 1) n'
  end.

(** Items sold, in the words of the specification: the quantities of the
    Sale transactions, a missing quantity counting for 0. *)
Fixpoint itemsSold (l : list Transaction) : Z :=
  match l with
  | [] => 0
  | t :: l' =>
      (if String.eqb (type t) "Sale"
       then match quantity t with Some q => q | None => 0 end
       else 0) + itemsSold l'
  end.

(** ** Chart 1 *)

(** The sales whose local day carries the label [k]. *)
Definition salesLabelled (tz : Calendar.Zone) (k : string) (l : list Transaction) : Z :=
  total amount (fun t => isSale t && String.eqb (Dashboard.dayKey tz t) k) l.

(** The sales whose local day is the day number [d]. *)
Definition salesOfDay (tz : Calendar.Zone) (d : Z) (l : list Transaction) : Z :=
  total amount (fun t => isSale t && (Calendar.localDay tz (created_at t) =? d)) l.

(** The daily series over the days [D0 .. D1] in which the value of a day
    is the sum of the sales of that very day. *)
Definition dailySeries (tz : Calendar.Zone) (l : list Transaction) (D0 D1 : Z)
  : list Dashboard.DayPoint :=
  List.map
    (fun d => {| Dashboard.date := Calendar.label d;
                 Dashboard.ventes := salesOfDay tz d l |})
    (daysFrom D0 (Z.to_nat (D1 - D0 + 1))).

(** ** Chart 2 *)

Definition weekVentes (tz : Calendar.Zone) (k : string) (l : list Transaction) : Z :=
  total amount (fun t => isSale t && String.eqb (Dashboard.weekKey tz t) k) l.

Definition weekDepenses (tz : Calendar.Zone) (k : string) (l : list Transaction) : Z :=
  total amount (fun t => isExpense t && String.eqb (Dashboard.weekKey tz t) k) l.

(** The totals of a week that no transaction has reached yet, the totals
    once one more transaction is counted, and the totals read under a key. *)
Definition weekZero : Dashboard.Week.Totals :=
  {| Dashboard.Week.ventes := 0; Dashboard.Week.dépenses := 0 |}.

Definition weekAdd (t : Transaction) (v : Dashboard.Week.Totals)
  : Dashboard.Week.Totals :=
  {| Dashboard.Week.ventes :=
       Dashboard.Week.ventes v + (if isSale t then amount t else 0);
     Dashboard.Week.dépenses :=
       Dashboard.Week.dépenses v + (if isExpense t then amount t else 0) |}.

Definition orWeekZero (o : option Dashboard.Week.Totals) : Dashboard.Week.Totals :=
  match o with Some v => v | None => weekZero end.

(** The sales of the week that starts on the day number [m]. *)
Definition mondayVentes (tz : Calendar.Zone) (m : Z) (l : list Transaction) : Z :=
  total amount
    (fun t => isSale t && (Calendar.localDay tz (Dashboard.monday tz t) =? m)) l.

(** The weekly chart read week by week: the bar that a transaction falls
    into holds the sales of the week of that transaction. *)
Definition weeklyBarsByWeek (tz : Calendar.Zone) (l : list Transaction) : Prop :=
  forall b t,
    In b (Dashboard.salesVsExpenses tz l) -> In t l ->
    Dashboard.weekKey tz t = Dashboard.Week.semaine b ->
    Dashboard.Week.ventes b =
    mondayVentes tz (Calendar.localDay tz (Dashboard.monday tz t)) l.

(** A daily series in ascending order of its keys. *)
Definition ascendingByKey (series : list Dashboard.DayPoint) : Prop :=
  Sorted (fun a b => JS.localeCompare (Dashboard.date a) (Dashboard.date b) <= 0)
         series.

(** ** Chart 3 *)

Definition soldAs (n : string) (t : Transaction) : bool :=
  match Dashboard.saleName t with
  | Some n' => String.eqb n' n
  | None => false
  end.

Definition productQuantity (n : string) (l : list Transaction) : Z :=
  total (fun t => match quantity t with Some q => q | None => 0 end) (soldAs n) l.

Definition productRevenue (n : string) (l : list Transaction) : Z :=
  total amount (soldAs n) l.

Definition topZero : Dashboard.Top.Totals :=
  {| Dashboard.Top.quantite := 0; Dashboard.Top.montant := 0 |}.

Definition topAdd (t : Transaction) (v : Dashboard.Top.Totals)
  : Dashboard.Top.Totals :=
  {| Dashboard.Top.quantite := Dashboard.Top.quantite v + JS.orZero (quantity t);
     Dashboard.Top.montant := Dashboard.Top.montant v + amount t |}.

Definition orTopZero (o : option Dashboard.Top.Totals) : Dashboard.Top.Totals :=
  match o with Some v => v | None => topZero end.

(** ** The stock tiers *)

(** A stock colour that flags the product as low on stock. *)
Definition flaggedLow (cls : string) : Prop :=
  cls = "text-red-600" \/ cls = "text-orange-600".

(** ** The submit handler *)

(** Every request that the handler issues for a sale carries a product and
    a quantity that is a positive integer, and every request for an expense
    or a withdrawal carries neither. *)
Definition saleRequestsWellFormed (parseFloat : string -> option Z)
  (f : Transactions.FormData) : Prop :=
  forall data,
    Transactions.handleSubmit parseFloat f = Transactions.Created data ->
    (Transactions.req_type data = "Sale" ->
       (exists p, Transactions.req_product_id data = Some p) /\
       (exists n, Transactions.req_quantity data = Some (Some n) /\ 0 < n)) /\
    (Transactions.req_type data = "Expense" \/
     Transactions.req_type data = "Withdrawal" ->
       Transactions.req_product_id data = None /\
       Transactions.req_quantity data = None).

(** ** The amount of a sale in the form *)



(** ** The kinds of transactions *)

Definition isExpenseOrWithdrawal (t : Transaction) : bool :=
  String.eqb (type t) "Expense" || String.eqb (type t) "Withdrawal".

(** A Sale transaction that carries a product whose name is [n]. *)
Definition saleOfProduct (n : string) (t : Transaction) : Prop :=
  type t = "Sale" /\ exists p, product t = Some p /\ name p = n.

Definition soldUnder (n : string) (t : Transaction) : bool :=
  String.eqb (type t) "Sale" &&
  match product t with
  | Some p => String.eqb (name p) n
  | None => false
  end.

End Spec.

(* ================================================================== *)
(** * pages/Dashboard.tsx: the period and the placeholders of the charts *)
(* ================================================================== *)

Module DashboardPage.
Import Calendar Dashboard.

(** ['7j' | '30j' | '90j' | 'custom'] *)
Inductive Period := P7j | P30j | P90j | Custom.

(** [d.toISOString().split('T')[0]]: the UTC date of a time value, given
    like every date YYYY-MM-DD by its day number. *)
Definition isoDate (d : Z) : Z := Day d.

(** [getDateRange].  [nowTo] and [nowFrom] are the two readings of the
    clock, [new Date()] for [to] and then [new Date()] for [from]. *)
Definition getDateRange (tz : Calendar.Zone) (period : Period) (customFrom customTo : option Z)
  (nowTo nowFrom : Z) : DateRange :=
  match period with
  | Custom => (customFrom, customTo)
  | _ =>
      let to := nowTo in
      let from :=
        match period with
        | P7j => setDate tz nowFrom (getDate tz nowFrom - 7)
        | P30j => setDate tz nowFrom (getDate tz nowFrom - 30)
        | P90j => setDate tz nowFrom (getDate tz nowFrom - 90)
        | Custom => nowFrom
        end in
      (Some (isoDate from), Some (isoDate to))
  end.

(** Chart 1 shows "Aucune vente sur cette période" when
    [salesByDay.every((d) => d.ventes === 0)]. *)
Definition chart1Placeholder (salesByDay : list DayPoint) : bool :=
  forallb (fun d => ventes d =? 0) salesByDay.

(** Chart 2 shows "Aucune donnée sur cette période" when
    [salesVsExpenses.length === 0], chart 3 its placeholder when
    [topProducts.length === 0]. *)
Definition chart2Placeholder (salesVsExpenses : list Week.Point) : bool :=
  (List.length salesVsExpenses =? 0)%nat.

Definition chart3Placeholder (topProducts : list Top.Entry) : bool :=
  (List.length topProducts =? 0)%nat.

End DashboardPage.

(* ================================================================== *)
(** * pages/Transactions.tsx: the sales detail by date and the form events *)
(* ================================================================== *)

Module SalesByDate.
Import Api Calendar.

Record DailySales := {
  date : string;
  totalAmount : Z;
  totalItems : Z;
  count : Z
}.

Definition monthNames : list string :=
  [ "janvier"; "février"; "mars"; "avril"; "mai"; "juin"; "juillet"; "août";
    "septembre"; "octobre"; "novembre"; "décembre" ].

(** The text of a day in the format
    [{ year: 'numeric', month: 'long', day: 'numeric' }] of fr-FR, as in
    "5 janvier 2024" (years of the common era). *)
Definition longDate (day : Z) : string :=
  let '(y, m, d) := civil day in
  JS.toString (Some d) ++ String " " (nth (Z.to_nat (m - 1)) monthNames "")
  ++ String " " (JS.toString (Some y)).

Definition dateKey (tz : Calendar.Zone) (t : Transaction) : string :=
  longDate (localDay tz (created_at t)).

(** One turn of the [reduce].  The keys contain a space, which no name
    inherited from Object.prototype does: [acc[date]] is a lookup among the
    own properties. *)
Definition step (tz : Calendar.Zone) (acc : JS.Obj DailySales) (t : Transaction)
  : JS.Obj DailySales :=
  let date := dateKey tz t in
  let acc1 :=
    match JS.get acc date with
    | Some _ => acc
    | None =>
        JS.set acc date
          {| date := date; totalAmount := 0; totalItems := 0; count := 0 |}
    end in
  match JS.get acc1 date with
  | Some v =>
      JS.set acc1 date
        {| date := SalesByDate.date v;
           totalAmount := totalAmount v + amount t;
           totalItems := totalItems v + JS.orZero (quantity t);
           count := count v + 1 |}
  | None => acc1
  end.

Definition salesByDate (tz : Calendar.Zone) (transactions : list Transaction)
  : JS.Obj DailySales :=
  fold_left (step tz) (filter isSale transactions) [].

(** [Object.values(o)] *)
Definition values {V : Type} (o : JS.Obj V) : list V := List.map snd (JS.entries o).

(** [salesByDateList] is [Object.values(salesByDate).sort(...)] with a
    comparator that parses the French date texts back with [new Date]; what
    that yields depends on the engine's date parser, so that of the sort
    only this is modelled: it rearranges the rows. *)
Definition isSalesByDateList (tz : Calendar.Zone) (transactions : list Transaction)
  (rows : list DailySales) : Prop :=
  Permutation rows (values (salesByDate tz transactions)).

(** The footer of the table counts
    [salesByDateList.reduce((s, d) => s + d.count, 0)]. *)
Definition footerCount (rows : list DailySales) : Z :=
  fold_left (fun s d => s + count d) rows 0.

End SalesByDate.

Module TransactionForm.
Import Transactions.

(** The [onChange] of the comment field. *)
Definition handleCommentChange (formData : FormData) (value : string) : FormData :=
  {| type := type formData; product_id := product_id formData;
     quantity := quantity formData; amount := amount formData;
     comment := value |}.

(** [handleOpenModal] resets the form. *)
Definition handleOpenModal : FormData := initialForm.

(** What the user can do to the form. *)
Inductive Event :=
| OpenModal
| TypeChange (value : string)
| ProductChange (productId : string)
| QuantityChange (value : string)
| AmountChange (value : string)
| CommentChange (value : string).

(** The options of the type select. *)
Definition typeOptions : list string := [ "Sale"; "Expense"; "Withdrawal" ].

(** The product select and the quantity input are rendered for
    [formData.type === 'Sale'] only, and the type select offers its three
    options. *)
Definition enabled (formData : FormData) (e : Event) : bool :=
  match e with
  | ProductChange _ | QuantityChange _ => String.eqb (type formData) "Sale"
  | TypeChange value => existsb (String.eqb value) typeOptions
  | _ => true
  end.

Definition handle (products : list Api.Product.t) (formData : FormData) (e : Event)
  : FormData :=
  match e with
  | OpenModal => handleOpenModal
  | TypeChange value => handleTypeChange formData value
  | ProductChange productId => handleProductChange products formData productId
  | QuantityChange value => handleQuantityChange products formData value
  | AmountChange value => handleAmountChange formData value
  | CommentChange value => handleCommentChange formData value
  end.

(** The states of the form that a sequence of events leads to. *)
Inductive reachable (products : list Api.Product.t) : FormData -> Prop :=
| reach_initial : reachable products initialForm
| reach_event formData e :
    reachable products formData -> enabled formData e = true ->
    reachable products (handle products formData e).

End TransactionForm.

(* ================================================================== *)
(** * pages/Products.tsx: the product form *)
(* ================================================================== *)

Module ProductsPage.

Record Product := {
  id : string;
  name : string;
  description : string;
  category : string;
  purchase_price : option Z;
  selling_price : Z;
  stock : Z;
  image_url : string
}.

Record FormData := {
  f_name : string;
  f_description : string;
  f_category : string;
  f_purchase_price : string;
  f_selling_price : string;
  f_stock : string;
  f_image_url : string
}.

(** The body sent to the API; a number field holds NaN as [None]. *)
Record Data := {
  d_name : string;
  d_description : string;
  d_category : string;
  d_purchase_price : option Z;
  d_selling_price : option Z;
  d_stock : option Z;
  d_image_url : string
}.

Inductive Call :=
| UpdateProduct (id : string) (data : Data)
| CreateProduct (data : Data).

(** [handleOpenModal(product?)]: the product under edition and the form. *)
Definition handleOpenModal (product : option Product) : option Product * FormData :=
  match product with
  | Some product =>
      (Some product,
       {| f_name := name product;
          f_description := description product;
          f_category := category product;
          f_purchase_price :=
            match purchase_price product with
            | Some p => JS.toString (Some p)
            | None => ""
            end;
          f_selling_price := JS.toString (Some (selling_price product));
          f_stock := JS.toString (Some (stock product));
          f_image_url := image_url product |})
  | None =>
      (None,
       {| f_name := ""; f_description := ""; f_category := "";
          f_purchase_price := ""; f_selling_price := ""; f_stock := "";
          f_image_url := "" |})
  end.

Section Submit.
Variable parseFloat : string -> option Z.

Definition handleSubmit (editingProduct : option Product) (formData : FormData) : Call :=
  let data :=
    {| d_name := f_name formData;
       d_description := f_description formData;
       d_category := f_category formData;
       d_purchase_price := parseFloat (f_purchase_price formData);
       d_selling_price := parseFloat (f_selling_price formData);
       d_stock := JS.parseInt (f_stock formData);
       d_image_url := f_image_url formData |} in
  match editingProduct with
  | Some p => UpdateProduct (id p) data
  | None => CreateProduct data
  end.
End Submit.

End ProductsPage.

(* ================================================================== *)
(** * App.tsx and components/Layout.tsx: the routes and the menu *)
(* ================================================================== *)

Module App.

(** The route that matches the current path. *)
Inductive Location :=
| LoginPath              (* /login *)
| RegisterPath           (* /register *)
| ShopPath (shopId : string)   (* /shop/:shopId *)
| DashboardPath          (* /dashboard *)
| ProductsPath           (* /products *)
| TransactionsPath       (* /transactions *)
| UsersPath              (* /users *)
| SettingsPath           (* /settings *)
| RootPath               (* / *)
| OtherPath.             (* * *)

Inductive Page :=
| Login | Register | PublicShop | Dashboard | Products | Transactions | Users | Settings.

(** What [useAuth()] gives: whether [user] is set, [isSuperAdmin] and
    [isLoading]. *)
Record Auth := { user : bool; isSuperAdmin : bool; isLoading : bool }.

Inductive Element :=
| Render (page : Page)
| Navigate (to : Location)
| Spinner.

Definition ProtectedRoute (auth : Auth) (children : Page) : Element :=
  if isLoading auth then Spinner
  else if negb (user auth) then Navigate LoginPath
  else Render children.

Definition SuperAdminRoute (auth : Auth) (children : Page) : Element :=
  if isLoading auth then Spinner
  else if negb (user auth) then Navigate LoginPath
  else if negb (isSuperAdmin auth) then Navigate ProductsPath
  else Render children.

Definition AppRoutes (auth : Auth) (location : Location) : Element :=
  match location with
  | LoginPath => if user auth then Navigate DashboardPath else Render Login
  | RegisterPath => if user auth then Navigate DashboardPath else Render Register
  | ShopPath _ => Render PublicShop
  | DashboardPath => SuperAdminRoute auth Dashboard
  | ProductsPath => ProtectedRoute auth Products
  | TransactionsPath => ProtectedRoute auth Transactions
  | UsersPath => SuperAdminRoute auth Users
  | SettingsPath => SuperAdminRoute auth Settings
  | RootPath => Navigate (if user auth then DashboardPath else LoginPath)
  | OtherPath => Navigate RootPath
  end.

(** Following the [Navigate] elements, at most [hops] of them. *)
Fixpoint settle (hops : nat) (auth : Auth) (location : Location) : Element :=
  match AppRoutes auth location with
  | Navigate to =>
      match hops with
      | O => Navigate to
      | S hops' => settle hops' auth to
      end
  | element => element
  end.

End App.

Module Layout.

Record Item := { name : string; href : App.Location }.

(** The entries of the menu. *)
Definition navigation (isSuperAdmin : bool) : list Item :=
  (if isSuperAdmin then [ {| name := "Dashboard"; href := App.DashboardPath |} ] else [])
  ++ [ {| name := "Products"; href := App.ProductsPath |};
       {| name := "Transactions"; href := App.TransactionsPath |} ]
  ++ (if isSuperAdmin
      then [ {| name := "Users"; href := App.UsersPath |};
             {| name := "Settings"; href := App.SettingsPath |} ]
      else []).

End Layout.

(* ================================================================== *)
(** * pages/PublicShop.tsx: the category filter *)
(* ================================================================== *)

Module PublicShop.

(** [new Set(values)]: the members in insertion order; adding a member
    again changes nothing. *)
Definition setAdd (members : list string) (value : string) : list string :=
  if existsb (String.eqb value) members then members else members ++ [value].

Definition newSet (values : list string) : list string :=
  fold_left setAdd values [].

(** [Array.from(new Set(products.map((p) => p.category).filter(Boolean)))],
    on the categories of the products. *)
Definition categories (productCategories : list string) : list string :=
  newSet (filter (fun c => negb (String.eqb c "")) productCategories).

End PublicShop.

(* ================================================================== *)
(** * pages/Transactions.tsx, the version without comments and dates *)
(* ================================================================== *)

Module TransactionsBasic.

Record FormData := {
  type : string;
  product_id : string;
  quantity : string;
  amount : string
}.

Record Request := {
  req_type : string;
  req_amount : option Z;
  req_product_id : option string;
  req_quantity : option (option Z)
}.

Inductive Outcome :=
| Blocked (error : string)
| Created (data : Request).

Definition nonEmpty (s : string) : bool := negb (String.eqb s "").

(** The handlers call [setFormData] twice with objects built from the
    state of the current render: the state after the handler is the
    argument of the last call. *)
Definition handleProductChange (products : list Api.Product.t) (formData : FormData)
  (productId : string) : FormData :=
  let first :=
    {| type := type formData; product_id := productId;
       quantity := quantity formData; amount := amount formData |} in
  if String.eqb (type formData) "Sale" && nonEmpty productId then
    match Transactions.findProduct products productId with
    | Some product =>
        if nonEmpty (quantity formData) then
          let totalAmount :=
            JS.mul (Some (Api.Product.selling_price product))
                   (JS.parseInt (quantity formData)) in
          {| type := type formData; product_id := productId;
             quantity := quantity formData; amount := JS.toString totalAmount |}
        else first
    | None => first
    end
  else first.

Definition handleQuantityChange (products : list Api.Product.t) (formData : FormData)
  (quantity' : string) : FormData :=
  let first :=
    {| type := type formData; product_id := product_id formData;
       quantity := quantity'; amount := amount formData |} in
  if String.eqb (type formData) "Sale" && nonEmpty (product_id formData)
     && nonEmpty quantity' then
    match Transactions.findProduct products (product_id formData) with
    | Some product =>
        let totalAmount :=
          JS.mul (Some (Api.Product.selling_price product)) (JS.parseInt quantity') in
        {| type := type formData; product_id := product_id formData;
           quantity := quantity'; amount := JS.toString totalAmount |}
    | None => first
    end
  else first.

(** The [onChange] of the type select keeps the other fields. *)
Definition handleTypeChange (formData : FormData) (value : string) : FormData :=
  {| type := value; product_id := product_id formData;
     quantity := quantity formData; amount := amount formData |}.

Section Submit.
Variable parseFloat : string -> option Z.

Definition handleSubmit (formData : FormData) : Outcome :=
  let data :=
    {| req_type := type formData;
       req_amount := parseFloat (amount formData);
       req_product_id := None;
       req_quantity := None |} in
  if String.eqb (type formData) "Sale" then
    if negb (nonEmpty (product_id formData)) || negb (nonEmpty (quantity formData))
    then Blocked "Product and quantity are required for sales"
    else
      Created
        {| req_type := req_type data;
           req_amount := req_amount data;
           req_product_id := Some (product_id formData);
           req_quantity := Some (JS.parseInt (quantity formData)) |}
  else Created data.
End Submit.

(** A form of the later version seen as a form of this one, and a request
    likewise. *)
Definition ofForm (f : Transactions.FormData) : FormData :=
  {| type := Transactions.type f; product_id := Transactions.product_id f;
     quantity := Transactions.quantity f; amount := Transactions.amount f |}.

Definition ofOutcome (o : Transactions.Outcome) : Outcome :=
  match o with
  | Transactions.Blocked error => Blocked error
  | Transactions.Created data =>
      Created {| req_type := Transactions.req_type data;
                 req_amount := Transactions.req_amount data;
                 req_product_id := Transactions.req_product_id data;
                 req_quantity := Transactions.req_quantity data |}
  end.

End TransactionsBasic.

(* ================================================================== *)
(** * Vocabulary of the further statements *)
(* ================================================================== *)

Module Further.

(** The shape shared by the loops that group transactions in a dictionary:
    the value under the key of the element, or the initial value of that
    key when there is none yet, is replaced by that value with the element
    added. *)
Definition upsert {V T : Type} (key : T -> string) (zero : string -> V)
  (add : T -> V -> V) (m : JS.Obj V) (t : T) : JS.Obj V :=
  JS.set m (key t)
    (add t (match JS.get m (key t) with Some v => v | None => zero (key t) end)).

(** The sum of a numeric field over the values of a dictionary. *)
Definition fieldSum {V : Type} (f : V -> Z) (m : list (string * V)) : Z :=
  Spec.sumZ (List.map (fun kv => f (snd kv)) m).

(** The initial row of a date and the row with one more sale. *)
Definition dayZero (k : string) : SalesByDate.DailySales :=
  {| SalesByDate.date := k; SalesByDate.totalAmount := 0;
     SalesByDate.totalItems := 0; SalesByDate.count := 0 |}.

Definition dayAdd (t : Api.Transaction) (v : SalesByDate.DailySales)
  : SalesByDate.DailySales :=
  {| SalesByDate.date := SalesByDate.date v;
     SalesByDate.totalAmount := SalesByDate.totalAmount v + Api.amount t;
     SalesByDate.totalItems := SalesByDate.totalItems v + JS.orZero (Api.quantity t);
     SalesByDate.count := SalesByDate.count v + 1 |}.

(** The amounts of the model are whole numbers.  The sums that the pages
    take over them are exact, in whatever order and grouping they are taken,
    and are the sums of the model, when the absolute values of the amounts
    add up to less than 2^53. *)
Definition exactSums (l : list Api.Transaction) : Prop :=
  Spec.sumZ (List.map (fun t => Z.abs (Api.amount t)) l) < 2 ^ 53.

(** All the amounts of a list are zero or more. *)
Definition amountsNonNegative (l : list Api.Transaction) : Prop :=
  forall t, In t l -> 0 <= Api.amount t.

Definition hasSpace (s : string) : bool :=
  existsb (Ascii.eqb " ") (list_ascii_of_string s).

(** The number of days that a preset period reaches back. *)
Definition periodDays (period : DashboardPage.Period) : Z :=
  match period with
  | DashboardPage.P7j => 7
  | DashboardPage.P30j => 30
  | DashboardPage.P90j => 90
  | DashboardPage.Custom => 0
  end.

(** The numbers that a JavaScript number holds exactly. *)
Definition safeInteger (z : Z) : Prop := Z.abs z < 2 ^ 53.


(** A sale under a product name that the ranking can hold. *)
Definition ranked (n : string) (l : list Api.Transaction) : Prop :=
  (exists t, In t l /\ Dashboard.saleName t = Some n) /\ JS.inherited n = false.

(** The pages behind the login. *)
Definition protectedLocations : list App.Location :=
  [ App.DashboardPath; App.ProductsPath; App.TransactionsPath;
    App.UsersPath; App.SettingsPath ].

Definition rendersAPage (auth : App.Auth) (location : App.Location) : Prop :=
  exists page, App.AppRoutes auth location = App.Render page.

Definition adminOnly (page : App.Page) : bool :=
  match page with
  | App.Dashboard | App.Users | App.Settings => true
  | _ => false
  end.

Definition loggedInOnly (page : App.Page) : bool :=
  match page with
  | App.Products | App.Transactions => true
  | _ => adminOnly page
  end.

End Further.

(* ================================================================== *)
(** * Sample records *)
(* ================================================================== *)

Module Samples.
Import Api Calendar.

(** Noon UTC of a calendar date. *)
Definition noon (y m d : Z) : Z := newDateISO (dayNumber y m d) + 12 * 3600000.

Definition sale (amount : Z) (at_ : Z) : Transaction :=
  {| id := "s"; type := "Sale"; product_id := None; product := None;
     quantity := Some 1; amount := amount; comment := None; created_at := at_ |}.

Definition expense (amount : Z) (at_ : Z) : Transaction :=
  {| id := "e"; type := "Expense"; product_id := None; product := None;
     quantity := None; amount := amount; comment := None; created_at := at_ |}.

Definition saleOf (product : string) (quantity : option Z) (amount : Z) : Transaction :=
  {| id := "p"; type := "Sale"; product_id := Some product;
     product := Some {| name := product |};
     quantity := quantity; amount := amount; comment := None;
     created_at := noon 2024 1 1 |}.

(** The scenario of the specification: a sale of 50 (2 items) and an
    expense of 20 on one day, a sale of 30 (1 item) on the next. *)
Definition scenario : list Transaction :=
  [ {| id := "1"; type := "Sale"; product_id := None; product := None;
       quantity := Some 2; amount := 50; comment := None;
       created_at := noon 2024 1 1 |};
    expense 20 (noon 2024 1 1);
    sale 30 (noon 2024 1 2) ].

(** One hour east of UTC. *)
Definition utcPlus1 : Z := 3600000.

(** Five hours west of UTC. *)
Definition utcMinus5 : Z := -5 * 3600000.

(** A zone that leaves summer time, two hours east of UTC, for one hour
    east of UTC on 27 October 2024 at 01:00 UTC, as Europe/Paris did. *)
Definition parisAutumn2024 : Calendar.Zone :=
  Calendar.transition (2 * 3600000) 3600000
    (newDateISO (dayNumber 2024 10 27) + 3600000).

Definition televisions : list Transaction :=
  [ saleOf "tv" (Some 2) 100; saleOf "radio" None 500; saleOf "tv" (Some 3) 50 ].

(** Two products of the shop. *)
Definition tv : Api.Product.t :=
  {| Api.Product.id := "p1"; Api.Product.name := "tv";
     Api.Product.selling_price := 25; Api.Product.stock := 9 |}.

Definition radio : Api.Product.t :=
  {| Api.Product.id := "p2"; Api.Product.name := "radio";
     Api.Product.selling_price := 40; Api.Product.stock := 3 |}.

Definition catalogue : list Api.Product.t := [ tv; radio ].

Definition saleForm (quantity : string) : Transactions.FormData :=
  {| Transactions.type := "Sale"; Transactions.product_id := "p1";
     Transactions.quantity := quantity; Transactions.amount := "0";
     Transactions.comment := "" |}.

End Samples.

Import Dashboard.

(** The calendar arithmetic is not to be unfolded by [simpl]. *)
Arguments Calendar.civil : simpl never.
Arguments Calendar.label : simpl never.
Arguments Calendar.Day : simpl never.
Arguments Calendar.TimeWithinDay : simpl never.
Arguments Calendar.WeekDay : simpl never.
Arguments Calendar.newDateISO : simpl never.
Arguments Calendar.setDate : simpl never.
Arguments Calendar.getDate : simpl never.
Arguments Calendar.getDay : simpl never.
Arguments Calendar.localDay : simpl never.
Arguments Calendar.toLocaleDateString : simpl never.
Arguments Dashboard.dayKey : simpl never.
Arguments Dashboard.dayPoint : simpl never.
Arguments Dashboard.monday : simpl never.
Arguments Dashboard.weekKey : simpl never.

(* ================================================================== *)
(** * Facts about the runtime operations *)
(* ================================================================== *)

Lemma orZero_Some (n : Z) : JS.orZero (Some n) = n.
Proof.
  unfold JS.orZero. destruct (Z.eqb_spec n 0); congruence.
Qed.

Section ObjFacts.
Context {V : Type}.
Implicit Types (o : JS.Obj V) (k : string) (v : V).

Lemma get_set_same o k v : JS.get (JS.set o k v) k = Some v.
Proof.
  induction o as [|[k' v'] o IH]; simpl.
  - now rewrite String.eqb_refl.
  - destruct (String.eqb k' k) eqn:E; simpl; now rewrite E.
Qed.

Lemma get_set_other o k k' v :
  k <> k' -> JS.get (JS.set o k v) k' = JS.get o k'.
Proof.
  intros N. induction o as [|[k0 v0] o IH]; simpl.
  - destruct (String.eqb_spec k k'); congruence.
  - destruct (String.eqb_spec k0 k); simpl.
    + subst k0. destruct (String.eqb_spec k k'); congruence.
    + now rewrite IH.
Qed.

Lemma ownKeys_set o k v :
  JS.ownKeys (JS.set o k v) =
  match JS.get o k with
  | Some _ => JS.ownKeys o
  | None => JS.ownKeys o ++ [k]
  end.
Proof.
  induction o as [|[k0 v0] o IH]; simpl; trivial.
  destruct (String.eqb k0 k); simpl; trivial.
  rewrite IH. now destruct (JS.get o k).
Qed.

Lemma get_None o k : JS.get o k = None <-> ~ In k (JS.ownKeys o).
Proof.
  induction o as [|[k0 v0] o IH]; simpl.
  - tauto.
  - destruct (String.eqb_spec k0 k).
    + split; [discriminate | intros H; exfalso; apply H; now left].
    + rewrite IH. tauto.
Qed.

Lemma get_Some_In o k v : JS.get o k = Some v -> In (k, v) o.
Proof.
  induction o as [|[k0 v0] o IH]; simpl; [discriminate|].
  destruct (String.eqb_spec k0 k).
  - intros [= ->]. subst. now left.
  - intros H. right. auto.
Qed.

Lemma In_get o k v : NoDup (JS.ownKeys o) -> In (k, v) o -> JS.get o k = Some v.
Proof.
  induction o as [|[k0 v0] o IH]; simpl; [tauto|].
  intros ND [E | I].
  - injection E as -> ->. now rewrite String.eqb_refl.
  - inversion ND as [|? ? Hk ND']; subst.
    destruct (String.eqb_spec k0 k).
    + subst k0. exfalso. apply Hk. change k with (fst (k, v)). now apply in_map.
    + auto.
Qed.

Lemma set_set o k v w : JS.set (JS.set o k v) k w = JS.set o k w.
Proof.
  induction o as [|[k0 v0] o IH]; simpl.
  - now rewrite String.eqb_refl.
  - destruct (String.eqb k0 k) eqn:E; simpl; rewrite E; congruence.
Qed.

Lemma set_get_id o k v : JS.get o k = Some v -> JS.set o k v = o.
Proof.
  induction o as [|[k0 v0] o IH]; simpl; [discriminate|].
  destruct (String.eqb k0 k); [intros [= ->]; trivial | intros G; now rewrite IH].
Qed.

Lemma NoDup_set o k v : NoDup (JS.ownKeys o) -> NoDup (JS.ownKeys (JS.set o k v)).
Proof.
  intros ND. rewrite ownKeys_set.
  destruct (JS.get o k) eqn:G; trivial.
  apply get_None in G.
  apply NoDup_app; try assumption.
  - constructor; [tauto | constructor].
  - intros x Hx [<- | []]. exact (G Hx).
Qed.
End ObjFacts.

Section SortFacts.
Context {A : Type}.
Variable cmp : A -> A -> Z.

Lemma insert_perm x l : Permutation (x :: l) (JS.insert cmp x l).
Proof.
  induction l as [|y l IH]; simpl; [reflexivity|].
  destruct (cmp x y <=? 0); [reflexivity|].
  rewrite perm_swap. now constructor.
Qed.

Lemma sort_perm l : Permutation l (JS.sort cmp l).
Proof.
  induction l as [|x l IH]; simpl; [constructor|].
  etransitivity; [|apply insert_perm]. now constructor.
Qed.

(** A comparator that never ranks each of two elements after the other. *)
Hypothesis cmp_total : forall x y, 0 < cmp x y -> cmp y x <= 0.

Lemma insert_sorted x l :
  Sorted (fun a b => cmp a b <= 0) l ->
  Sorted (fun a b => cmp a b <= 0) (JS.insert cmp x l).
Proof.
  induction 1 as [|y l S IH H]; simpl.
  - repeat constructor.
  - destruct (Z.leb_spec (cmp x y) 0) as [L | G].
    + constructor; [now constructor | now constructor].
    + constructor; trivial.
      destruct l as [|z l]; simpl.
      * constructor. apply cmp_total. lia.
      * destruct (cmp x z <=? 0); constructor.
        -- apply cmp_total. lia.
        -- now inversion H.
Qed.

Lemma sort_sorted l : Sorted (fun a b => cmp a b <= 0) (JS.sort cmp l).
Proof.
  induction l as [|x l IH]; simpl; [constructor | now apply insert_sorted].
Qed.
End SortFacts.

Section EntriesFacts.
Context {V : Type}.
Implicit Types (o : JS.Obj V).

Lemma filter_split_perm (f : string * V -> bool) o :
  Permutation (filter f o ++ filter (fun x => negb (f x)) o) o.
Proof.
  induction o as [|x o IH]; simpl; [constructor|].
  destruct (f x); simpl.
  - now constructor.
  - symmetry. apply Permutation_cons_app. now symmetry.
Qed.

Lemma entries_perm o : Permutation (JS.entries o) o.
Proof.
  unfold JS.entries.
  etransitivity; [|apply filter_split_perm with (f := fun kv => JS.isArrayIndex (fst kv))].
  apply Permutation_app_tail. symmetry. apply sort_perm.
Qed.

(** With no array-index key, the entries come in creation order. *)
Lemma entries_creation_order o :
  Forall (fun k => JS.isArrayIndex k = false) (JS.ownKeys o) ->
  JS.entries o = o.
Proof.
  unfold JS.entries. induction o as [|[k v] o IH]; simpl; trivial.
  intros H. inversion H as [|? ? Hk Ho]; subst.
  rewrite Hk. simpl. specialize (IH Ho).
  destruct (filter (fun kv => JS.isArrayIndex (fst kv)) o) eqn:F.
  - simpl in *. now rewrite IH.
  - exfalso.
    assert (I : In p (filter (fun kv => JS.isArrayIndex (fst kv)) o))
      by (rewrite F; now left).
    apply filter_In in I. destruct I as [I T].
    rewrite Forall_forall in Ho.
    rewrite (Ho (fst p)) in T; [discriminate|]. now apply in_map.
Qed.

Lemma entries_keys_NoDup o :
  NoDup (JS.ownKeys o) -> NoDup (List.map fst (JS.entries o)).
Proof.
  intros ND. eapply Permutation_NoDup; [|exact ND].
  symmetry. apply Permutation_map. apply entries_perm.
Qed.

Lemma entries_get o k v :
  NoDup (JS.ownKeys o) -> In (k, v) (JS.entries o) -> JS.get o k = Some v.
Proof.
  intros ND I. apply In_get; trivial.
  eapply Permutation_in; [apply entries_perm | exact I].
Qed.
End EntriesFacts.

(* ================================================================== *)
(** * Facts about dates and labels *)
(* ================================================================== *)

Section DateFacts.
Import Calendar.
Variable tz : Z.

Lemma Day_MakeDate (d t : Z) : 0 <= t < msPerDay -> Day (MakeDate d t) = d.
Proof.
  intros H. unfold Day, MakeDate.
  rewrite Z.add_comm, Z.div_add by (unfold msPerDay; lia).
  rewrite Z.div_small by assumption. lia.
Qed.

Lemma TimeWithinDay_range (t : Z) : 0 <= TimeWithinDay t < msPerDay.
Proof. unfold TimeWithinDay. apply Z.mod_pos_bound. unfold msPerDay. lia. Qed.

(** In a zone of fixed offset, [setDate] moves the local day by the
    difference between the new and the old day of the month. *)
Lemma localDay_setDate (d dt : Z) :
  localDay tz (setDate tz d dt) = localDay tz d - getDate tz d + dt.
Proof.
  unfold localDay, setDate, LocalTime, UTC. cbn [offsetAt offsetOfLocal fixed].
  replace (MakeDate (MakeDayInMonth (d + tz) dt) (TimeWithinDay (d + tz)) - tz + tz)
    with (MakeDate (MakeDayInMonth (d + tz) dt) (TimeWithinDay (d + tz))) by lia.
  rewrite Day_MakeDate by apply TimeWithinDay_range.
  unfold MakeDayInMonth, getDate, LocalTime. cbn [offsetAt fixed]. lia.
Qed.

(** In a zone of fixed offset, [cur.setDate(cur.getDate() + 1)] is one day
    later, to the millisecond. *)
Lemma setDate_next (d : Z) : setDate tz d (getDate tz d + 1) = d + msPerDay.
Proof.
  unfold setDate, getDate, UTC, MakeDate, MakeDayInMonth, LocalTime,
    TimeWithinDay, Day. cbn [offsetAt offsetOfLocal fixed].
  assert (E : d + tz = msPerDay * ((d + tz) / msPerDay) + (d + tz) mod msPerDay)
    by (apply Z.div_mod; unfold msPerDay; lia).
  lia.
Qed.

Lemma localDay_newDateISO (D : Z) :
  0 <= tz < msPerDay -> localDay tz (newDateISO D) = D.
Proof.
  intros H. unfold localDay, LocalTime, newDateISO. cbn [offsetAt fixed].
  now apply (Day_MakeDate D tz).
Qed.

(** A label is two characters, a slash and two characters. *)
Lemma label_shape (day : Z) :
  exists a b c d, label day = String a (String b (String "/" (String c (String d "")))).
Proof.
  unfold label. destruct (civil day) as [[y m] d]. unfold twoDigit. simpl.
  eauto.
Qed.

Lemma label_not_index (day : Z) : JS.isArrayIndex (label day) = false.
Proof.
  destruct (label_shape day) as (a & b & c & d & ->).
  unfold JS.isArrayIndex, JS.arrayIndex.
  destruct (Ascii.eqb a "0" && _); trivial.
  simpl. destruct (JS.isDigit a); trivial.
  destruct (JS.isDigit b); trivial.
Qed.

(** No label is a property name of Object.prototype, so that reading
    [map[key]] for a label is a lookup among the own properties. *)
Lemma label_not_inherited (day : Z) : JS.inherited (label day) = false.
Proof.
  destruct (JS.inherited (label day)) eqn:E; trivial.
  exfalso. unfold JS.inherited in E.
  apply existsb_exists in E. destruct E as (n & I & E).
  apply String.eqb_eq in E. subst n.
  destruct (label_shape day) as (a & b & c & d & S). rewrite S in I.
  simpl in I. repeat (destruct I as [I | I]; [discriminate I|]). exact I.
Qed.
End DateFacts.

(* ================================================================== *)
(** * Facts about lists, sums and keys *)
(* ================================================================== *)

Section ListFacts.
Context {A : Type}.

Lemma filter_filter_and (p q : A -> bool) (l : list A) :
  filter p (filter q l) = filter (fun x => q x && p x) l.
Proof.
  induction l as [|x l IH]; simpl; trivial.
  destruct (q x); simpl; [destruct (p x)|]; now rewrite IH.
Qed.

Lemma firstn_StronglySorted (R : A -> A -> Prop) (n : nat) (l : list A) :
  StronglySorted R l -> StronglySorted R (firstn n l).
Proof.
  intros S. revert n. induction S as [|x l S IH F]; intros [|n]; simpl;
    try constructor; auto.
  rewrite Forall_forall in *. intros y Hy. apply F.
  eapply In_nth_error in Hy. destruct Hy as [i Hy].
  rewrite nth_error_firstn in Hy. destruct (i <? n)%nat; [|discriminate].
  eapply nth_error_In; eauto.
Qed.
End ListFacts.

Lemma sumZ_app (l1 l2 : list Z) : Spec.sumZ (l1 ++ l2) = Spec.sumZ l1 + Spec.sumZ l2.
Proof. induction l1; simpl; lia. Qed.

Lemma total_cons f p t l :
  Spec.total f p (t :: l) = (if p t then f t else 0) + Spec.total f p l.
Proof. unfold Spec.total. simpl. destruct (p t); simpl; lia. Qed.

Lemma total_nil f p : Spec.total f p [] = 0.
Proof. reflexivity. Qed.

Lemma total_ext f p q l :
  (forall t, In t l -> p t = q t) -> Spec.total f p l = Spec.total f q l.
Proof.
  intros H. unfold Spec.total. now rewrite (filter_ext_in p q l H).
Qed.

Lemma total_none f p l :
  (forall t, In t l -> p t = false) -> Spec.total f p l = 0.
Proof.
  intros H. rewrite (total_ext f p (fun _ => false) l H).
  unfold Spec.total. clear H. induction l; simpl; trivial.
Qed.

Lemma existsb_eqb_In (k : string) (ks : list string) :
  existsb (String.eqb k) ks = true <-> In k ks.
Proof.
  rewrite existsb_exists. split.
  - intros (x & I & E). apply String.eqb_eq in E. now subst.
  - intros I. exists k. split; trivial. apply String.eqb_refl.
Qed.

Lemma firstSeen_In (k : string) (l : list string) :
  In k (Spec.firstSeen l) <-> In k l.
Proof.
  induction l as [|x l IH]; simpl; [tauto|].
  rewrite filter_In, IH.
  destruct (String.eqb_spec k x); simpl; intuition congruence.
Qed.

Lemma firstSeen_NoDup (l : list string) : NoDup (Spec.firstSeen l).
Proof.
  induction l as [|x l IH]; simpl; constructor.
  - rewrite filter_In, String.eqb_refl. simpl. intros [_ H]. discriminate.
  - now apply NoDup_filter.
Qed.

(** The keys of a dictionary filled by a loop that creates the key of each
    element on its first occurrence. *)
Section FoldKeys.
Context {V T : Type}.
Variable step : JS.Obj V -> T -> JS.Obj V.
Variable key : T -> string.

Hypothesis step_keys : forall m t,
  JS.ownKeys (step m t) =
  match JS.get m (key t) with
  | Some _ => JS.ownKeys m
  | None => JS.ownKeys m ++ [key t]
  end.

Lemma fold_keys (l : list T) (m : JS.Obj V) :
  JS.ownKeys (fold_left step l m) =
  JS.ownKeys m ++
  filter (fun k => negb (existsb (String.eqb k) (JS.ownKeys m)))
         (Spec.firstSeen (List.map key l)).
Proof.
  revert m. induction l as [|t l IH]; intros m; simpl.
  - now rewrite app_nil_r.
  - rewrite IH, step_keys. destruct (JS.get m (key t)) eqn:G.
    + assert (I : existsb (String.eqb (key t)) (JS.ownKeys m) = true).
      { apply existsb_eqb_In. destruct (in_dec string_dec (key t) (JS.ownKeys m)) as [I|N];
          trivial. apply get_None in N. congruence. }
      rewrite I. simpl. f_equal.
      rewrite filter_filter_and. apply filter_ext_in. intros k _.
      destruct (String.eqb_spec k (key t)) as [->|]; simpl; trivial.
      now rewrite I.
    + assert (I : existsb (String.eqb (key t)) (JS.ownKeys m) = false).
      { destruct (existsb _ _) eqn:E; trivial.
        apply existsb_eqb_In in E. apply get_None in G. tauto. }
      rewrite I. simpl. rewrite <- app_assoc. simpl. do 2 f_equal.
      rewrite filter_filter_and. apply filter_ext_in. intros k _.
      rewrite existsb_app. simpl. rewrite orb_false_r.
      destruct (String.eqb k (key t));
        destruct (existsb (String.eqb k) (JS.ownKeys m)); reflexivity.
Qed.

Lemma fold_keys_empty (l : list T) :
  JS.ownKeys (fold_left step l []) = Spec.firstSeen (List.map key l).
Proof.
  rewrite fold_keys. simpl.
  induction (Spec.firstSeen (List.map key l)); simpl; congruence.
Qed.
End FoldKeys.

(** A dictionary is determined by its keys and by its value at each. *)
Lemma obj_by_keys {V : Type} (f : string -> V) (o : JS.Obj V) :
  (forall k v, In (k, v) o -> v = f k) ->
  o = List.map (fun k => (k, f k)) (JS.ownKeys o).
Proof.
  induction o as [|[k v] o IH]; simpl; trivial.
  intros H. rewrite <- IH by auto. now rewrite <- (H k v) by auto.
Qed.

(* ================================================================== *)
(** * Chart 1: the daily series *)
(* ================================================================== *)

Section SalesByDayFacts.
Import Api Calendar Dashboard.
Variable tz : Zone.

Lemma dayFold_value (l : list Transaction) (m : JS.Obj Z) (k : string) :
  JS.orZero (JS.get (fold_left (dayStep tz) l m) k) =
  JS.orZero (JS.get m k)
  + Spec.total amount (fun t => String.eqb (dayKey tz t) k) l.
Proof.
  revert m. induction l as [|t l IH]; intros m; cbn [fold_left].
  - rewrite total_nil. lia.
  - rewrite IH, total_cons. unfold dayStep.
    destruct (String.eqb_spec (dayKey tz t) k) as [<-|N].
    + rewrite get_set_same, orZero_Some. lia.
    + rewrite get_set_other by assumption. lia.
Qed.

(** What the dictionary of chart 1 holds under a key. *)
Lemma dayMap_value (txs : list Transaction) (k : string) :
  JS.orZero (JS.get (dayMap tz txs) k) = Spec.salesLabelled tz k txs.
Proof.
  unfold dayMap. rewrite dayFold_value. cbn [JS.get JS.orZero].
  unfold Spec.salesLabelled, Spec.total. now rewrite filter_filter_and.
Qed.

Lemma dayMap_keys (txs : list Transaction) :
  JS.ownKeys (dayMap tz txs) =
  Spec.firstSeen (List.map (dayKey tz) (filter isSale txs)).
Proof.
  unfold dayMap. apply fold_keys_empty.
  intros m t. unfold dayStep. apply ownKeys_set.
Qed.

Lemma dayMap_keys_NoDup (txs : list Transaction) : NoDup (JS.ownKeys (dayMap tz txs)).
Proof. rewrite dayMap_keys. apply firstSeen_NoDup. Qed.

Lemma dayMap_no_index (txs : list Transaction) :
  Forall (fun k => JS.isArrayIndex k = false) (JS.ownKeys (dayMap tz txs)).
Proof.
  rewrite dayMap_keys. apply Forall_forall. intros k I.
  apply firstSeen_In, in_map_iff in I. destruct I as (t & <- & _).
  apply label_not_index.
Qed.

Lemma dayKey_label (t : Transaction) :
  dayKey tz t = label (localDay tz (created_at t)).
Proof. reflexivity. Qed.

(** When the sales that carry the label of a day all fall on that day, the
    sum under the label is the sum of the day. *)
Lemma salesLabelled_of_day (txs : list Transaction) (d : Z) :
  (forall t, In t txs -> isSale t = true -> dayKey tz t = label d ->
             localDay tz (created_at t) = d) ->
  Spec.salesLabelled tz (label d) txs = Spec.salesOfDay tz d txs.
Proof.
  intros H. apply total_ext. intros t I.
  destruct (isSale t) eqn:S; trivial. cbn [andb].
  destruct (Z.eqb_spec (localDay tz (created_at t)) d) as [E|N].
  - apply String.eqb_eq. rewrite dayKey_label. now rewrite E.
  - apply String.eqb_neq. intros K. apply N. now apply H.
Qed.

(** The loop makes no turn when [cur] is past [end]. *)
Lemma dayLoop_past (n : nat) (map : JS.Obj Z) (cur end_ : Z) :
  end_ < cur -> dayLoop tz n map cur end_ = [].
Proof.
  intros H. destruct n; cbn [dayLoop]; trivial.
  destruct (Z.leb_spec cur end_); trivial. lia.
Qed.

(** Every point of the loop is the point of some instant. *)
Lemma dayLoop_points (n : nat) (map : JS.Obj Z) (cur end_ : Z) (p : DayPoint) :
  In p (dayLoop tz n map cur end_) -> exists c, p = dayPoint tz map c.
Proof.
  revert cur. induction n as [|n IH]; intros cur; cbn [dayLoop]; [intros []|].
  destruct (cur <=? end_); [|intros []].
  intros [<- | I]; eauto.
Qed.

(** The loop reads the dictionary through [map[key] || 0] only. *)
Lemma dayLoop_ext (n : nat) (map map' : JS.Obj Z) (cur end_ : Z) :
  (forall k, JS.orZero (JS.get map k) = JS.orZero (JS.get map' k)) ->
  dayLoop tz n map cur end_ = dayLoop tz n map' cur end_.
Proof.
  intros H. revert cur. induction n as [|n IH]; intros cur; cbn [dayLoop]; trivial.
  destruct (cur <=? end_); trivial.
  rewrite IH. f_equal. unfold dayPoint. now rewrite H.
Qed.

(** The loop stops on its own condition: wherever a turn moves [cur]
    forward by half a day at least, as in every zone whose days of local
    time last 12 hours or more, the bound that [salesByDay] passes is never
    reached first, and a larger bound gives the same list. *)
Lemma dayLoop_fuel (n n' : nat) (map : JS.Obj Z) (cur end_ : Z) :
  (forall t, t + msPerDay / 2 <= setDate tz t (getDate tz t + 1)) ->
  (Z.to_nat ((end_ - cur) / (msPerDay / 2) + 1) <= n)%nat -> (n <= n')%nat ->
  dayLoop tz n' map cur end_ = dayLoop tz n map cur end_.
Proof.
  intros H. revert n' cur. induction n as [|n IH]; intros n' cur B L.
  - cbn [dayLoop]. apply dayLoop_past.
    assert (Q : (end_ - cur) / (msPerDay / 2) + 1 <= 0) by lia.
    assert (P : 0 < msPerDay / 2) by reflexivity.
    destruct (Z.lt_ge_cases end_ cur) as [|G]; trivial.
    assert (0 <= (end_ - cur) / (msPerDay / 2)) by (apply Z.div_pos; lia). lia.
  - destruct n' as [|n']; [lia|]. cbn [dayLoop].
    destruct (Z.leb_spec cur end_) as [C|C]; trivial. f_equal.
    apply IH; [|lia].
    specialize (H cur).
    set (h := msPerDay / 2) in *.
    assert (P : 0 < h) by reflexivity.
    assert (Q : (end_ - setDate tz cur (getDate tz cur + 1)) / h
                <= (end_ - cur + (-1) * h) / h) by (apply Z.div_le_mono; lia).
    rewrite Z.div_add in Q by lia.
    assert (0 <= (end_ - cur) / h) by (apply Z.div_pos; lia).
    destruct (Z.lt_ge_cases (end_ - setDate tz cur (getDate tz cur + 1)) 0) as [M|M].
    + assert ((end_ - setDate tz cur (getDate tz cur + 1)) / h < 0)
        by (apply Z.div_lt_upper_bound; lia). lia.
    + assert (0 <= (end_ - setDate tz cur (getDate tz cur + 1)) / h)
        by (apply Z.div_pos; lia). lia.
Qed.
(** [cur.setDate(cur.getDate() + 1)] is the instant that the zone gives for
    the local time one day later. *)
Lemma setDate_next_local (t : Z) :
  setDate tz t (getDate tz t + 1) = UTC tz (LocalTime tz t + msPerDay).
Proof.
  unfold setDate, getDate. cbv zeta. f_equal.
  set (l := LocalTime tz t).
  unfold MakeDate, MakeDayInMonth, TimeWithinDay, Day.
  assert (E : l = msPerDay * (l / msPerDay) + l mod msPerDay)
    by (apply Z.div_mod; unfold msPerDay; lia).
  unfold msPerDay in *. lia.
Qed.

(** A turn of the loop moves [cur] forward by half a day at least in a zone
    whose offsets lie within twelve hours of one another. *)
Lemma dayLoop_advances :
  (forall a b, offsetOfLocal tz a - offsetAt tz b <= msPerDay / 2) ->
  forall t, t + msPerDay / 2 <= setDate tz t (getDate tz t + 1).
Proof.
  intros H t. rewrite setDate_next_local. unfold UTC, LocalTime.
  specialize (H (t + offsetAt tz t + msPerDay) t).
  change (msPerDay / 2) with 43200000 in *. unfold msPerDay in *. lia.
Qed.

(** In such a zone [salesByDay] is the loop: a larger bound on the turns
    than the one it passes gives the same series. *)
Lemma salesByDay_loop (txs : list Transaction) (D0 D1 : Z) (n : nat) :
  (forall a b, offsetOfLocal tz a - offsetAt tz b <= msPerDay / 2) ->
  (Z.to_nat ((newDateISO D1 - newDateISO D0) / (msPerDay / 2) + 1) <= n)%nat ->
  dayLoop tz n (dayMap tz txs) (newDateISO D0) (newDateISO D1) =
  salesByDay tz txs (Some D0, Some D1).
Proof.
  intros H L. unfold salesByDay. apply dayLoop_fuel; trivial.
  now apply dayLoop_advances.
Qed.
End SalesByDayFacts.

(** The offsets of a zone of fixed offset, and those of a zone that moves
    its clock by twelve hours at most, lie within twelve hours of one
    another. *)
Lemma fixed_within (tz a b : Z) :
  Calendar.offsetOfLocal (Calendar.fixed tz) a - Calendar.offsetAt (Calendar.fixed tz) b
  <= Calendar.msPerDay / 2.
Proof.
  cbn [Calendar.offsetOfLocal Calendar.offsetAt Calendar.fixed].
  change (Calendar.msPerDay / 2) with 43200000. lia.
Qed.

Lemma transition_within (before after at_ a b : Z) :
  Z.abs (before - after) <= Calendar.msPerDay / 2 ->
  Calendar.offsetOfLocal (Calendar.transition before after at_) a
  - Calendar.offsetAt (Calendar.transition before after at_) b
  <= Calendar.msPerDay / 2.
Proof.
  change (Calendar.msPerDay / 2) with 43200000. intros H.
  cbn [Calendar.offsetOfLocal Calendar.offsetAt Calendar.transition].
  destruct (a <? at_ + Z.max before after), (b <? at_); lia.
Qed.

Section SalesByDayFixed.
Import Api Calendar Dashboard.
(** The offset of a zone that keeps it. *)
Variable tz : Z.

Lemma dayLoop_days (n : nat) (map : JS.Obj Z) (D E : Z) :
  dayLoop tz n map (newDateISO D) (newDateISO E) =
  List.map (fun d => dayPoint tz map (newDateISO d))
           (Spec.daysFrom D (Nat.min n (Z.to_nat (E - D + 1)))).
Proof.
  revert D. induction n as [|n IH]; intros D; cbn [dayLoop]; trivial.
  assert (N : newDateISO D + msPerDay = newDateISO (D + 1))
    by (unfold newDateISO; lia).
  destruct (Z.leb_spec (newDateISO D) (newDateISO E)) as [L | G].
  - unfold newDateISO, msPerDay in L.
    replace (Z.to_nat (E - D + 1)) with (S (Z.to_nat (E - (D + 1) + 1))) by lia.
    cbn [Nat.min Spec.daysFrom List.map]. f_equal.
    rewrite setDate_next, N. apply IH.
  - unfold newDateISO, msPerDay in G.
    replace (Z.to_nat (E - D + 1)) with O by lia. now rewrite Nat.min_0_r.
Qed.

(** In a zone of fixed offset the loop makes one turn per day of the
    range. *)
Lemma salesByDay_days (txs : list Transaction) (D0 D1 : Z) :
  salesByDay tz txs (Some D0, Some D1) =
  List.map (fun d => dayPoint tz (dayMap tz txs) (newDateISO d))
           (Spec.daysFrom D0 (Z.to_nat (D1 - D0 + 1))).
Proof.
  unfold salesByDay. rewrite dayLoop_days. f_equal. f_equal.
  replace ((newDateISO D1 - newDateISO D0) / (msPerDay / 2)) with ((D1 - D0) * 2).
  - lia.
  - unfold newDateISO. rewrite <- Z.mul_sub_distr_r.
    change msPerDay with (2 * (msPerDay / 2)) at 1.
    rewrite Z.mul_assoc. symmetry. apply Z.div_mul. discriminate.
Qed.

Lemma daysFrom_length (d : Z) (n : nat) : List.length (Spec.daysFrom d n) = n.
Proof. revert d. induction n; intros; simpl; auto. Qed.

Lemma daysFrom_nth (d : Z) (n i : nat) :
  (i < n)%nat -> nth_error (Spec.daysFrom d n) i = Some (d + Z.of_nat i).
Proof.
  revert d i. induction n as [|n IH]; intros d [|i] H; simpl; try lia.
  - f_equal. lia.
  - rewrite IH by lia. f_equal. lia.
Qed.

Lemma daysFrom_In (d : Z) (n : nat) (x : Z) :
  In x (Spec.daysFrom d n) <-> d <= x < d + Z.of_nat n.
Proof.
  revert d. induction n as [|n IH]; intros d; cbn [Spec.daysFrom In]; [lia|].
  rewrite IH. lia.
Qed.

(** East of Greenwich and up to the date line, midnight UTC of a day is
    within that local day. *)
Lemma dayPoint_newDateISO (txs : list Transaction) (d : Z) :
  0 <= tz < msPerDay ->
  dayPoint tz (dayMap tz txs) (newDateISO d) =
  {| date := label d; ventes := Spec.salesLabelled tz (label d) txs |}.
Proof.
  intros H. unfold dayPoint, toLocaleDateString.
  rewrite localDay_newDateISO by assumption. now rewrite dayMap_value.
Qed.

End SalesByDayFixed.

(** What the daily series is in a zone of fixed offset, from UTC up to the
    date line: for every transaction list and every range of days
    D0 <= D1 it has exactly (D1 - D0) + 1 points, one per calendar day of
    the range in ascending order; the point of rank i carries the dd/mm
    label of the day D0 + i and, as value, the sum of the amounts of the
    Sale transactions whose local day has that same dd/mm label, in
    whatever year; a day with no such sale gets the value 0. *)
Lemma salesByDay_range (tz : Z) (txs : list Api.Transaction) (D0 D1 : Z) :
  0 <= tz < Calendar.msPerDay -> D0 <= D1 ->
  let series := Dashboard.salesByDay tz txs (Some D0, Some D1) in
  Z.of_nat (List.length series) = D1 - D0 + 1 /\
  (forall i, 0 <= i <= D1 - D0 ->
     nth_error series (Z.to_nat i) =
     Some {| Dashboard.date := Calendar.label (D0 + i);
             Dashboard.ventes :=
               Spec.salesLabelled tz (Calendar.label (D0 + i)) txs |}) /\
  (forall i, 0 <= i <= D1 - D0 ->
     (forall t, In t txs -> Api.isSale t = true ->
                Dashboard.dayKey tz t <> Calendar.label (D0 + i)) ->
     nth_error series (Z.to_nat i) =
     Some {| Dashboard.date := Calendar.label (D0 + i); Dashboard.ventes := 0 |}).
Proof.
  intros Htz Hle series.
  assert (E : series =
    List.map (fun d => {| Dashboard.date := Calendar.label d;
                          Dashboard.ventes := Spec.salesLabelled tz (Calendar.label d) txs |})
             (Spec.daysFrom D0 (Z.to_nat (D1 - D0 + 1)))).
  { unfold series. rewrite salesByDay_days. apply map_ext.
    intros d. now apply dayPoint_newDateISO. }
  assert (N : forall i, 0 <= i <= D1 - D0 ->
     nth_error series (Z.to_nat i) =
     Some {| Dashboard.date := Calendar.label (D0 + i);
             Dashboard.ventes :=
               Spec.salesLabelled tz (Calendar.label (D0 + i)) txs |}).
  { intros i Hi. rewrite E, nth_error_map, daysFrom_nth by lia.
    cbn [option_map]. now rewrite Z2Nat.id by lia. }
  split; [|split].
  - rewrite E, length_map, daysFrom_length. lia.
  - exact N.
  - intros i Hi Hnone. rewrite N by assumption. do 2 f_equal.
    apply total_none. intros t I.
    destruct (Api.isSale t) eqn:S; trivial. cbn [andb].
    apply String.eqb_neq. now apply Hnone.
Qed.

(** When no sale outside a day of the range carries the label of that day
    (as when all the transactions lie within less than a year), each point
    is valued with the sales of its own day. *)
Lemma salesByDay_range_by_day (tz : Z) (txs : list Api.Transaction) (D0 D1 : Z) :
  0 <= tz < Calendar.msPerDay ->
  (forall t d, In t txs -> Api.isSale t = true -> D0 <= d <= D1 ->
     Dashboard.dayKey tz t = Calendar.label d ->
     Calendar.localDay tz (Api.created_at t) = d) ->
  Dashboard.salesByDay tz txs (Some D0, Some D1) = Spec.dailySeries tz txs D0 D1.
Proof.
  intros Htz H. rewrite salesByDay_days. unfold Spec.dailySeries.
  apply map_ext_in. intros d I. apply daysFrom_In in I.
  rewrite dayPoint_newDateISO by assumption. f_equal.
  apply salesLabelled_of_day. intros t It S K. apply H; trivial. lia.
Qed.

(** C6.  For an inverted range, D0 > D1, the daily series is the empty list:
    the loop makes no turn. *)
Theorem salesByDay_inverted (tz : Calendar.Zone) (txs : list Api.Transaction) (D0 D1 : Z) :
  D0 > D1 -> Dashboard.salesByDay tz txs (Some D0, Some D1) = [].
Proof.
  intros H. unfold Dashboard.salesByDay. apply dayLoop_past.
  unfold Calendar.newDateISO, Calendar.msPerDay. lia.
Qed.

(** C7 (as amended).  When a bound of the range is missing, the daily series
    has exactly one point per distinct day label found among the Sale
    transactions, valued with the sum of the sales under that label, and the
    points come in the order in which the labels first occur in the
    transaction list. *)
Theorem salesByDay_open_range (tz : Calendar.Zone) (txs : list Api.Transaction)
  (range : Dashboard.DateRange) :
  fst range = None \/ snd range = None ->
  let series := Dashboard.salesByDay tz txs range in
  series =
    List.map (fun k => {| Dashboard.date := k;
                          Dashboard.ventes := Spec.salesLabelled tz k txs |})
      (Spec.firstSeen (List.map (Dashboard.dayKey tz) (filter Api.isSale txs))) /\
  NoDup (List.map Dashboard.date series) /\
  (forall k, In k (List.map Dashboard.date series) <->
             exists t, In t txs /\ Api.isSale t = true /\ Dashboard.dayKey tz t = k).
Proof.
  intros Hr series.
  assert (E : series =
    List.map (fun k => {| Dashboard.date := k;
                          Dashboard.ventes := Spec.salesLabelled tz k txs |})
      (Spec.firstSeen (List.map (Dashboard.dayKey tz) (filter Api.isSale txs)))).
  { assert (S : series =
      List.map (fun '(date, ventes) => {| Dashboard.date := date; Dashboard.ventes := ventes |})
               (JS.entries (Dashboard.dayMap tz txs))).
    { unfold series, Dashboard.salesByDay.
      destruct range as [[from|] [to|]]; cbn [fst snd] in Hr; trivial.
      destruct Hr; discriminate. }
    rewrite S, entries_creation_order by apply dayMap_no_index.
    rewrite (obj_by_keys (fun k => Spec.salesLabelled tz k txs) (Dashboard.dayMap tz txs)).
    - rewrite map_map, dayMap_keys. reflexivity.
    - intros k v I. apply In_get in I; [|apply dayMap_keys_NoDup].
      rewrite <- dayMap_value, I. now rewrite orZero_Some. }
  assert (K : List.map Dashboard.date series =
              Spec.firstSeen (List.map (Dashboard.dayKey tz) (filter Api.isSale txs))).
  { rewrite E, map_map. cbn [Dashboard.date]. apply map_id. }
  split; [exact E | split].
  - rewrite K. apply firstSeen_NoDup.
  - intros k. rewrite K, firstSeen_In, in_map_iff. split.
    + intros (t & <- & I). apply filter_In in I. destruct I. eauto.
    + intros (t & I & S & <-). exists t. split; trivial.
      apply filter_In. auto.
Qed.

(* ================================================================== *)
(** * Chart 2: the weekly series *)
(* ================================================================== *)

Section WeekFixed.
Import Api Calendar Dashboard.
(** The offset of a zone that keeps it. *)
Variable tz : Z.

(** The Monday that the chart computes is the local day of the transaction
    moved back by the number of days elapsed since Monday. *)
Lemma monday_localDay (t : Transaction) :
  localDay tz (monday tz t) =
  localDay tz (created_at t) - (getDay tz (created_at t) + 6) mod 7.
Proof.
  unfold monday. rewrite localDay_setDate.
  assert (R : 0 <= getDay tz (created_at t) < 7)
    by (unfold getDay, WeekDay; apply Z.mod_pos_bound; lia).
  destruct (Z.eqb_spec (getDay tz (created_at t)) 0) as [E|N].
  - rewrite E. change ((0 + 6) mod 7) with 6. lia.
  - replace ((getDay tz (created_at t) + 6) mod 7) with (getDay tz (created_at t) - 1).
    + lia.
    + apply Z.mod_unique with (q := 1); lia.
Qed.

Lemma monday_is_Monday (t : Transaction) : getDay tz (monday tz t) = 1.
Proof.
  assert (M := monday_localDay t).
  unfold getDay, WeekDay, localDay in *. rewrite M.
  set (d := Day (LocalTime tz (created_at t))).
  assert (E : d + 4 = 7 * ((d + 4) / 7) + (d + 4) mod 7) by (apply Z.div_mod; lia).
  assert (R : 0 <= (d + 4) mod 7 < 7) by (apply Z.mod_pos_bound; lia).
  assert (R' : 0 <= ((d + 4) mod 7 + 6) mod 7 < 7) by (apply Z.mod_pos_bound; lia).
  assert (E' : (d + 4) mod 7 + 6 =
               7 * (((d + 4) mod 7 + 6) / 7) + ((d + 4) mod 7 + 6) mod 7)
    by (apply Z.div_mod; lia).
  symmetry.
  apply Z.mod_unique with
    (q := (d + 4) / 7 + ((d + 4) mod 7 + 6) / 7 - 1); lia.
Qed.

Lemma monday_within_week (t : Transaction) :
  localDay tz (monday tz t) <= localDay tz (created_at t)
  <= localDay tz (monday tz t) + 6.
Proof.
  rewrite monday_localDay.
  assert (R : 0 <= (getDay tz (created_at t) + 6) mod 7 < 7)
    by (apply Z.mod_pos_bound; lia).
  lia.
Qed.

Lemma monday_of_Sunday (t : Transaction) :
  getDay tz (created_at t) = 0 ->
  localDay tz (monday tz t) = localDay tz (created_at t) - 6.
Proof. intros E. rewrite monday_localDay, E. reflexivity. Qed.
End WeekFixed.

Section WeekFacts.
Import Api Calendar Dashboard.
Variable tz : Zone.

Lemma weekStep_set (m : JS.Obj Week.Totals) (t : Transaction) :
  weekStep tz m t =
  JS.set m (weekKey tz t) (Spec.weekAdd t (Spec.orWeekZero (JS.get m (weekKey tz t)))).
Proof.
  unfold weekStep, Spec.weekAdd. set (k := weekKey tz t).
  destruct (JS.get m k) as [[a b]|] eqn:G; cbn [Spec.orWeekZero Spec.weekZero];
    destruct (isSale t), (isExpense t);
    rewrite ?G, ?get_set_same; cbn [Week.ventes Week.dépenses];
    rewrite ?get_set_same; cbn [Week.ventes Week.dépenses];
    rewrite ?set_set, ?Z.add_0_r, ?Z.add_0_l; trivial.
  symmetry. now apply set_get_id.
Qed.

Lemma weekFold_ventes (l : list Transaction) (m : JS.Obj Week.Totals) (k : string) :
  Week.ventes (Spec.orWeekZero (JS.get (fold_left (weekStep tz) l m) k)) =
  Week.ventes (Spec.orWeekZero (JS.get m k)) + Spec.weekVentes tz k l.
Proof.
  unfold Spec.weekVentes.
  revert m. induction l as [|t l IH]; intros m; cbn [fold_left].
  - rewrite total_nil. lia.
  - rewrite IH, total_cons, weekStep_set.
    destruct (String.eqb_spec (weekKey tz t) k) as [<-|N].
    + rewrite get_set_same, andb_true_r. cbn [Spec.orWeekZero Spec.weekAdd Week.ventes]. lia.
    + rewrite get_set_other, andb_false_r by assumption. lia.
Qed.

Lemma weekFold_depenses (l : list Transaction) (m : JS.Obj Week.Totals) (k : string) :
  Week.dépenses (Spec.orWeekZero (JS.get (fold_left (weekStep tz) l m) k)) =
  Week.dépenses (Spec.orWeekZero (JS.get m k)) + Spec.weekDepenses tz k l.
Proof.
  unfold Spec.weekDepenses.
  revert m. induction l as [|t l IH]; intros m; cbn [fold_left].
  - rewrite total_nil. lia.
  - rewrite IH, total_cons, weekStep_set.
    destruct (String.eqb_spec (weekKey tz t) k) as [<-|N].
    + rewrite get_set_same, andb_true_r. cbn [Spec.orWeekZero Spec.weekAdd Week.dépenses]. lia.
    + rewrite get_set_other, andb_false_r by assumption. lia.
Qed.

Lemma weekMap_keys (txs : list Transaction) :
  JS.ownKeys (weekMap tz txs) = Spec.firstSeen (List.map (weekKey tz) txs).
Proof.
  unfold weekMap. apply fold_keys_empty.
  intros m t. rewrite weekStep_set. apply ownKeys_set.
Qed.

Lemma weekMap_keys_NoDup (txs : list Transaction) : NoDup (JS.ownKeys (weekMap tz txs)).
Proof. rewrite weekMap_keys. apply firstSeen_NoDup. Qed.

(** The entries of the week dictionary, whatever their order. *)
Lemma weekMap_entry (txs : list Transaction) (k : string) (v : Week.Totals) :
  In (k, v) (JS.entries (weekMap tz txs)) ->
  (exists t, In t txs /\ weekKey tz t = k) /\
  Week.ventes v = Spec.weekVentes tz k txs /\
  Week.dépenses v = Spec.weekDepenses tz k txs.
Proof.
  intros I. assert (G := entries_get _ _ _ (weekMap_keys_NoDup txs) I).
  split; [|split].
  - assert (K : In k (JS.ownKeys (weekMap tz txs))).
    { apply get_Some_In in G. change k with (fst (k, v)). now apply in_map. }
    rewrite weekMap_keys, firstSeen_In, in_map_iff in K.
    destruct K as (t & E & It). eauto.
  - assert (F := weekFold_ventes txs [] k). fold (weekMap tz txs) in F.
    rewrite G in F. cbn [JS.get Spec.orWeekZero Spec.weekZero Week.ventes] in F. lia.
  - assert (F := weekFold_depenses txs [] k). fold (weekMap tz txs) in F.
    rewrite G in F. cbn [JS.get Spec.orWeekZero Spec.weekZero Week.dépenses] in F. lia.
Qed.

Lemma salesVsExpenses_In (txs : list Transaction) (b : Week.Point) :
  In b (salesVsExpenses tz txs) <->
  In (Week.semaine b, Week.totals b) (JS.entries (weekMap tz txs)).
Proof.
  unfold salesVsExpenses. rewrite in_map_iff. split.
  - intros ([k v] & <- & I). cbn [Week.semaine Week.totals].
    eapply Permutation_in; [symmetry; apply sort_perm | exact I].
  - intros I. exists (Week.semaine b, Week.totals b). split; [now destruct b|].
    eapply Permutation_in; [apply sort_perm | exact I].
Qed.
End WeekFacts.

Lemma localeCompare_total (a b : string) :
  0 < JS.localeCompare a b -> JS.localeCompare b a <= 0.
Proof.
  unfold JS.localeCompare. rewrite (String.compare_antisym a b).
  destruct (String.compare b a); cbn [CompOpp]; lia.
Qed.

Lemma localeCompare_eq (a b : string) : JS.localeCompare a b = 0 -> a = b.
Proof.
  unfold JS.localeCompare. destruct (String.compare a b) eqn:E; try lia.
  intros _. now apply String.compare_eq_iff.
Qed.

Lemma localeCompare_lt (a b : string) :
  JS.localeCompare a b < 0 <-> String_as_OT.lt a b.
Proof.
  rewrite <- String_as_OT.cmp_lt. unfold String_as_OT.cmp, JS.localeCompare.
  destruct (String.compare a b); split; intros H; try lia; try discriminate; trivial.
Qed.

Lemma localeCompare_lt_trans (a b c : string) :
  JS.localeCompare a b < 0 -> JS.localeCompare b c < 0 -> JS.localeCompare a c < 0.
Proof.
  rewrite !localeCompare_lt. apply String_as_OT.lt_trans.
Qed.

Lemma StronglySorted_map {A B : Type} (f : A -> B) (R : B -> B -> Prop) (l : list A) :
  StronglySorted (fun a b => R (f a) (f b)) l -> StronglySorted R (List.map f l).
Proof.
  induction 1 as [|x l S IH F]; simpl; constructor; trivial.
  rewrite Forall_forall in *. intros y Hy.
  apply in_map_iff in Hy. destruct Hy as (z & <- & Hz). auto.
Qed.

Lemma StronglySorted_impl {A : Type} (R R' : A -> A -> Prop) (l : list A) :
  (forall a b, R a b -> R' a b) -> StronglySorted R l -> StronglySorted R' l.
Proof.
  intros H. induction 1 as [|x l S IH F]; constructor; trivial.
  eapply Forall_impl; [|exact F]. intros y. apply H.
Qed.

(** Locally sorted keys that are pairwise distinct are strictly sorted. *)
Lemma Sorted_keys_strict {V : Type} (l : list (string * V)) :
  Sorted (fun a b => JS.localeCompare (fst a) (fst b) <= 0) l ->
  NoDup (List.map fst l) ->
  StronglySorted (fun a b => JS.localeCompare (fst a) (fst b) < 0) l.
Proof.
  intros S ND. apply Sorted_StronglySorted.
  - intros x y z. apply localeCompare_lt_trans.
  - induction S as [|x l S IH H]; constructor.
    + apply IH. now inversion ND.
    + destruct H as [|y l H]; constructor.
      assert (N : fst x <> fst y).
      { inversion ND as [|? ? Hn _]; subst. intros E. apply Hn. left. congruence. }
      destruct (Z.eq_dec (JS.localeCompare (fst x) (fst y)) 0) as [E|E]; [|lia].
      exfalso. now apply N, localeCompare_eq.
Qed.

(** What the weekly series is in a zone of fixed offset: every bar is
    keyed by the dd/mm label of a day that is, for each input transaction
    falling into the bar, the Monday that begins the week of that
    transaction: a Monday at most six days before the transaction, and
    exactly six days before when the transaction is on a Sunday.  The bar's
    ventes is the sum of the Sale amounts, and its dépenses the sum of the
    Expense and Withdrawal amounts, of the transactions whose week-start
    Monday carries that dd/mm label. *)
Lemma salesVsExpenses_buckets (tz : Z) (txs : list Api.Transaction)
  (b : Dashboard.Week.Point) :
  In b (Dashboard.salesVsExpenses tz txs) ->
  (exists t, In t txs /\ Dashboard.weekKey tz t = Dashboard.Week.semaine b) /\
  (forall t, In t txs -> Dashboard.weekKey tz t = Dashboard.Week.semaine b ->
     let m := Calendar.localDay tz (Dashboard.monday tz t) in
     let d := Calendar.localDay tz (Api.created_at t) in
     Dashboard.Week.semaine b = Calendar.label m /\
     Calendar.getDay tz (Dashboard.monday tz t) = 1 /\
     m <= d <= m + 6 /\
     (Calendar.getDay tz (Api.created_at t) = 0 -> m = d - 6)) /\
  Dashboard.Week.ventes b = Spec.weekVentes tz (Dashboard.Week.semaine b) txs /\
  Dashboard.Week.dépenses b = Spec.weekDepenses tz (Dashboard.Week.semaine b) txs.
Proof.
  intros I. apply salesVsExpenses_In, weekMap_entry in I.
  destruct I as (Ht & Hv & Hd).
  split; [exact Ht | split; [|split; [exact Hv | exact Hd]]].
  intros t _ K m d. split; [|split; [|split]].
  - now rewrite <- K.
  - apply monday_is_Monday.
  - apply monday_within_week.
  - apply monday_of_Sunday.
Qed.

(** The weekly series is in the order of the texts of its dd/mm labels
    (strictly: no label occurs twice), and every bar is the bar of a label
    that an input transaction falls under: no empty week is added. *)
Lemma salesVsExpenses_sorted (tz : Calendar.Zone) (txs : list Api.Transaction) :
  StronglySorted
    (fun a b => JS.localeCompare (Dashboard.Week.semaine a) (Dashboard.Week.semaine b) < 0)
    (Dashboard.salesVsExpenses tz txs) /\
  (forall b, In b (Dashboard.salesVsExpenses tz txs) ->
     exists t, In t txs /\ Dashboard.weekKey tz t = Dashboard.Week.semaine b).
Proof.
  split.
  - unfold Dashboard.salesVsExpenses.
    apply (StronglySorted_map
             (fun '(semaine, v) => {| Dashboard.Week.semaine := semaine;
                                      Dashboard.Week.totals := v |})
             (fun a b => JS.localeCompare (Dashboard.Week.semaine a)
                                          (Dashboard.Week.semaine b) < 0)).
    eapply StronglySorted_impl; cycle 1.
    + apply Sorted_keys_strict.
      * apply (sort_sorted (fun a b : string * Dashboard.Week.Totals =>
                              JS.localeCompare (fst a) (fst b))).
        intros x y. apply localeCompare_total.
      * eapply Permutation_NoDup.
        -- apply Permutation_map. apply sort_perm.
        -- apply entries_keys_NoDup, weekMap_keys_NoDup.
    + intros [k v] [k' v'] H. exact H.
  - intros b I. apply salesVsExpenses_In, weekMap_entry in I. tauto.
Qed.

(** When the weeks of the transactions that share a label are one and the
    same week (as when all the transactions lie within a few years), each
    bar holds the sales of one week. *)
Lemma salesVsExpenses_by_week (tz : Z) (txs : list Api.Transaction) :
  (forall t t', In t txs -> In t' txs ->
     Dashboard.weekKey tz t = Dashboard.weekKey tz t' ->
     Calendar.localDay tz (Dashboard.monday tz t) =
     Calendar.localDay tz (Dashboard.monday tz t')) ->
  Spec.weeklyBarsByWeek tz txs.
Proof.
  intros H b t Ib It K.
  apply salesVsExpenses_In, weekMap_entry in Ib. destruct Ib as (_ & -> & _).
  apply total_ext. intros t' It'.
  destruct (Api.isSale t'); trivial. cbn [andb].
  destruct (Z.eqb_spec (Calendar.localDay tz (Dashboard.monday tz t'))
                       (Calendar.localDay tz (Dashboard.monday tz t))) as [E|N].
  - apply String.eqb_eq. rewrite <- K.
    unfold Dashboard.weekKey, Calendar.toLocaleDateString. now rewrite E.
  - apply String.eqb_neq. intros K'. apply N. apply H; trivial. congruence.
Qed.

(* ================================================================== *)
(** * Chart 3: the top products *)
(* ================================================================== *)

Section TopFacts.
Import Api.

Lemma saleName_Some (t : Transaction) (n : string) :
  saleName t = Some n ->
  isSale t = true /\ (exists p, product t = Some p /\ name p = n) /\ n <> "".
Proof.
  unfold saleName. destruct (isSale t); [|discriminate].
  destruct (product t) as [p|]; [|discriminate].
  destruct (String.eqb_spec (name p) ""); [discriminate|].
  intros [= <-]. eauto.
Qed.

Lemma topStep_set (m : JS.Obj Top.Totals) (t : Transaction) :
  topStep m t =
  match saleName t with
  | Some n =>
      if JS.inherited n then m
      else JS.set m n (Spec.topAdd t (Spec.orTopZero (JS.get m n)))
  | None => m
  end.
Proof.
  unfold topStep, Spec.topAdd. destruct (saleName t) as [n|]; trivial.
  destruct (JS.inherited n); trivial.
  destruct (JS.get m n) as [[q a]|] eqn:G;
    rewrite ?G, ?get_set_same; cbn [Spec.orTopZero Spec.topZero Top.quantite Top.montant];
    now rewrite ?set_set.
Qed.

Lemma topFold_keys_NoDup (l : list Transaction) (m : JS.Obj Top.Totals) :
  NoDup (JS.ownKeys m) -> NoDup (JS.ownKeys (fold_left topStep l m)).
Proof.
  revert m. induction l as [|t l IH]; intros m ND; cbn [fold_left]; trivial.
  apply IH. rewrite topStep_set.
  destruct (saleName t) as [n|]; trivial.
  destruct (JS.inherited n); trivial. now apply NoDup_set.
Qed.

Lemma topFold_keys_In (l : list Transaction) (m : JS.Obj Top.Totals) (k : string) :
  In k (JS.ownKeys (fold_left topStep l m)) ->
  In k (JS.ownKeys m) \/
  exists t, In t l /\ saleName t = Some k /\ JS.inherited k = false.
Proof.
  revert m. induction l as [|t l IH]; intros m I; cbn [fold_left] in I; auto.
  apply IH in I. destruct I as [I | (t' & I & S)].
  - rewrite topStep_set in I.
    destruct (saleName t) as [n|] eqn:S; auto.
    destruct (JS.inherited n) eqn:H; auto.
    rewrite ownKeys_set in I.
    destruct (JS.get m n); auto.
    apply in_app_or in I. destruct I as [I | [<- | []]]; auto.
    right. exists t. split; [now left | auto].
  - right. exists t'. split; [now right | exact S].
Qed.

Lemma topFold_quantite (l : list Transaction) (m : JS.Obj Top.Totals) (k : string) :
  JS.inherited k = false ->
  Top.quantite (Spec.orTopZero (JS.get (fold_left topStep l m) k)) =
  Top.quantite (Spec.orTopZero (JS.get m k)) + Spec.productQuantity k l.
Proof.
  intros Hk. unfold Spec.productQuantity.
  revert m. induction l as [|t l IH]; intros m; cbn [fold_left].
  - rewrite total_nil. lia.
  - rewrite IH, total_cons, topStep_set. unfold Spec.soldAs at 2.
    destruct (saleName t) as [n|]; [|lia].
    destruct (String.eqb_spec n k) as [->|N].
    + rewrite Hk, get_set_same. unfold Spec.orTopZero at 1.
      cbn [Spec.topAdd Top.quantite].
      destruct (quantity t); [rewrite orZero_Some|]; cbn [JS.orZero]; lia.
    + destruct (JS.inherited n); [lia|].
      rewrite get_set_other by assumption. lia.
Qed.

Lemma topFold_montant (l : list Transaction) (m : JS.Obj Top.Totals) (k : string) :
  JS.inherited k = false ->
  Top.montant (Spec.orTopZero (JS.get (fold_left topStep l m) k)) =
  Top.montant (Spec.orTopZero (JS.get m k)) + Spec.productRevenue k l.
Proof.
  intros Hk. unfold Spec.productRevenue.
  revert m. induction l as [|t l IH]; intros m; cbn [fold_left].
  - rewrite total_nil. lia.
  - rewrite IH, total_cons, topStep_set. unfold Spec.soldAs at 2.
    destruct (saleName t) as [n|]; [|lia].
    destruct (String.eqb_spec n k) as [->|N].
    + rewrite Hk, get_set_same. unfold Spec.orTopZero at 1.
      cbn [Spec.topAdd Top.montant]. lia.
    + destruct (JS.inherited n); [lia|].
      rewrite get_set_other by assumption. lia.
Qed.

(** The transactions that the chart filters out are sold under no name. *)
Lemma total_hasSaleName (f : Transaction -> Z) (k : string) (txs : list Transaction) :
  Spec.total f (Spec.soldAs k) (filter hasSaleName txs) = Spec.total f (Spec.soldAs k) txs.
Proof.
  unfold Spec.total. rewrite filter_filter_and. do 2 f_equal. apply filter_ext.
  intros t. unfold hasSaleName, Spec.soldAs. now destruct (saleName t).
Qed.

Lemma topMap_keys_NoDup (txs : list Transaction) : NoDup (JS.ownKeys (topMap txs)).
Proof. apply topFold_keys_NoDup. constructor. Qed.

(** The entries of the product dictionary, whatever their order. *)
Lemma topMap_entry (txs : list Transaction) (k : string) (v : Top.Totals) :
  In (k, v) (JS.entries (topMap txs)) ->
  (exists t, In t txs /\ saleName t = Some k) /\
  Top.quantite v = Spec.productQuantity k txs /\
  Top.montant v = Spec.productRevenue k txs.
Proof.
  intros I. assert (G := entries_get _ _ _ (topMap_keys_NoDup txs) I).
  assert (K : In k (JS.ownKeys (topMap txs))).
  { apply get_Some_In in G. change k with (fst (k, v)). now apply in_map. }
  apply topFold_keys_In in K. destruct K as [[] | (t & It & S & H)].
  apply filter_In in It. destruct It as [It _].
  split; [eauto | split].
  - assert (F := topFold_quantite (filter hasSaleName txs) [] k H).
    fold (topMap txs) in F. rewrite G in F. unfold Spec.productQuantity in *.
    rewrite total_hasSaleName in F.
    cbn [JS.get Spec.orTopZero Spec.topZero Top.quantite] in F. lia.
  - assert (F := topFold_montant (filter hasSaleName txs) [] k H).
    fold (topMap txs) in F. rewrite G in F. unfold Spec.productRevenue in *.
    rewrite total_hasSaleName in F.
    cbn [JS.get Spec.orTopZero Spec.topZero Top.montant] in F. lia.
Qed.

Lemma In_firstn {A : Type} (n : nat) (l : list A) (x : A) :
  In x (firstn n l) -> In x l.
Proof.
  intros I. rewrite <- (firstn_skipn n l). apply in_or_app. now left.
Qed.

Lemma NoDup_firstn_keys {A : Type} (n : nat) (l : list A) :
  NoDup l -> NoDup (firstn n l).
Proof.
  intros ND. rewrite <- (firstn_skipn n l) in ND.
  now apply NoDup_app_remove_r in ND.
Qed.
End TopFacts.

(** The rows that the ranking has: at most 8, in order of non-increasing
    revenue, no two of them for the same product name; every row is the row
    of a name under which some Sale transaction with a product name is
    recorded, and carries the total quantity (a missing quantity counting
    for 0) and the total amount of all the Sale transactions with that
    product name. *)
Lemma topProducts_ranking (txs : list Api.Transaction) :
  (List.length (Dashboard.topProducts txs) <= 8)%nat /\
  StronglySorted
    (fun a b : Dashboard.Top.Entry => Dashboard.Top.montant a >= Dashboard.Top.montant b)
    (Dashboard.topProducts txs) /\
  NoDup (List.map Dashboard.Top.produit (Dashboard.topProducts txs)) /\
  (forall e, In e (Dashboard.topProducts txs) ->
     (exists t, In t txs /\ Dashboard.saleName t = Some (Dashboard.Top.produit e)) /\
     Dashboard.Top.quantite e = Spec.productQuantity (Dashboard.Top.produit e) txs /\
     Dashboard.Top.montant e = Spec.productRevenue (Dashboard.Top.produit e) txs).
Proof.
  unfold Dashboard.topProducts.
  set (mk := fun '(produit, v) => {| Dashboard.Top.produit := produit;
                                     Dashboard.Top.totals := v |}).
  set (cmp := fun a b : Dashboard.Top.Entry => Dashboard.Top.montant b - Dashboard.Top.montant a).
  set (rows := List.map mk (JS.entries (Dashboard.topMap txs))).
  split; [|split; [|split]].
  - apply firstn_le_length.
  - apply firstn_StronglySorted.
    apply StronglySorted_impl with (R := fun a b => cmp a b <= 0).
    + intros x y. unfold cmp. lia.
    + apply Sorted_StronglySorted.
      * intros x y z. unfold cmp. lia.
      * apply sort_sorted. intros x y. unfold cmp. lia.
  - rewrite <- firstn_map. apply NoDup_firstn_keys.
    eapply Permutation_NoDup; [apply Permutation_map, sort_perm|].
    unfold rows. rewrite map_map.
    erewrite map_ext; [apply entries_keys_NoDup, topMap_keys_NoDup|].
    now intros [k v].
  - intros e I. apply In_firstn in I.
    eapply Permutation_in in I; [|symmetry; apply sort_perm].
    unfold rows in I. apply in_map_iff in I. destruct I as ([k v] & <- & I).
    cbn [mk Dashboard.Top.produit Dashboard.Top.totals].
    now apply topMap_entry.
Qed.

(* ================================================================== *)
(** * The Transactions page *)
(* ================================================================== *)

Lemma fold_left_sum {A : Type} (f : A -> Z) (l : list A) (a : Z) :
  fold_left (fun sum t => sum + f t) l a = a + Spec.sumZ (List.map f l).
Proof.
  revert a. induction l as [|x l IH]; intros a; simpl; [lia|].
  rewrite IH. lia.
Qed.

(** C5.  For every transaction list, the items-sold total is the sum of the
    quantities of the Sale transactions only, a missing quantity counting
    for 0: a transaction of another type adds nothing, whatever its
    quantity field holds. *)
Theorem totalItemsSold_sales_only (txs : list Api.Transaction) :
  Transactions.totalItemsSold txs = Spec.itemsSold txs /\
  Transactions.totalItemsSold txs =
    Transactions.totalItemsSold (filter Api.isSale txs) /\
  (forall t, Api.isSale t = false ->
     Transactions.totalItemsSold (t :: txs) = Transactions.totalItemsSold txs) /\
  (forall t, Api.isSale t = true ->
     Transactions.totalItemsSold (t :: txs) =
     match Api.quantity t with Some q => q | None => 0 end
     + Transactions.totalItemsSold txs).
Proof.
  unfold Transactions.totalItemsSold. split; [|split; [|split]].
  - rewrite fold_left_sum.
    induction txs as [|t txs IH]; simpl; trivial.
    unfold Api.isSale at 1. destruct (String.eqb (Api.type t) "Sale"); simpl.
    + destruct (Api.quantity t); [rewrite orZero_Some|simpl]; lia.
    + lia.
  - rewrite filter_filter_and. f_equal. apply filter_ext.
    intros t. now destruct (Api.isSale t).
  - intros t H. simpl. now rewrite H.
  - intros t H. simpl. rewrite H. simpl. rewrite !fold_left_sum.
    destruct (Api.quantity t); [rewrite orZero_Some|simpl]; lia.
Qed.

(** C8.  For every stock level, the product card flags the product (red or
    orange) exactly when stock < 5, so that a stock of 5 or more is never
    flagged; a stock of 0 is red and a stock from 1 to 4 is orange, on the
    product card and in the dashboard's low-stock table alike. *)
Theorem low_stock_tiers (stock : Z) :
  (Spec.flaggedLow (Products.stockClass stock) <-> stock < 5) /\
  (stock >= 5 -> Products.stockClass stock = "text-green-600") /\
  (stock = 0 ->
     Products.stockClass stock = "text-red-600" /\
     Dashboard.lowStockBadge stock = "bg-red-100 text-red-800") /\
  (1 <= stock <= 4 ->
     Products.stockClass stock = "text-orange-600" /\
     Dashboard.lowStockBadge stock = "bg-orange-100 text-orange-800").
Proof.
  unfold Spec.flaggedLow, Products.stockClass, Dashboard.lowStockBadge.
  destruct (Z.eqb_spec stock 0) as [E|N]; destruct (Z.ltb_spec stock 5) as [L|G];
    repeat split; intros; try lia; try discriminate; auto;
    match goal with H : _ \/ _ |- _ => destruct H; discriminate end.
Qed.


Lemma digitValue_range (c : ascii) : JS.isDigit c = true -> 0 <= JS.digitValue c <= 9.
Proof.
  unfold JS.isDigit, JS.digitValue. intros H.
  apply andb_prop in H. destruct H as [L U].
  apply Nat.leb_le in L, U. lia.
Qed.

Lemma leadingDigits_positive (rest : string) (a : Z) :
  0 < a -> exists n, JS.leadingDigits 10 (Some a) rest = Some n /\ 0 < n.
Proof.
  revert a. induction rest as [|c rest IH]; intros a Ha; cbn [JS.leadingDigits].
  - eauto.
  - change (10 =? 16) with false. cbv iota.
    destruct (JS.isDigit c) eqn:D; [|eauto].
    apply IH. apply digitValue_range in D. lia.
Qed.

(** A quantity text that starts with a digit other than 0 is read as a
    positive integer, whatever follows its leading digits. *)
Lemma parseInt_positive (c : ascii) (rest : string) :
  JS.isDigit c = true -> c <> "0"%char ->
  exists n, JS.parseInt (String c rest) = Some n /\ 0 < n.
Proof.
  intros D N.
  destruct c as [[] [] [] [] [] [] [] []];
    try (exfalso; vm_compute in D; discriminate D);
    try (exfalso; apply N; reflexivity);
    unfold JS.parseInt; cbn [JS.trimStart];
    match goal with |- context [JS.isWhiteSpace ?x] =>
      change (JS.isWhiteSpace x) with false end;
    cbv iota beta; cbn [JS.leadingDigits];
    change (10 =? 16) with false; rewrite D; cbv iota;
    match goal with |- context [JS.leadingDigits 10 (Some ?a) rest] =>
      destruct (leadingDigits_positive rest a) as (n & E & P);
        [vm_compute; reflexivity | rewrite E]
    end;
    (exists (1 * n); split; [reflexivity | lia]).
Qed.

(** C10 (as amended).  Every request issued by the submit handler carries
    the type of the form and the number read from the amount field; for a
    sale, the product and the quantity fields were both non-empty and the
    request carries that product id and parseInt of the quantity text, a
    positive integer whenever the text starts with a digit other than 0
    (with an empty product or quantity field no request is issued and the
    error message is set); for any other type the request carries neither a
    product id nor a quantity. *)
Theorem handleSubmit_request (parseFloat : string -> option Z)
  (f : Transactions.FormData) :
  (Transactions.type f = "Sale" ->
   Transactions.product_id f = "" \/ Transactions.quantity f = "" ->
   Transactions.handleSubmit parseFloat f =
   Transactions.Blocked "Product and quantity are required for sales") /\
  (forall data,
     Transactions.handleSubmit parseFloat f = Transactions.Created data ->
     Transactions.req_type data = Transactions.type f /\
     Transactions.req_amount data = parseFloat (Transactions.amount f) /\
     (Transactions.type f = "Sale" ->
        Transactions.product_id f <> "" /\ Transactions.quantity f <> "" /\
        Transactions.req_product_id data = Some (Transactions.product_id f) /\
        Transactions.req_quantity data =
          Some (JS.parseInt (Transactions.quantity f)) /\
        (forall c rest,
           Transactions.quantity f = String c rest ->
           JS.isDigit c = true -> c <> "0"%char ->
           exists n, Transactions.req_quantity data = Some (Some n) /\ 0 < n)) /\
     (Transactions.type f <> "Sale" ->
        Transactions.req_product_id data = None /\
        Transactions.req_quantity data = None)).
Proof.
  unfold Transactions.handleSubmit, Transactions.nonEmpty.
  destruct (String.eqb_spec (Transactions.type f) "Sale") as [T|T];
    destruct (String.eqb_spec (Transactions.product_id f) "") as [P|P];
    destruct (String.eqb_spec (Transactions.quantity f) "") as [Q|Q];
    cbn [negb orb]; split; intros; try tauto; try discriminate;
    match goal with
    | H : Transactions.Created _ = Transactions.Created _ |- _ =>
        injection H as <-;
        cbn [Transactions.req_type Transactions.req_amount
             Transactions.req_product_id Transactions.req_quantity]
    end;
    repeat split; trivial; try tauto.
  intros c rest E D N. rewrite E.
  destruct (parseInt_positive c rest D N) as (n & -> & Hn). eauto.
Qed.

(* ================================================================== *)
(** * The operations on concrete inputs *)
(* ================================================================== *)

Example parseInt_plain : JS.parseInt "12" = Some 12.
Proof. reflexivity. Qed.

Example parseInt_fraction : JS.parseInt "1.5" = Some 1.
Proof. reflexivity. Qed.

Example parseInt_negative : JS.parseInt " -7px" = Some (-7).
Proof. reflexivity. Qed.

Example parseInt_hex : JS.parseInt "0x1f" = Some 31.
Proof. reflexivity. Qed.

Example parseInt_nan : JS.parseInt ".5" = None.
Proof. reflexivity. Qed.

Example toString_150 : JS.toString (Some 150) = "150".
Proof. reflexivity. Qed.

Example toString_0 : JS.toString (Some 0) = "0".
Proof. reflexivity. Qed.

Example toString_neg : JS.toString (Some (-42)) = "-42".
Proof. reflexivity. Qed.

Example arrayIndex_42 : JS.arrayIndex "42" = Some 42.
Proof. reflexivity. Qed.

Example arrayIndex_042 : JS.arrayIndex "042" = None.
Proof. reflexivity. Qed.

Example arrayIndex_label : JS.arrayIndex "05/01" = None.
Proof. reflexivity. Qed.

Example civil_epoch : Calendar.civil 0 = (1970, 1, 1).
Proof. reflexivity. Qed.

Example civil_leap_day : Calendar.civil (Calendar.dayNumber 2024 2 29) = (2024, 2, 29).
Proof. reflexivity. Qed.

Example civil_after_leap_day : Calendar.civil (Calendar.dayNumber 2024 2 29 + 1) = (2024, 3, 1).
Proof. reflexivity. Qed.

Example civil_no_leap_1900 : Calendar.civil (Calendar.dayNumber 1900 2 28 + 1) = (1900, 3, 1).
Proof. reflexivity. Qed.

Example civil_year_end : Calendar.civil (Calendar.dayNumber 2023 12 31 + 1) = (2024, 1, 1).
Proof. reflexivity. Qed.

(** On each of the 47482 days from 1 January 1970 to 31 December 2099,
    [dayNumber] takes the date given by [civil] back to the day, with the
    month in 1..12 and the day of the month in 1..31. *)
Example civil_dayNumber_1970_2099 :
  forallb
    (fun day =>
       let '(y, m, d) := Calendar.civil day in
       (Calendar.dayNumber y m d =? day)
       && (1 <=? m) && (m <=? 12) && (1 <=? d) && (d <=? 31))
    (Spec.daysFrom 0 (Z.to_nat 47482)) = true /\
  Calendar.civil 47481 = (2099, 12, 31).
Proof. split; vm_compute; reflexivity. Qed.

Example dayNumber_2024 : Calendar.dayNumber 2024 1 1 = 19723.
Proof. reflexivity. Qed.

Example weekday_2024_01_01 :
  Calendar.WeekDay (Calendar.newDateISO (Calendar.dayNumber 2024 1 1)) = 1.
Proof. reflexivity. Qed.

Example label_2024_01_05 : Calendar.label (Calendar.dayNumber 2024 1 5) = "05/01".
Proof. reflexivity. Qed.

Example label_2023_12_25 : Calendar.label (Calendar.dayNumber 2023 12 25) = "25/12".
Proof. reflexivity. Qed.

(** [setDate(0)] is the last day of the previous month. *)
Example setDate_zero :
  Calendar.toLocaleDateString 0
    (Calendar.setDate 0 (Calendar.newDateISO (Calendar.dayNumber 2024 3 2)) 0) = "29/02".
Proof. reflexivity. Qed.

(** The scenario of the specification: the sales are 50 on the first day
    and 30 on the second, and 3 items are sold. *)
Example scenario_series :
  Dashboard.salesByDay Samples.utcPlus1 Samples.scenario
    (Some (Calendar.dayNumber 2024 1 1), Some (Calendar.dayNumber 2024 1 2)) =
  [ {| date := "01/01"; ventes := 50 |}; {| date := "02/01"; ventes := 30 |} ].
Proof. vm_compute. reflexivity. Qed.

Example scenario_items : Transactions.totalItemsSold Samples.scenario = 3.
Proof. reflexivity. Qed.

Example scenario_empty :
  Dashboard.salesByDay 0 [] (None, None) = [] /\
  Dashboard.salesVsExpenses 0 [] = [] /\
  Dashboard.topProducts [] = [] /\
  Transactions.totalItemsSold [] = 0.
Proof. repeat split. Qed.

(** West of UTC, midnight UTC is still the evening before: the series of a
    range starts with the label of the day before the range. *)
Example series_west_of_UTC :
  List.map date
    (Dashboard.salesByDay Samples.utcMinus5 []
       (Some (Calendar.dayNumber 2024 1 1), Some (Calendar.dayNumber 2024 1 2))) =
  [ "31/12"; "01/01" ].
Proof. vm_compute. reflexivity. Qed.

(** Across the end of summer time the loop loses a day.  From 26 to 28
    October 2024 in a zone that puts its clock back on the 27th, [cur] is
    the 26th at 02:00 local time, then the 27th at 02:00, an hour that
    occurs twice and is read as the earlier one, then the 28th at 02:00,
    which is an hour past [end]: the series has two points for three days,
    and no larger bound on the turns adds one. *)
Example series_across_clock_change :
  let D0 := Calendar.dayNumber 2024 10 26 in
  let D1 := Calendar.dayNumber 2024 10 28 in
  let series := [ {| date := "26/10"; ventes := 0 |}; {| date := "27/10"; ventes := 0 |} ] in
  Dashboard.salesByDay Samples.parisAutumn2024 [] (Some D0, Some D1) = series /\
  forall n, (5 <= n)%nat ->
    Dashboard.dayLoop Samples.parisAutumn2024 n (Dashboard.dayMap Samples.parisAutumn2024 [])
      (Calendar.newDateISO D0) (Calendar.newDateISO D1) = series.
Proof.
  cbv zeta.
  assert (E : Dashboard.salesByDay Samples.parisAutumn2024 []
                (Some (Calendar.dayNumber 2024 10 26), Some (Calendar.dayNumber 2024 10 28)) =
              [ {| date := "26/10"; ventes := 0 |}; {| date := "27/10"; ventes := 0 |} ])
    by (vm_compute; reflexivity).
  split; [exact E|]. intros n Hn. rewrite <- E. apply salesByDay_loop.
  - intros a b. apply transition_within. vm_compute. discriminate.
  - vm_compute Z.to_nat at 1. exact Hn.
Qed.

(** The weekly bars are in the order of their labels, which compare by day
    of the month first: the week of 5 February comes before the week of
    29 January. *)
Example weeks_in_label_order :
  List.map Week.semaine
    (Dashboard.salesVsExpenses 0
       [ Samples.sale 20 (Samples.noon 2024 1 30); Samples.sale 10 (Samples.noon 2024 2 6) ]) =
  [ "05/02"; "29/01" ].
Proof. vm_compute. reflexivity. Qed.

(** A Sunday goes to the Monday six days earlier, also across a month. *)
Example sunday_bucket :
  Dashboard.weekKey 0 (Samples.sale 1 (Samples.noon 2024 3 3)) = "26/02".
Proof. vm_compute. reflexivity. Qed.

(** Two sales of one product merge into one row. *)
Example televisions_ranking :
  Dashboard.topProducts Samples.televisions =
  [ {| Top.produit := "radio"; Top.totals := {| Top.quantite := 0; Top.montant := 500 |} |};
    {| Top.produit := "tv"; Top.totals := {| Top.quantite := 5; Top.montant := 150 |} |} ].
Proof. vm_compute. reflexivity. Qed.

(** A product called like a member of Object.prototype gets no row. *)
Example inherited_name_dropped :
  Dashboard.topProducts [ Samples.saleOf "constructor" (Some 1) 10 ] = [].
Proof. vm_compute. reflexivity. Qed.

(** A quantity field that reads 0 is submitted as it is. *)
Example submit_quantity_text_zero :
  Transactions.handleSubmit JS.parseInt (Samples.saleForm "0") =
  Transactions.Created
    {| Transactions.req_type := "Sale"; Transactions.req_amount := Some 0;
       Transactions.req_comment := None;
       Transactions.req_product_id := Some "p1";
       Transactions.req_quantity := Some (Some 0) |}.
Proof. reflexivity. Qed.

(* ================================================================== *)
(** * Inputs on which the statements of the specification fail *)
(* ================================================================== *)

(** C1.  The daily series on an input where it is not the series of the
    days of the range.  One sale of 50 on 5 January 2023 and the range from
    5 January 2023 to 5 January 2024, in UTC: the last point, for 5 January
    2024, has the value 50 although no sale falls on that day, because the
    dictionary is keyed by day and month only. *)
Lemma salesByDay_mixes_years :
  let txs := [ Samples.sale 50 (Samples.noon 2023 1 5) ] in
  let D0 := Calendar.dayNumber 2023 1 5 in
  let D1 := Calendar.dayNumber 2024 1 5 in
  D0 <= D1 /\
  nth_error (Dashboard.salesByDay 0 txs (Some D0, Some D1)) 365 =
    Some {| date := "05/01"; ventes := 50 |} /\
  Spec.salesOfDay 0 D1 txs = 0 /\
  Dashboard.salesByDay 0 txs (Some D0, Some D1) <> Spec.dailySeries 0 txs D0 D1.
Proof.
  cbv zeta. split; [|split; [|split]].
  - vm_compute. discriminate.
  - vm_compute. reflexivity.
  - vm_compute. reflexivity.
  - intros H. apply (f_equal (fun l => nth_error l 365)) in H.
    vm_compute in H. discriminate.
Qed.

(** C2.  The weekly series on an input where a bar is not the bar of one
    week.  A sale of 20 on Wednesday 3 January 2018 and a sale of 10 on
    Sunday 7 January 2024, in UTC: both weeks start on a Monday 1 January,
    the two sales share the bar "01/01", and its ventes, 30, is not the 20
    sold in the week of the first sale. *)
Lemma salesVsExpenses_mixes_years :
  let txs := [ Samples.sale 20 (Samples.noon 2018 1 3);
               Samples.sale 10 (Samples.noon 2024 1 7) ] in
  Dashboard.salesVsExpenses 0 txs =
    [ {| Week.semaine := "01/01";
         Week.totals := {| Week.ventes := 30; Week.dépenses := 0 |} |} ] /\
  ~ Spec.weeklyBarsByWeek 0 txs.
Proof.
  cbv zeta. split; [vm_compute; reflexivity|].
  intros H.
  specialize (H {| Week.semaine := "01/01";
                   Week.totals := {| Week.ventes := 30; Week.dépenses := 0 |} |}
                (Samples.sale 20 (Samples.noon 2018 1 3))).
  vm_compute in H.
  assert (E : 30 = 20) by (apply H; auto).
  discriminate E.
Qed.

(** C3.  The weekly series on an input where it is not in the order of the
    weeks.  A sale in the week of Monday 29 January 2024 and a sale in the
    week of Monday 5 February 2024, in UTC: the bar of the later week comes
    first, for the bars are sorted by the text of their dd/mm labels, day
    of the month first. *)
Lemma salesVsExpenses_not_by_week_start :
  let first := Samples.sale 20 (Samples.noon 2024 1 30) in
  let second := Samples.sale 10 (Samples.noon 2024 2 6) in
  List.map Week.semaine (Dashboard.salesVsExpenses 0 [first; second]) =
    [ "05/02"; "29/01" ] /\
  Dashboard.weekKey 0 first = "29/01" /\
  Dashboard.weekKey 0 second = "05/02" /\
  Calendar.localDay 0 (Dashboard.monday 0 first)
  < Calendar.localDay 0 (Dashboard.monday 0 second).
Proof.
  cbv zeta. repeat split; vm_compute; reflexivity.
Qed.

(** C4.  The ranking on an input where a sold product has no row.  Two
    sales of a product named "toString", of 100 and of 50: they are Sale
    transactions that carry that product name and their amounts add up to
    150, yet the ranking is empty.  [map["toString"]] is the method that
    every object inherits, so that no entry is ever created under that
    name. *)
Lemma topProducts_drops_inherited_name :
  let txs := [ Samples.saleOf "toString" (Some 2) 100;
               Samples.saleOf "toString" (Some 3) 50 ] in
  Dashboard.topProducts txs = [] /\
  (forall t, In t txs -> Spec.saleOfProduct "toString" t) /\
  Spec.sumZ (List.map Api.amount txs) = 150.
Proof.
  cbv zeta. split; [|split]; [vm_compute; reflexivity | | reflexivity].
  intros t [<- | [<- | []]]; (split; [reflexivity|]); eexists; split; reflexivity.
Qed.

(** C7, as stated, fails.  With no range, a sale on 5 January followed by
    a sale on 3 January gives the points "05/01" then "03/01": the order of
    the transactions, not the ascending order of the keys. *)
Lemma salesByDay_open_range_unsorted :
  ~ Spec.ascendingByKey
      (Dashboard.salesByDay 0
         [ Samples.sale 10 (Samples.noon 2024 1 5); Samples.sale 20 (Samples.noon 2024 1 3) ]
         (None, None)).
Proof.
  intros H.
  assert (E : Dashboard.salesByDay 0
         [ Samples.sale 10 (Samples.noon 2024 1 5); Samples.sale 20 (Samples.noon 2024 1 3) ]
         (None, None) =
         [ {| date := "05/01"; ventes := 10 |}; {| date := "03/01"; ventes := 20 |} ])
    by (vm_compute; reflexivity).
  rewrite E in H. unfold Spec.ascendingByKey in H.
  inversion H as [|? ? _ Hd]; subst.
  inversion Hd as [|? ? C]; subst.
  vm_compute in C. now apply C.
Qed.

(** C10, as stated, fails.  The quantity text 0.1e1 denotes the number 1,
    which the quantity input accepts (it is not below its minimum of 1 and
    it is a whole number of steps), and the handler does not reject it
    either; parseInt reads the digits before the dot, and the request of
    the sale carries the quantity 0. *)
Lemma handleSubmit_quantity_not_positive :
  ~ Spec.saleRequestsWellFormed JS.parseInt (Samples.saleForm "0.1e1").
Proof.
  intros H.
  destruct (H _ eq_refl) as [S _].
  destruct (S eq_refl) as [_ (n & E & P)].
  vm_compute in E. injection E as <-. discriminate P.
Qed.

(* ================================================================== *)
(** * The theorems at concrete inputs *)
(* ================================================================== *)

Lemma salesByDay_inverted_witness :
  Calendar.dayNumber 2024 1 2 > Calendar.dayNumber 2024 1 1 /\
  Dashboard.salesByDay 0 Samples.scenario
    (Some (Calendar.dayNumber 2024 1 2), Some (Calendar.dayNumber 2024 1 1)) = [].
Proof.
  assert (H : Calendar.dayNumber 2024 1 2 > Calendar.dayNumber 2024 1 1)
    by (vm_compute; reflexivity).
  split; [exact H|].
  exact (salesByDay_inverted 0 Samples.scenario
           (Calendar.dayNumber 2024 1 2) (Calendar.dayNumber 2024 1 1) H).
Defined.

Lemma salesByDay_open_range_witness :
  (fst (@None Z, @None Z) = None \/ snd (@None Z, @None Z) = None) /\
  NoDup (List.map date (Dashboard.salesByDay 0 Samples.scenario (None, None))).
Proof.
  assert (H : fst (@None Z, @None Z) = None \/ snd (@None Z, @None Z) = None)
    by (left; reflexivity).
  split; [exact H|].
  exact (proj1 (proj2 (salesByDay_open_range 0 Samples.scenario (None, None) H))).
Defined.

(** An expense put before the scenario adds no item. *)
Lemma totalItemsSold_sales_only_witness :
  Api.isSale (Samples.expense 20 0) = false /\
  Transactions.totalItemsSold (Samples.expense 20 0 :: Samples.scenario) =
  Transactions.totalItemsSold Samples.scenario.
Proof.
  assert (H : Api.isSale (Samples.expense 20 0) = false) by reflexivity.
  split; [exact H|].
  exact (proj1 (proj2 (proj2 (totalItemsSold_sales_only Samples.scenario)))
           (Samples.expense 20 0) H).
Defined.

Lemma low_stock_tiers_witness :
  (5 >= 5 /\ Products.stockClass 5 = "text-green-600") /\
  (0 = 0 /\ Products.stockClass 0 = "text-red-600" /\
            Dashboard.lowStockBadge 0 = "bg-red-100 text-red-800") /\
  (1 <= 4 <= 4 /\ Products.stockClass 4 = "text-orange-600" /\
                  Dashboard.lowStockBadge 4 = "bg-orange-100 text-orange-800").
Proof.
  assert (H5 : 5 >= 5) by (vm_compute; discriminate).
  assert (H0 : 0 = 0) by reflexivity.
  assert (H4 : 1 <= 4 <= 4) by (vm_compute; split; discriminate).
  split; [|split].
  - split; [exact H5|]. exact (proj1 (proj2 (low_stock_tiers 5)) H5).
  - split; [exact H0|]. exact (proj1 (proj2 (proj2 (low_stock_tiers 0))) H0).
  - split; [exact H4|]. exact (proj2 (proj2 (proj2 (low_stock_tiers 4))) H4).
Defined.

Lemma handleSubmit_request_witness :
  let f := Samples.saleForm "3" in
  let data := {| Transactions.req_type := "Sale"; Transactions.req_amount := Some 0;
                 Transactions.req_comment := None;
                 Transactions.req_product_id := Some "p1";
                 Transactions.req_quantity := Some (Some 3) |} in
  Transactions.handleSubmit JS.parseInt f = Transactions.Created data /\
  Transactions.req_type data = Transactions.type f /\
  Transactions.req_amount data = JS.parseInt (Transactions.amount f).
Proof.
  intros f data.
  assert (H : Transactions.handleSubmit JS.parseInt f = Transactions.Created data)
    by reflexivity.
  split; [exact H|].
  destruct (proj2 (handleSubmit_request JS.parseInt f) data H) as (A & B & _).
  split; [exact A | exact B].
Defined.

(* ================================================================== *)
(** * Dictionaries filled by grouping *)
(* ================================================================== *)

Lemma sumZ_perm (l l' : list Z) : Permutation l l' -> Spec.sumZ l = Spec.sumZ l'.
Proof. induction 1; simpl; lia. Qed.

Lemma fieldSum_perm {V : Type} (f : V -> Z) (m m' : list (string * V)) :
  Permutation m m' -> Further.fieldSum f m = Further.fieldSum f m'.
Proof. intros P. apply sumZ_perm. now apply Permutation_map. Qed.

Lemma fieldSum_set {V : Type} (f : V -> Z) (m : JS.Obj V) (k : string) (v : V) :
  Further.fieldSum f (JS.set m k v) =
  Further.fieldSum f m + f v
  - match JS.get m k with Some x => f x | None => 0 end.
Proof.
  unfold Further.fieldSum. induction m as [|[k0 v0] m IH]; simpl; [lia|].
  destruct (String.eqb k0 k); simpl; lia.
Qed.

Section Grouping.
Context {V T : Type}.
Variable key : T -> string.
Variable zero : string -> V.
Variable add : T -> V -> V.

(** A numeric field [f] of the values, and what an element adds to it. *)
Variable f : V -> Z.
Variable c : T -> Z.
Hypothesis f_zero : forall k, f (zero k) = 0.
Hypothesis f_add : forall t v, f (add t v) = f v + c t.

Lemma upsert_keys (m : JS.Obj V) (t : T) :
  JS.ownKeys (Further.upsert key zero add m t) =
  match JS.get m (key t) with
  | Some _ => JS.ownKeys m
  | None => JS.ownKeys m ++ [key t]
  end.
Proof. apply ownKeys_set. Qed.


(** The field summed over the whole dictionary: what was there plus what
    all the elements add. *)
Lemma grouped_total (l : list T) (m : JS.Obj V) :
  Further.fieldSum f (fold_left (Further.upsert key zero add) l m) =
  Further.fieldSum f m + Spec.sumZ (List.map c l).
Proof.
  revert m. induction l as [|t l IH]; intros m; cbn [fold_left List.map].
  - unfold Spec.sumZ. cbn [fold_right]. lia.
  - rewrite IH. unfold Further.upsert. rewrite fieldSum_set, f_add.
    unfold Spec.sumZ. cbn [fold_right].
    destruct (JS.get m (key t)); rewrite ?f_zero; lia.
Qed.
End Grouping.


Lemma fold_left_ext {A B : Type} (g h : A -> B -> A) (l : list B) (a : A) :
  (forall x y, g x y = h x y) -> fold_left g l a = fold_left h l a.
Proof.
  intros E. revert a. induction l as [|y l IH]; intros a; simpl; trivial.
  now rewrite E, IH.
Qed.

Lemma totalSalesAmount_total (txs : list Api.Transaction) :
  Transactions.totalSalesAmount txs = Spec.total Api.amount Api.isSale txs.
Proof.
  unfold Transactions.totalSalesAmount, Spec.total. rewrite fold_left_sum. lia.
Qed.

(* ================================================================== *)
(** * The charts: totals kept, placeholders, truncation *)
(* ================================================================== *)

Lemma sumZ_map_if {A : Type} (g : A -> Z) (p : A -> bool) (l : list A) :
  Spec.sumZ (List.map (fun t => if p t then g t else 0) l) =
  Spec.sumZ (List.map g (filter p l)).
Proof.
  induction l as [|x l IH]; simpl; trivial.
  destruct (p x); simpl; lia.
Qed.

Lemma weekMap_upsert (tz : Calendar.Zone) (txs : list Api.Transaction) :
  Dashboard.weekMap tz txs =
  fold_left (Further.upsert (Dashboard.weekKey tz) (fun _ => Spec.weekZero) Spec.weekAdd)
            txs [].
Proof.
  unfold Dashboard.weekMap. apply fold_left_ext. intros m t. apply weekStep_set.
Qed.

Lemma dayMap_upsert (tz : Calendar.Zone) (txs : list Api.Transaction) :
  Dashboard.dayMap tz txs =
  fold_left (Further.upsert (Dashboard.dayKey tz) (fun _ => 0)
                            (fun t v => v + Api.amount t))
            (filter Api.isSale txs) [].
Proof.
  unfold Dashboard.dayMap. apply fold_left_ext. intros m t.
  unfold Dashboard.dayStep, Further.upsert.
  destruct (JS.get m (Dashboard.dayKey tz t)); [now rewrite orZero_Some | reflexivity].
Qed.

Lemma weekly_fieldSum (tz : Calendar.Zone) (txs : list Api.Transaction)
  (f : Week.Totals -> Z) :
  Spec.sumZ (List.map (fun b : Week.Point => f b) (Dashboard.salesVsExpenses tz txs)) =
  Further.fieldSum f (Dashboard.weekMap tz txs).
Proof.
  unfold Dashboard.salesVsExpenses. rewrite map_map.
  rewrite <- (fieldSum_perm f _ _ (entries_perm (Dashboard.weekMap tz txs))).
  rewrite (fieldSum_perm f _ _
             (sort_perm (fun a b : string * Week.Totals => JS.localeCompare (fst a) (fst b))
                        (JS.entries (Dashboard.weekMap tz txs)))).
  unfold Further.fieldSum. f_equal. apply map_ext. now intros [k v].
Qed.

(** X1.  The weekly bars keep the totals.  When the amounts are whole
    numbers whose absolute values add up to less than 2^53, so that the
    sums of the code are exact, the ventes of all the bars add up to the
    total of the Sale amounts of the list (the total that the Transactions
    page shows) and their dépenses to the total of the Expense and
    Withdrawal amounts, in every time zone. *)
Theorem salesVsExpenses_totals (tz : Calendar.Zone) (txs : list Api.Transaction) :
  Further.exactSums txs ->
  Spec.sumZ (List.map (fun b : Week.Point => Week.ventes b)
                      (Dashboard.salesVsExpenses tz txs)) =
    Transactions.totalSalesAmount txs /\
  Spec.sumZ (List.map (fun b : Week.Point => Week.dépenses b)
                      (Dashboard.salesVsExpenses tz txs)) =
    Spec.total Api.amount Spec.isExpenseOrWithdrawal txs.
Proof.
  intros _. rewrite totalSalesAmount_total. split.
  - rewrite (weekly_fieldSum tz txs Week.ventes), weekMap_upsert.
    rewrite (grouped_total (Dashboard.weekKey tz) (fun _ => Spec.weekZero) Spec.weekAdd
               Week.ventes (fun t => if Api.isSale t then Api.amount t else 0))
      by reflexivity.
    rewrite sumZ_map_if. reflexivity.
  - rewrite (weekly_fieldSum tz txs Week.dépenses), weekMap_upsert.
    rewrite (grouped_total (Dashboard.weekKey tz) (fun _ => Spec.weekZero) Spec.weekAdd
               Week.dépenses (fun t => if Api.isExpense t then Api.amount t else 0))
      by reflexivity.
    rewrite sumZ_map_if. reflexivity.
Qed.

(** X2.  With a bound of the range missing, and amounts that are whole
    numbers whose absolute values add up to less than 2^53, so that the
    sums of the code are exact, the points of the daily series add up to
    the total of the Sale amounts of the list, in every time zone. *)
Theorem salesByDay_open_range_total (tz : Calendar.Zone) (txs : list Api.Transaction)
  (range : Dashboard.DateRange) :
  Further.exactSums txs ->
  fst range = None \/ snd range = None ->
  Spec.sumZ (List.map ventes (Dashboard.salesByDay tz txs range)) =
  Transactions.totalSalesAmount txs.
Proof.
  intros _ Hr.
  assert (S : Dashboard.salesByDay tz txs range =
      List.map (fun '(date, ventes) => {| date := date; ventes := ventes |})
               (JS.entries (Dashboard.dayMap tz txs))).
  { unfold Dashboard.salesByDay.
    destruct range as [[from|] [to|]]; cbn [fst snd] in Hr; trivial.
    destruct Hr; discriminate. }
  rewrite S, map_map, totalSalesAmount_total.
  transitivity (Further.fieldSum (fun v : Z => v) (JS.entries (Dashboard.dayMap tz txs))).
  - unfold Further.fieldSum. f_equal. apply map_ext. now intros [k v].
  - rewrite (fieldSum_perm _ _ _ (entries_perm (Dashboard.dayMap tz txs))).
    rewrite dayMap_upsert.
    rewrite (grouped_total (Dashboard.dayKey tz) (fun _ => 0)
               (fun t v => v + Api.amount t) (fun v : Z => v) Api.amount)
      by reflexivity.
    reflexivity.
Qed.

Lemma filter_none {A : Type} (p : A -> bool) (l : list A) :
  (forall x, In x l -> p x = false) -> filter p l = [].
Proof.
  induction l as [|x l IH]; intros H; simpl; trivial.
  rewrite (H x) by now left. apply IH. intros y Hy. apply H. now right.
Qed.

(** X3.  Chart 1 shows its "no sale" placeholder whenever the list holds no
    Sale transaction, whatever the range and the time zone, and also for
    an inverted range, whatever the sales. *)
Theorem chart1_placeholder (tz : Calendar.Zone) (txs : list Api.Transaction) :
  ((forall t, In t txs -> Api.isSale t = false) ->
   forall range,
     DashboardPage.chart1Placeholder (Dashboard.salesByDay tz txs range) = true) /\
  (forall D0 D1, D0 > D1 ->
     DashboardPage.chart1Placeholder
       (Dashboard.salesByDay tz txs (Some D0, Some D1)) = true).
Proof.
  split.
  - intros H range.
    assert (M : Dashboard.dayMap tz txs = []).
    { unfold Dashboard.dayMap. now rewrite (filter_none _ _ H). }
    destruct range as [[from|] [to|]].
    + unfold Dashboard.salesByDay. rewrite M.
      unfold DashboardPage.chart1Placeholder.
      apply forallb_forall. intros d I. apply dayLoop_points in I.
      destruct I as (c & ->). reflexivity.
    + unfold Dashboard.salesByDay. now rewrite M.
    + unfold Dashboard.salesByDay. now rewrite M.
    + unfold Dashboard.salesByDay. now rewrite M.
  - intros D0 D1 H. unfold Dashboard.salesByDay. rewrite dayLoop_past; trivial.
    unfold Calendar.newDateISO, Calendar.msPerDay. lia.
Qed.

Lemma topFold_keys_mono (l : list Api.Transaction) (m : JS.Obj Top.Totals) (k : string) :
  In k (JS.ownKeys m) -> In k (JS.ownKeys (fold_left Dashboard.topStep l m)).
Proof.
  revert m. induction l as [|t l IH]; intros m I; cbn [fold_left]; trivial.
  apply IH. rewrite topStep_set.
  destruct (Dashboard.saleName t) as [n|]; trivial.
  destruct (JS.inherited n); trivial.
  rewrite ownKeys_set. destruct (JS.get m n); trivial.
  apply in_or_app. now left.
Qed.

Lemma topFold_keys_complete (l : list Api.Transaction) (m : JS.Obj Top.Totals)
  (t : Api.Transaction) (n : string) :
  In t l -> Dashboard.saleName t = Some n -> JS.inherited n = false ->
  In n (JS.ownKeys (fold_left Dashboard.topStep l m)).
Proof.
  revert m. induction l as [|t' l IH]; intros m I S H; [destruct I|].
  cbn [fold_left]. destruct I as [-> | I]; [|now apply IH].
  apply topFold_keys_mono. rewrite topStep_set, S, H, ownKeys_set.
  destruct (JS.get m n) eqn:G.
  - apply get_Some_In in G. change n with (fst (n, t0)). now apply in_map.
  - apply in_or_app. right. now left.
Qed.

(** Every product name that the ranking can hold has its row before the
    ranking is cut to 8 rows. *)
Lemma topMap_complete (txs : list Api.Transaction) (n : string) :
  Further.ranked n txs ->
  exists v, In (n, v) (JS.entries (Dashboard.topMap txs)) /\
            Top.montant v = Spec.productRevenue n txs.
Proof.
  intros [(t & I & S) H].
  assert (K : In n (JS.ownKeys (Dashboard.topMap txs))).
  { unfold Dashboard.topMap. apply topFold_keys_complete with (t := t); trivial.
    apply filter_In. split; trivial. unfold Dashboard.hasSaleName. now rewrite S. }
  unfold JS.ownKeys in K. apply in_map_iff in K. destruct K as ([k v] & E & K).
  cbn [fst] in E. subst k. exists v.
  assert (K' : In (n, v) (JS.entries (Dashboard.topMap txs))).
  { eapply Permutation_in; [symmetry; apply entries_perm | exact K]. }
  split; trivial. now apply topMap_entry in K'.
Qed.

Lemma StronglySorted_app_inv {A : Type} (R : A -> A -> Prop) (l1 l2 : list A) :
  StronglySorted R (l1 ++ l2) ->
  forall x y, In x l1 -> In y l2 -> R x y.
Proof.
  induction l1 as [|a l1 IH]; intros S x y Ix Iy; [destruct Ix|].
  cbn [app] in S. inversion S as [|? ? S' F]; subst.
  destruct Ix as [-> | Ix].
  - rewrite Forall_forall in F. apply F. apply in_or_app. now right.
  - now apply IH.
Qed.

(** X4.  Cutting the ranking to 8 rows only drops the lowest revenues: a
    product name with a sale (other than a name inherited from
    Object.prototype) either has its row, or the ranking is full with 8
    rows whose revenues are all at least the revenue of that product. *)
Theorem topProducts_keeps_the_best (txs : list Api.Transaction) (n : string) :
  Further.ranked n txs ->
  In n (List.map Top.produit (Dashboard.topProducts txs)) \/
  (List.length (Dashboard.topProducts txs) = 8%nat /\
   forall e, In e (Dashboard.topProducts txs) ->
             Top.montant e >= Spec.productRevenue n txs).
Proof.
  intros Hn. destruct (topMap_complete txs n Hn) as (v & I & Hv).
  unfold Dashboard.topProducts.
  set (mk := fun '(produit, v) => {| Top.produit := produit; Top.totals := v |}).
  set (cmp := fun a b : Top.Entry => Top.montant b - Top.montant a).
  set (rows := JS.sort cmp (List.map mk (JS.entries (Dashboard.topMap txs)))).
  assert (Ir : In (mk (n, v)) rows).
  { eapply Permutation_in; [apply sort_perm|]. now apply in_map. }
  assert (S : StronglySorted (fun a b => cmp a b <= 0) rows).
  { apply Sorted_StronglySorted.
    - intros x y z. unfold cmp. lia.
    - apply sort_sorted. intros x y. unfold cmp. lia. }
  rewrite <- (firstn_skipn 8 rows) in Ir, S.
  apply in_app_or in Ir. destruct Ir as [Ir | Ir].
  - left. apply in_map_iff. exists (mk (n, v)). split; trivial.
  - right. split.
    + apply firstn_length_le.
      destruct (Nat.le_gt_cases 8 (List.length rows)) as [L|G]; trivial.
      rewrite skipn_all2 in Ir by lia. destruct Ir.
    + intros e Ie.
      assert (C := StronglySorted_app_inv _ _ _ S e (mk (n, v)) Ie Ir).
      unfold cmp in C. cbn [mk Top.totals Top.montant] in C. lia.
Qed.

Lemma topMap_entry_not_inherited (txs : list Api.Transaction) (k : string)
  (v : Top.Totals) :
  In (k, v) (JS.entries (Dashboard.topMap txs)) -> JS.inherited k = false.
Proof.
  intros I.
  assert (G := entries_get _ _ _ (topMap_keys_NoDup txs) I).
  assert (K : In k (JS.ownKeys (Dashboard.topMap txs))).
  { apply get_Some_In in G. change k with (fst (k, v)). now apply in_map. }
  apply topFold_keys_In in K. destruct K as [[] | (t & _ & _ & H)]. exact H.
Qed.

Lemma topProducts_row (txs : list Api.Transaction) (e : Top.Entry) :
  In e (Dashboard.topProducts txs) ->
  In (Top.produit e, Top.totals e) (JS.entries (Dashboard.topMap txs)).
Proof.
  unfold Dashboard.topProducts. intros I. apply In_firstn in I.
  eapply Permutation_in in I; [|symmetry; apply sort_perm].
  apply in_map_iff in I. now destruct I as ([k v] & <- & I).
Qed.

(** X5.  The ranking never has a row for a product whose name is the name
    of a member of Object.prototype (constructor, toString, ...): the loop
    finds [map[name]] already set and creates no entry for it. *)
Theorem topProducts_skips_inherited_names (txs : list Api.Transaction)
  (e : Top.Entry) :
  In e (Dashboard.topProducts txs) -> JS.inherited (Top.produit e) = false.
Proof.
  intros I. apply topProducts_row in I.
  now apply topMap_entry_not_inherited in I.
Qed.

Lemma length_zero_nil {A : Type} (l : list A) :
  (List.length l =? 0)%nat = true <-> l = [].
Proof.
  destruct l; simpl; split; intros H; trivial; discriminate.
Qed.

(** The product name that the ranking reads off a transaction, in the words
    of the statements. *)
Lemma saleName_saleOfProduct (t : Api.Transaction) (n : string) :
  Dashboard.saleName t = Some n <-> Spec.saleOfProduct n t /\ n <> "".
Proof.
  unfold Spec.saleOfProduct. split.
  - intros H. apply saleName_Some in H. destruct H as (S & P & N).
    apply String.eqb_eq in S. auto.
  - intros ((T & p & P & E) & N). unfold Dashboard.saleName, Api.isSale.
    rewrite T, P, E. cbn [String.eqb Ascii.eqb Bool.eqb andb].
    now destruct (String.eqb_spec n "").
Qed.

(** X6.  Chart 2 shows its placeholder exactly when the transaction list
    is empty, and chart 3 exactly when every Sale transaction that carries
    a product carries one whose name is empty or is the name of a property
    that objects inherit from Object.prototype. *)
Theorem chart2_chart3_placeholders (tz : Calendar.Zone) (txs : list Api.Transaction) :
  (DashboardPage.chart2Placeholder (Dashboard.salesVsExpenses tz txs) = true
   <-> txs = []) /\
  (DashboardPage.chart3Placeholder (Dashboard.topProducts txs) = true
   <-> forall t n, In t txs -> Spec.saleOfProduct n t ->
                   n = "" \/ JS.inherited n = true).
Proof.
  unfold DashboardPage.chart2Placeholder, DashboardPage.chart3Placeholder.
  rewrite !length_zero_nil. split; split.
  - intros E. destruct txs as [|t txs]; trivial. exfalso.
    assert (K : In (Dashboard.weekKey tz t) (JS.ownKeys (Dashboard.weekMap tz (t :: txs)))).
    { rewrite weekMap_keys. apply firstSeen_In. now left. }
    unfold JS.ownKeys in K. apply in_map_iff in K. destruct K as ([k v] & _ & K).
    assert (I : In {| Week.semaine := k; Week.totals := v |}
                   (Dashboard.salesVsExpenses tz (t :: txs))).
    { apply salesVsExpenses_In. cbn [Week.semaine Week.totals].
      eapply Permutation_in; [symmetry; apply entries_perm | exact K]. }
    rewrite E in I. destruct I.
  - intros ->. reflexivity.
  - intros E t n It S.
    destruct (String.eqb_spec n "") as [|N]; [now left|].
    destruct (JS.inherited n) eqn:H; [now right|]. exfalso.
    assert (Hn : Further.ranked n txs).
    { split; trivial. exists t. split; trivial. now apply saleName_saleOfProduct. }
    destruct (topMap_complete txs n Hn) as (v & I & _).
    unfold Dashboard.topProducts in E.
    set (mk := fun '(produit, v) => {| Top.produit := produit; Top.totals := v |}) in E.
    set (cmp := fun a b : Top.Entry => Top.montant b - Top.montant a) in E.
    assert (Ir : In (mk (n, v))
                    (JS.sort cmp (List.map mk (JS.entries (Dashboard.topMap txs))))).
    { eapply Permutation_in; [apply sort_perm|]. now apply in_map. }
    destruct (JS.sort cmp (List.map mk (JS.entries (Dashboard.topMap txs))));
      [destruct Ir | discriminate E].
  - intros H. destruct (Dashboard.topProducts txs) as [|e l] eqn:E; trivial. exfalso.
    assert (I : In e (Dashboard.topProducts txs)) by (rewrite E; now left).
    apply topProducts_row in I.
    destruct (topMap_entry _ _ _ I) as ((t & It & S) & _).
    apply saleName_saleOfProduct in S. destruct S as (S & N).
    apply topMap_entry_not_inherited in I.
    destruct (H t _ It S) as [Z | Z]; [now apply N | congruence].
Qed.

(* ================================================================== *)
(** * The preset periods *)
(* ================================================================== *)

(** In a zone of fixed offset, moving the day of the month by [k] moves the
    time value by [k] days. *)
Lemma setDate_shift (tz d k : Z) :
  Calendar.setDate tz d (Calendar.getDate tz d + k) = d + k * Calendar.msPerDay.
Proof.
  unfold Calendar.setDate, Calendar.getDate, Calendar.UTC, Calendar.MakeDate,
    Calendar.MakeDayInMonth, Calendar.LocalTime, Calendar.TimeWithinDay, Calendar.Day.
  cbn [Calendar.offsetAt Calendar.offsetOfLocal Calendar.fixed].
  assert (E : d + tz = Calendar.msPerDay * ((d + tz) / Calendar.msPerDay)
                       + (d + tz) mod Calendar.msPerDay)
    by (apply Z.div_mod; unfold Calendar.msPerDay; lia).
  lia.
Qed.

Lemma Day_shift (d k : Z) :
  Calendar.Day (d + k * Calendar.msPerDay) = Calendar.Day d + k.
Proof.
  unfold Calendar.Day. apply Z.div_add. unfold Calendar.msPerDay. lia.
Qed.

(** X7.  In a time zone of fixed offset (one without daylight saving time),
    for a preset period of N days (7, 30 or 90), when the two readings of
    the clock fall on the same UTC day, the range runs from the UTC date of
    now minus N days to the UTC date of now, and the daily series has N + 1
    points; when the offset is from UTC up to the date line, their labels
    are those of these N + 1 days in order. *)
Theorem preset_period_series (tz : Z) (period : DashboardPage.Period)
  (customFrom customTo : option Z) (nowTo nowFrom : Z)
  (txs : list Api.Transaction) :
  period <> DashboardPage.Custom ->
  Calendar.Day nowFrom = Calendar.Day nowTo ->
  let N := Further.periodDays period in
  let range :=
    DashboardPage.getDateRange (Calendar.fixed tz) period customFrom customTo
      nowTo nowFrom in
  range = (Some (Calendar.Day nowTo - N), Some (Calendar.Day nowTo)) /\
  List.length (Dashboard.salesByDay (Calendar.fixed tz) txs range) = Z.to_nat (N + 1) /\
  (0 <= tz < Calendar.msPerDay ->
   List.map date (Dashboard.salesByDay (Calendar.fixed tz) txs range) =
   List.map Calendar.label (Spec.daysFrom (Calendar.Day nowTo - N) (Z.to_nat (N + 1)))).
Proof.
  intros P D N range.
  assert (R : range = (Some (Calendar.Day nowTo - N), Some (Calendar.Day nowTo))).
  { unfold range, N, DashboardPage.getDateRange, DashboardPage.isoDate.
    destruct period; try (now elim P); cbn [Further.periodDays];
      rewrite <- D; do 2 f_equal;
      match goal with |- context [Calendar.getDate ?z nowFrom - ?n] =>
        replace (Calendar.getDate z nowFrom - n)
          with (Calendar.getDate z nowFrom + - n) by lia;
        rewrite setDate_shift, Day_shift; lia
      end. }
  rewrite R. split; [reflexivity|]. rewrite salesByDay_days.
  replace (Calendar.Day nowTo - (Calendar.Day nowTo - N) + 1) with (N + 1) by lia.
  split.
  - now rewrite length_map, daysFrom_length.
  - intros Htz. rewrite map_map. apply map_ext. intros d.
    now rewrite dayPoint_newDateISO.
Qed.

(* ================================================================== *)
(** * The sales detail by date *)
(* ================================================================== *)

Lemma step_upsert (tz : Calendar.Zone) (acc : JS.Obj SalesByDate.DailySales) (t : Api.Transaction) :
  SalesByDate.step tz acc t =
  Further.upsert (SalesByDate.dateKey tz) Further.dayZero Further.dayAdd acc t.
Proof.
  unfold SalesByDate.step, Further.upsert, Further.dayAdd, Further.dayZero.
  set (k := SalesByDate.dateKey tz t).
  destruct (JS.get acc k) as [v|] eqn:G; rewrite ?G, ?get_set_same;
    cbn [SalesByDate.date SalesByDate.totalAmount SalesByDate.totalItems
         SalesByDate.count]; now rewrite ?set_set.
Qed.

Lemma salesByDate_upsert (tz : Calendar.Zone) (txs : list Api.Transaction) :
  SalesByDate.salesByDate tz txs =
  fold_left (Further.upsert (SalesByDate.dateKey tz) Further.dayZero Further.dayAdd)
            (filter Api.isSale txs) [].
Proof.
  unfold SalesByDate.salesByDate. apply fold_left_ext. intros m t. apply step_upsert.
Qed.

Lemma hasSpace_app (a b : string) : Further.hasSpace (a ++ String " " b) = true.
Proof.
  unfold Further.hasSpace. induction a as [|c a IH]; simpl; trivial.
  rewrite IH. apply orb_true_r.
Qed.

(** A date text contains a space, and no name inherited from
    Object.prototype does. *)
Lemma longDate_not_inherited (day : Z) : JS.inherited (SalesByDate.longDate day) = false.
Proof.
  assert (S : Further.hasSpace (SalesByDate.longDate day) = true).
  { unfold SalesByDate.longDate. destruct (Calendar.civil day) as [[y m] d].
    apply hasSpace_app. }
  destruct (JS.inherited (SalesByDate.longDate day)) eqn:E; trivial.
  exfalso. unfold JS.inherited in E.
  apply existsb_exists in E. destruct E as (n & I & E).
  apply String.eqb_eq in E. rewrite E in S.
  simpl in I. repeat (destruct I as [<- | I]; [discriminate S|]). exact I.
Qed.



Lemma sumZ_ones {A : Type} (l : list A) :
  Spec.sumZ (List.map (fun _ => 1) l) = Z.of_nat (List.length l).
Proof.
  induction l as [|x l IH]; [reflexivity|].
  cbn [List.map List.length]. unfold Spec.sumZ in *. cbn [fold_right]. lia.
Qed.

Lemma rows_fieldSum (tz : Calendar.Zone) (txs : list Api.Transaction)
  (rows : list SalesByDate.DailySales) (f : SalesByDate.DailySales -> Z) :
  SalesByDate.isSalesByDateList tz txs rows ->
  Spec.sumZ (List.map f rows) = Further.fieldSum f (SalesByDate.salesByDate tz txs).
Proof.
  intros P. rewrite (sumZ_perm _ _ (Permutation_map f P)).
  unfold SalesByDate.values. rewrite map_map.
  exact (fieldSum_perm f _ _ (entries_perm (SalesByDate.salesByDate tz txs))).
Qed.

(** X8.  The footer of the sales-by-date table agrees with its rows,
    however the sort has arranged them: the counts of the rows add up to
    the number of Sale transactions and their items to the total of items
    sold; and when the amounts are whole numbers whose absolute values add
    up to less than 2^53, so that the sums of the code are exact, their
    amounts add up to the total of sales that the page shows. *)
Theorem salesByDate_footer (tz : Calendar.Zone) (txs : list Api.Transaction)
  (rows : list SalesByDate.DailySales) :
  SalesByDate.isSalesByDateList tz txs rows ->
  SalesByDate.footerCount rows = Z.of_nat (List.length (filter Api.isSale txs)) /\
  Spec.sumZ (List.map SalesByDate.totalItems rows) = Transactions.totalItemsSold txs /\
  (Further.exactSums txs ->
   Spec.sumZ (List.map SalesByDate.totalAmount rows) =
   Transactions.totalSalesAmount txs).
Proof.
  intros P. unfold SalesByDate.footerCount, Transactions.totalItemsSold,
    Transactions.totalSalesAmount.
  rewrite !fold_left_sum, !(rows_fieldSum tz txs rows _ P), salesByDate_upsert.
  split; [|split; [|intros _]].
  - rewrite (grouped_total (SalesByDate.dateKey tz) Further.dayZero Further.dayAdd
               SalesByDate.count (fun _ => 1)) by reflexivity.
    rewrite sumZ_ones. reflexivity.
  - rewrite (grouped_total (SalesByDate.dateKey tz) Further.dayZero Further.dayAdd
               SalesByDate.totalItems (fun t => JS.orZero (Api.quantity t)))
      by reflexivity.
    reflexivity.
  - rewrite (grouped_total (SalesByDate.dateKey tz) Further.dayZero Further.dayAdd
               SalesByDate.totalAmount Api.amount) by reflexivity.
    reflexivity.
Qed.


(* ================================================================== *)
(** * The states of the transaction form *)
(* ================================================================== *)

(** X10.  In every state that the form can reach, the type is one of the
    three options, and as long as it is not Sale the product and the
    quantity fields are empty: the request of an expense or a withdrawal
    leaves out nothing that the user has chosen.  Every request issued
    from such a state has one of the three types. *)
Theorem form_states (products : list Api.Product.t) (f : Transactions.FormData) :
  TransactionForm.reachable products f ->
  In (Transactions.type f) TransactionForm.typeOptions /\
  (Transactions.type f <> "Sale" ->
     Transactions.product_id f = "" /\ Transactions.quantity f = "") /\
  (forall parseFloat data,
     Transactions.handleSubmit parseFloat f = Transactions.Created data ->
     In (Transactions.req_type data) TransactionForm.typeOptions).
Proof.
  intros R.
  assert (I : In (Transactions.type f) TransactionForm.typeOptions /\
              (Transactions.type f <> "Sale" ->
               Transactions.product_id f = "" /\ Transactions.quantity f = "")).
  { induction R as [|f e R IH En].
    - split; [now left | intros N; now elim N].
    - destruct IH as [IH1 IH2].
      destruct e as [|v|pid|q|a|c]; cbn [TransactionForm.handle TransactionForm.enabled] in *.
      + split; [now left | intros N; now elim N].
      + split; [now apply existsb_eqb_In | now split].
      + apply String.eqb_eq in En. unfold Transactions.handleProductChange.
        destruct (Transactions.findProduct products pid);
          [destruct (Transactions.nonEmpty (Transactions.quantity f))|];
          cbn [Transactions.type]; rewrite En; (split; [now left | intros N; now elim N]).
      + apply String.eqb_eq in En. unfold Transactions.handleQuantityChange.
        destruct (Transactions.findProduct products (Transactions.product_id f));
          [destruct (Transactions.nonEmpty q)|];
          cbn [Transactions.type]; rewrite En; (split; [now left | intros N; now elim N]).
      + split; [exact IH1 | exact IH2].
      + split; [exact IH1 | exact IH2]. }
  destruct I as [I1 I2]. split; [exact I1 | split; [exact I2|]].
  intros parseFloat data. unfold Transactions.handleSubmit.
  destruct (String.eqb (Transactions.type f) "Sale");
    [destruct (negb (Transactions.nonEmpty (Transactions.product_id f))
               || negb (Transactions.nonEmpty (Transactions.quantity f)));
     [discriminate|]|];
    intros [= <-]; exact I1.
Qed.

(* ================================================================== *)
(** * The routes and the menu *)
(* ================================================================== *)

(** X11.  Once the session is loaded, three redirects at most lead from
    any location to a page.  A visitor who is not logged in ends on the
    login page (or on the registration page or the public shop, when asked
    for); a logged-in user who is not super admin ends on Products from
    everywhere but /transactions and the public shop. *)
Theorem routes_settle (auth : App.Auth) (location : App.Location) :
  App.isLoading auth = false ->
  (exists page, App.settle 3 auth location = App.Render page) /\
  (App.user auth = false ->
     App.settle 3 auth location =
     App.Render match location with
                | App.RegisterPath => App.Register
                | App.ShopPath _ => App.PublicShop
                | _ => App.Login
                end) /\
  (App.user auth = true -> App.isSuperAdmin auth = false ->
     App.settle 3 auth location =
     App.Render match location with
                | App.TransactionsPath => App.Transactions
                | App.ShopPath _ => App.PublicShop
                | _ => App.Products
                end).
Proof.
  destruct auth as [[] [] []]; cbn [App.isLoading App.user App.isSuperAdmin];
    intros L; try discriminate L;
    (split; [|split]); intros; try discriminate;
    destruct location; cbn; eauto.
Qed.

Lemma AppRoutes_render (auth : App.Auth) (location : App.Location) (page : App.Page) :
  App.AppRoutes auth location = App.Render page ->
  (Further.adminOnly page = true -> App.isSuperAdmin auth = true) /\
  (Further.loggedInOnly page = true ->
     App.user auth = true /\ App.isLoading auth = false) /\
  (page = App.Login \/ page = App.Register -> App.user auth = false).
Proof.
  destruct auth as [[] [] []]; destruct location; cbn; intros E;
    try discriminate E; injection E as <-; cbn;
    repeat split; intros; trivial; try discriminate;
    match goal with H : _ \/ _ |- _ => destruct H; discriminate end.
Qed.

(** X12.  Whatever the location and the number of redirects followed, the
    Dashboard, Users and Settings pages are rendered for a logged-in super
    admin only, Products and Transactions for a logged-in user only, and
    the login and registration pages only when nobody is logged in. *)
Theorem routes_access (hops : nat) (auth : App.Auth) (location : App.Location)
  (page : App.Page) :
  App.settle hops auth location = App.Render page ->
  (Further.adminOnly page = true -> App.isSuperAdmin auth = true) /\
  (Further.loggedInOnly page = true ->
     App.user auth = true /\ App.isLoading auth = false) /\
  (page = App.Login \/ page = App.Register -> App.user auth = false).
Proof.
  revert location. induction hops as [|hops IH]; intros location; cbn [App.settle];
    destruct (App.AppRoutes auth location) as [p|to|] eqn:E; try discriminate.
  - intros [= <-]. now apply AppRoutes_render with (location := location).
  - intros [= <-]. now apply AppRoutes_render with (location := location).
  - apply IH.
Qed.

(** X13.  For a logged-in user, once the session is loaded, the menu holds
    exactly the protected locations that render their page: no entry of
    the menu leads to a redirect, and no page that the user may open is
    missing from it. *)
Theorem menu_matches_routes (auth : App.Auth) (location : App.Location) :
  App.user auth = true -> App.isLoading auth = false ->
  In location Further.protectedLocations ->
  (In location (List.map Layout.href (Layout.navigation (App.isSuperAdmin auth)))
   <-> Further.rendersAPage auth location).
Proof.
  destruct auth as [[] [] []]; cbn [App.isLoading App.user App.isSuperAdmin];
    intros U L; try discriminate U; try discriminate L;
    unfold Further.rendersAPage; cbn;
    intros H; repeat (destruct H as [<- | H]); try destruct H;
    cbn; split; intros K; eauto 10;
    try (destruct K as (p & K); discriminate K);
    try (repeat (destruct K as [K | K]; try discriminate K); destruct K).
Qed.

(* ================================================================== *)
(** * The categories of the public shop *)
(* ================================================================== *)

Lemma newSet_firstSeen (values members : list string) :
  fold_left PublicShop.setAdd values members =
  members ++ filter (fun v => negb (existsb (String.eqb v) members))
                    (Spec.firstSeen values).
Proof.
  revert members. induction values as [|v values IH]; intros members; cbn [fold_left].
  - cbn. now rewrite app_nil_r.
  - rewrite IH. unfold PublicShop.setAdd. cbn [Spec.firstSeen filter].
    destruct (existsb (String.eqb v) members) eqn:E; cbn [negb].
    + f_equal. rewrite filter_filter_and. apply filter_ext_in. intros k _.
      destruct (String.eqb_spec k v) as [->|]; cbn; trivial. now rewrite E.
    + rewrite <- app_assoc. cbn [app]. do 2 f_equal.
      rewrite filter_filter_and. apply filter_ext_in. intros k _.
      rewrite existsb_app. cbn. rewrite orb_false_r.
      destruct (String.eqb k v); destruct (existsb (String.eqb k) members); reflexivity.
Qed.

(** X14.  The category filter of the public shop offers each non-empty
    category of the products once, in the order of its first product, and
    nothing else. *)
Theorem categories_distinct (productCategories : list string) :
  PublicShop.categories productCategories =
    Spec.firstSeen (filter (fun c => negb (String.eqb c "")) productCategories) /\
  NoDup (PublicShop.categories productCategories) /\
  (forall c, In c (PublicShop.categories productCategories) <->
             In c productCategories /\ c <> "").
Proof.
  assert (E : PublicShop.categories productCategories =
    Spec.firstSeen (filter (fun c => negb (String.eqb c "")) productCategories)).
  { unfold PublicShop.categories, PublicShop.newSet. rewrite newSet_firstSeen. cbn.
    induction (Spec.firstSeen _); cbn; congruence. }
  split; [exact E | split].
  - rewrite E. apply firstSeen_NoDup.
  - intros c. rewrite E, firstSeen_In, filter_In.
    destruct (String.eqb_spec c ""); cbn; intuition congruence.
Qed.

(* ================================================================== *)
(** * Numbers written and read back *)
(* ================================================================== *)

Ltac digit_cases c D :=
  destruct c as [[] [] [] [] [] [] [] []];
  try (exfalso; vm_compute in D; discriminate D).

Lemma leadingDigits_start (c : ascii) (rest : string) :
  JS.isDigit c = true ->
  JS.leadingDigits 10 None (String c rest) = JS.leadingDigits 10 (Some 0) (String c rest).
Proof. intros D. cbn [JS.leadingDigits]. change (10 =? 16) with false. cbv iota. now rewrite D. Qed.

(** A text that starts with two digits, or with one digit and nothing more,
    is read as its leading digits, and as their opposite after a minus sign. *)
Lemma parseInt_digits (c : ascii) (rest : string) :
  JS.isDigit c = true ->
  (rest = "" \/ exists c' r, rest = String c' r /\ JS.isDigit c' = true) ->
  JS.parseInt (String c rest) = JS.leadingDigits 10 (Some 0) (String c rest) /\
  JS.parseInt (String "-" (String c rest)) =
    option_map Z.opp (JS.leadingDigits 10 (Some 0) (String c rest)).
Proof.
  intros D H. rewrite <- (leadingDigits_start c rest D).
  destruct H as [-> | (c' & r & -> & D')].
  - digit_cases c D; unfold JS.parseInt; cbn [JS.trimStart];
      repeat match goal with |- context [JS.isWhiteSpace ?x] =>
        change (JS.isWhiteSpace x) with false end; cbv iota beta;
      (split; [destruct (JS.leadingDigits 10 None _); trivial; f_equal; lia
              | destruct (JS.leadingDigits 10 None _); simpl; trivial; f_equal; lia]).
  - digit_cases c D; digit_cases c' D'; unfold JS.parseInt; cbn [JS.trimStart];
      repeat match goal with |- context [JS.isWhiteSpace ?x] =>
        change (JS.isWhiteSpace x) with false end; cbv iota beta;
      (split; [destruct (JS.leadingDigits 10 None _); trivial; f_equal; lia
              | destruct (JS.leadingDigits 10 None _); simpl; trivial; f_equal; lia]).
Qed.

Lemma leadingDigits_uint_acc (d : Decimal.uint) (acc : positive) :
  JS.leadingDigits 10 (Some (Z.pos acc)) (NilEmpty.string_of_uint d) =
  Some (Z.pos (Pos.of_uint_acc d acc)).
Proof.
  revert acc. induction d; intros acc;
    cbn [NilEmpty.string_of_uint JS.leadingDigits Pos.of_uint_acc]; trivial;
    change (10 =? 16) with false; cbv iota;
    match goal with |- context [JS.isDigit ?c] =>
      change (JS.isDigit c) with true;
      let v := eval vm_compute in (JS.digitValue c) in
      change (JS.digitValue c) with v
    end; cbv iota; rewrite <- IHd; do 2 f_equal; lia.
Qed.

Lemma leadingDigits_uint (d : Decimal.uint) :
  JS.leadingDigits 10 (Some 0) (NilEmpty.string_of_uint d) =
  Some (Z.of_N (Pos.of_uint d)).
Proof.
  induction d;
    cbn [NilEmpty.string_of_uint JS.leadingDigits Pos.of_uint]; trivial;
    change (10 =? 16) with false; cbv iota;
    match goal with |- context [JS.isDigit ?c] =>
      change (JS.isDigit c) with true;
      let v := eval vm_compute in (JS.digitValue c) in
      change (JS.digitValue c) with v
    end; cbv iota; change (10 * 0) with 0; cbn [Z.add];
    first [exact IHd | apply leadingDigits_uint_acc].
Qed.

Lemma string_of_uint_shape (d : Decimal.uint) :
  NilEmpty.string_of_uint d = "" \/
  exists c r, NilEmpty.string_of_uint d = String c r /\ JS.isDigit c = true.
Proof. destruct d; [now left | right; do 2 eexists; split; reflexivity ..]. Qed.

Lemma parseInt_uint (d : Decimal.uint) :
  d <> Decimal.Nil ->
  JS.parseInt (NilEmpty.string_of_uint d) = Some (Z.of_N (Pos.of_uint d)) /\
  JS.parseInt (String "-" (NilEmpty.string_of_uint d)) = Some (- Z.of_N (Pos.of_uint d)).
Proof.
  intros N. rewrite <- (leadingDigits_uint d).
  destruct (string_of_uint_shape d) as [E | (c & r & E & D)].
  - destruct d; try discriminate E. now elim N.
  - rewrite E.
    assert (H : r = "" \/ exists c' r', r = String c' r' /\ JS.isDigit c' = true).
    { destruct d; try discriminate E; injection E as _ <-; apply string_of_uint_shape. }
    destruct (parseInt_digits c r D H) as [P1 P2]. rewrite P1, P2.
    split; trivial. rewrite <- E, leadingDigits_uint. reflexivity.
Qed.

Lemma NilZero_string_of_uint (d : Decimal.uint) :
  d <> Decimal.Nil -> NilZero.string_of_uint d = NilEmpty.string_of_uint d.
Proof. destruct d; trivial. intros N. now elim N. Qed.

Lemma to_uint_not_Nil (p : positive) : Pos.to_uint p <> Decimal.Nil.
Proof.
  intros E. assert (H := Unsigned.of_to p). rewrite E in H. discriminate H.
Qed.

(** Reading back the decimal text of an integer gives the integer. *)
Lemma parseInt_toString (z : Z) : JS.parseInt (JS.toString (Some z)) = Some z.
Proof.
  unfold JS.toString. destruct z as [|p|p]; cbn [Z.to_int NilZero.string_of_int].
  - reflexivity.
  - rewrite NilZero_string_of_uint by apply to_uint_not_Nil.
    rewrite (proj1 (parseInt_uint _ (to_uint_not_Nil p))), Unsigned.of_to. reflexivity.
  - rewrite NilZero_string_of_uint by apply to_uint_not_Nil.
    rewrite (proj2 (parseInt_uint _ (to_uint_not_Nil p))), Unsigned.of_to. reflexivity.
Qed.

(** [find] gives the product of an id when the ids of the list are
    distinct. *)
Lemma findProduct_unique (products : list Api.Product.t) (p : Api.Product.t) :
  NoDup (List.map Api.Product.id products) -> In p products ->
  Transactions.findProduct products (Api.Product.id p) = Some p.
Proof.
  unfold Transactions.findProduct.
  induction products as [|x l IH]; intros N I; [destruct I|].
  cbn [List.map] in N. inversion N as [|? ? Nx Nl]; subst. cbn [find].
  destruct I as [-> | I].
  - now rewrite String.eqb_refl.
  - destruct (String.eqb_spec (Api.Product.id x) (Api.Product.id p)) as [E|_].
    + exfalso. apply Nx. rewrite E. now apply in_map.
    + now apply IH.
Qed.





(** X15.  A sale submitted as the form prefills it is consistent: in a list
    of products with distinct ids, after a product is selected and a
    quantity text that parseInt reads as n is typed, the amount not being
    edited, the request carries that product, the quantity n and the
    amount selling_price x n of that product (for a product of numbers that
    JavaScript holds exactly and a parseFloat that reads the decimal text
    of an integer back). *)
Theorem sale_request_consistent (parseFloat : string -> option Z)
  (products : list Api.Product.t) (f : Transactions.FormData)
  (q : string) (p : Api.Product.t) (n : Z) :
  (forall z, parseFloat (JS.toString (Some z)) = Some z) ->
  Transactions.type f = "Sale" ->
  NoDup (List.map Api.Product.id products) -> In p products ->
  Api.Product.id p <> "" ->
  JS.parseInt q = Some n ->
  Further.safeInteger (Api.Product.selling_price p * n) ->
  exists data,
    Transactions.handleSubmit parseFloat
      (Transactions.handleQuantityChange products
         (Transactions.handleProductChange products f (Api.Product.id p)) q)
    = Transactions.Created data /\
    Transactions.req_product_id data = Some (Api.Product.id p) /\
    Transactions.req_quantity data = Some (Some n) /\
    Transactions.req_amount data = Some (Api.Product.selling_price p * n).
Proof.
  intros PF T N I P Q _.
  set (pid := Api.Product.id p) in *.
  assert (F : Transactions.findProduct products pid = Some p)
    by now apply findProduct_unique.
  assert (NQ : Transactions.nonEmpty q = true).
  { unfold Transactions.nonEmpty. destruct (String.eqb_spec q "") as [->|]; trivial.
    discriminate Q. }
  assert (NP : Transactions.nonEmpty pid = true)
    by (unfold Transactions.nonEmpty; now destruct (String.eqb_spec pid "")).
  assert (E : Transactions.handleQuantityChange products
                (Transactions.handleProductChange products f pid) q =
              {| Transactions.type := "Sale";
                 Transactions.product_id := pid;
                 Transactions.quantity := q;
                 Transactions.amount :=
                   JS.toString (Some (Api.Product.selling_price p * n));
                 Transactions.comment := Transactions.comment f |}).
  { unfold Transactions.handleProductChange. rewrite F.
    unfold Transactions.handleQuantityChange.
    destruct (Transactions.nonEmpty (Transactions.quantity f));
      cbn [Transactions.product_id]; rewrite F, NQ, Q, T; reflexivity. }
  rewrite E. unfold Transactions.handleSubmit.
  cbn [Transactions.type Transactions.product_id Transactions.quantity
       Transactions.amount Transactions.comment].
  rewrite NP, NQ, Q, PF. cbn.
  eexists. split; [reflexivity|]. cbn. auto.
Qed.


(* ================================================================== *)
(** * The two versions of the transaction form *)
(* ================================================================== *)

(** X17.  On a sale form, the handlers of the version with comments do
    what the handlers of the earlier version do: selecting a product (with
    a non-empty id) or typing a quantity (once a product is selected) leads
    to the same fields, and submitting issues the same request or the same
    refusal, the comment apart. *)
Theorem form_versions_agree (parseFloat : string -> option Z)
  (products : list Api.Product.t) (f : Transactions.FormData) :
  (forall pid, Transactions.type f = "Sale" -> pid <> "" ->
     TransactionsBasic.ofForm (Transactions.handleProductChange products f pid) =
     TransactionsBasic.handleProductChange products (TransactionsBasic.ofForm f) pid) /\
  (forall q, Transactions.type f = "Sale" -> Transactions.product_id f <> "" ->
     TransactionsBasic.ofForm (Transactions.handleQuantityChange products f q) =
     TransactionsBasic.handleQuantityChange products (TransactionsBasic.ofForm f) q) /\
  TransactionsBasic.handleSubmit parseFloat (TransactionsBasic.ofForm f) =
  TransactionsBasic.ofOutcome (Transactions.handleSubmit parseFloat f).
Proof.
  split; [|split].
  - intros pid T P.
    unfold TransactionsBasic.handleProductChange, Transactions.handleProductChange,
      TransactionsBasic.nonEmpty, Transactions.nonEmpty, TransactionsBasic.ofForm.
    cbn [TransactionsBasic.type TransactionsBasic.quantity TransactionsBasic.amount].
    rewrite T. destruct (String.eqb_spec pid ""); [contradiction|].
    cbn [String.eqb Ascii.eqb Bool.eqb andb negb].
    destruct (Transactions.findProduct products pid); trivial.
    destruct (negb (String.eqb (Transactions.quantity f) "")); reflexivity.
  - intros q T P.
    unfold TransactionsBasic.handleQuantityChange, Transactions.handleQuantityChange,
      TransactionsBasic.nonEmpty, Transactions.nonEmpty, TransactionsBasic.ofForm.
    cbn [TransactionsBasic.type TransactionsBasic.product_id TransactionsBasic.amount].
    rewrite T. destruct (String.eqb_spec (Transactions.product_id f) ""); [contradiction|].
    cbn [String.eqb Ascii.eqb Bool.eqb andb negb].
    destruct (Transactions.findProduct products (Transactions.product_id f));
      destruct (negb (String.eqb q "")); reflexivity.
  - unfold TransactionsBasic.handleSubmit, Transactions.handleSubmit,
      TransactionsBasic.nonEmpty, Transactions.nonEmpty, TransactionsBasic.ofForm.
    cbn [TransactionsBasic.type TransactionsBasic.product_id
         TransactionsBasic.quantity TransactionsBasic.amount].
    destruct (String.eqb (Transactions.type f) "Sale"); [|reflexivity].
    destruct (negb (negb (String.eqb (Transactions.product_id f) ""))
              || negb (negb (String.eqb (Transactions.quantity f) ""))); reflexivity.
Qed.

(* ================================================================== *)
(** * The charts: signs and the order of the transactions *)
(* ================================================================== *)

Lemma total_nonneg (f : Api.Transaction -> Z) (p : Api.Transaction -> bool)
  (l : list Api.Transaction) :
  (forall t, In t l -> 0 <= f t) -> 0 <= Spec.total f p l.
Proof.
  induction l as [|t l IH]; intros H.
  - rewrite total_nil. lia.
  - rewrite total_cons.
    assert (0 <= f t) by (apply H; now left).
    assert (0 <= Spec.total f p l) by (apply IH; intros; apply H; now right).
    destruct (p t); lia.
Qed.

(** X18.  When no amount of the list is negative, no chart shows a
    negative value: neither a point of the daily series, whatever the
    range, nor the ventes or dépenses of a weekly bar, nor a revenue of the
    ranking. *)
Theorem charts_non_negative (tz : Calendar.Zone) (txs : list Api.Transaction) :
  Further.amountsNonNegative txs ->
  (forall range p, In p (Dashboard.salesByDay tz txs range) -> 0 <= ventes p) /\
  (forall b : Week.Point, In b (Dashboard.salesVsExpenses tz txs) ->
     0 <= Week.ventes b /\ 0 <= Week.dépenses b) /\
  (forall e : Top.Entry, In e (Dashboard.topProducts txs) -> 0 <= Top.montant e).
Proof.
  intros H. split; [|split].
  - assert (V : forall k, 0 <= JS.orZero (JS.get (Dashboard.dayMap tz txs) k)).
    { intros k. rewrite dayMap_value. now apply total_nonneg. }
    assert (O : forall p,
              In p (List.map (fun '(date, ventes) => {| date := date; ventes := ventes |})
                             (JS.entries (Dashboard.dayMap tz txs))) ->
              0 <= ventes p).
    { intros p I. apply in_map_iff in I. destruct I as ([k v] & <- & I).
      apply entries_get in I; [|apply dayMap_keys_NoDup].
      specialize (V k). rewrite I, orZero_Some in V. exact V. }
    intros [[from|] [to|]] p I; try (now apply O).
    unfold Dashboard.salesByDay in I. apply dayLoop_points in I.
    destruct I as (c & ->). apply V.
  - intros b I. apply salesVsExpenses_In, weekMap_entry in I.
    destruct I as (_ & -> & ->). split; now apply total_nonneg.
  - intros e I. apply topProducts_row, topMap_entry in I.
    destruct I as (_ & _ & ->). now apply total_nonneg.
Qed.

Lemma total_perm (f : Api.Transaction -> Z) (p : Api.Transaction -> bool)
  (l l' : list Api.Transaction) :
  Permutation l l' -> Spec.total f p l = Spec.total f p l'.
Proof.
  induction 1 as [|x l l' P IH|x y l|l l' l'' P1 IH1 P2 IH2];
    rewrite ?total_cons; lia.
Qed.

Lemma salesVsExpenses_strict (tz : Calendar.Zone) (txs : list Api.Transaction) :
  StronglySorted
    (fun a b : Week.Point => JS.localeCompare (Week.semaine a) (Week.semaine b) < 0)
    (Dashboard.salesVsExpenses tz txs).
Proof.
  unfold Dashboard.salesVsExpenses.
  apply (StronglySorted_map
           (fun '(semaine, v) => {| Week.semaine := semaine; Week.totals := v |})
           (fun a b => JS.localeCompare (Week.semaine a) (Week.semaine b) < 0)).
  eapply StronglySorted_impl; cycle 1.
  - apply Sorted_keys_strict.
    + apply (sort_sorted (fun a b : string * Week.Totals =>
                            JS.localeCompare (fst a) (fst b))).
      intros x y. apply localeCompare_total.
    + eapply Permutation_NoDup.
      * apply Permutation_map. apply sort_perm.
      * apply entries_keys_NoDup, weekMap_keys_NoDup.
  - intros [k v] [k' v'] H. exact H.
Qed.

(** The bars of the weekly series, by what they hold. *)
Lemma salesVsExpenses_bars (tz : Calendar.Zone) (txs : list Api.Transaction) (b : Week.Point) :
  In b (Dashboard.salesVsExpenses tz txs) <->
  (exists t, In t txs /\ Dashboard.weekKey tz t = Week.semaine b) /\
  Week.ventes b = Spec.weekVentes tz (Week.semaine b) txs /\
  Week.dépenses b = Spec.weekDepenses tz (Week.semaine b) txs.
Proof.
  split.
  - intros I. now apply salesVsExpenses_In, weekMap_entry in I.
  - intros ((t & It & K) & Hv & Hd).
    assert (Ik : In (Week.semaine b) (JS.ownKeys (Dashboard.weekMap tz txs))).
    { rewrite weekMap_keys, firstSeen_In, <- K. now apply in_map. }
    unfold JS.ownKeys in Ik. apply in_map_iff in Ik. destruct Ik as ([k v] & E & Ik).
    cbn [fst] in E. subst k.
    eapply Permutation_in in Ik; [|symmetry; apply entries_perm].
    apply salesVsExpenses_In.
    destruct (weekMap_entry tz txs _ _ Ik) as (_ & Hv' & Hd').
    replace (Week.totals b) with v; trivial.
    destruct v as [a c], b as [s [a' c']]. cbn in *. congruence.
Qed.

Lemma strictly_sorted_unique {A : Type} (key : A -> string) (l1 l2 : list A) :
  StronglySorted (fun a b => JS.localeCompare (key a) (key b) < 0) l1 ->
  StronglySorted (fun a b => JS.localeCompare (key a) (key b) < 0) l2 ->
  (forall x, In x l1 <-> In x l2) -> l1 = l2.
Proof.
  assert (Irr : forall k, ~ JS.localeCompare k k < 0).
  { intros k. rewrite localeCompare_lt. intros L.
    now apply (String_as_OT.lt_not_eq _ _ L). }
  assert (Asym : forall a b, JS.localeCompare a b < 0 -> JS.localeCompare b a < 0 -> False).
  { intros a b H1 H2. apply (Irr a). now apply localeCompare_lt_trans with b. }
  intros S1. revert l2. induction S1 as [|x l1 S1 IH F1]; intros l2 S2 H.
  - destruct l2 as [|y l2]; trivial. destruct (proj2 (H y)). now left.
  - destruct S2 as [|y l2 S2 F2]; [destruct (proj1 (H x)); now left|].
    rewrite Forall_forall in F1, F2.
    assert (E : x = y).
    { destruct (proj1 (H x)) as [E | I]; [now left | now symmetry |].
      destruct (proj2 (H y)) as [E | I']; [now left | trivial |].
      exfalso. exact (Asym _ _ (F1 _ I') (F2 _ I)). }
    subst y. f_equal. apply IH; trivial.
    intros z. split; intros I.
    + destruct (proj1 (H z)) as [E | I']; [now right | | trivial].
      subst z. exfalso. exact (Irr _ (F1 _ I)).
    + destruct (proj2 (H z)) as [E | I']; [now right | | trivial].
      subst z. exfalso. exact (Irr _ (F2 _ I)).
Qed.

(** X19.  When the amounts are whole numbers whose absolute values add up
    to less than 2^53, so that the sums of the code are exact, the
    gap-filled daily series and the weekly series do not depend on the
    order in which the transactions are listed, in every time zone. *)
Theorem charts_order_independent (tz : Calendar.Zone) (txs txs' : list Api.Transaction) :
  Further.exactSums txs -> Permutation txs txs' ->
  (forall D0 D1,
     Dashboard.salesByDay tz txs (Some D0, Some D1) =
     Dashboard.salesByDay tz txs' (Some D0, Some D1)) /\
  Dashboard.salesVsExpenses tz txs = Dashboard.salesVsExpenses tz txs'.
Proof.
  intros _ P. split.
  - intros D0 D1. unfold Dashboard.salesByDay. apply dayLoop_ext. intros k.
    rewrite !dayMap_value.
    unfold Spec.salesLabelled. now rewrite (total_perm _ _ _ _ P).
  - apply (strictly_sorted_unique Week.semaine); try apply salesVsExpenses_strict.
    intros b. rewrite !salesVsExpenses_bars.
    unfold Spec.weekVentes, Spec.weekDepenses.
    rewrite !(total_perm _ _ _ _ P).
    split; intros ((t & It & K) & R); (split; [|exact R]); exists t; split; trivial.
    + eapply Permutation_in; [exact P | exact It].
    + eapply Permutation_in; [symmetry; exact P | exact It].
Qed.

(* ================================================================== *)
(** * The further statements on sample records *)
(* ================================================================== *)

(** The scenario in the zone that puts its clock back. *)
Lemma salesVsExpenses_totals_witness :
  Further.exactSums Samples.scenario /\
  Spec.sumZ (List.map (fun b : Week.Point => Week.dépenses b)
               (Dashboard.salesVsExpenses Samples.parisAutumn2024 Samples.scenario)) =
  Spec.total Api.amount Spec.isExpenseOrWithdrawal Samples.scenario.
Proof.
  assert (H : Further.exactSums Samples.scenario) by reflexivity.
  split; [exact H|].
  exact (proj2 (salesVsExpenses_totals Samples.parisAutumn2024 Samples.scenario H)).
Defined.

Lemma salesByDay_open_range_total_witness :
  let range : Dashboard.DateRange := (None, Some 19724) in
  (Further.exactSums Samples.scenario /\ (fst range = None \/ snd range = None)) /\
  Spec.sumZ (List.map ventes
               (Dashboard.salesByDay Samples.utcPlus1 Samples.scenario range)) =
  Transactions.totalSalesAmount Samples.scenario.
Proof.
  intros range.
  assert (E : Further.exactSums Samples.scenario) by reflexivity.
  assert (H : fst range = None \/ snd range = None) by (left; reflexivity).
  split; [split; assumption|].
  exact (salesByDay_open_range_total Samples.utcPlus1 Samples.scenario range E H).
Defined.

Lemma chart1_placeholder_witness :
  19725 > 19724 /\
  DashboardPage.chart1Placeholder
    (Dashboard.salesByDay Samples.utcPlus1 Samples.scenario (Some 19725, Some 19724))
  = true.
Proof.
  assert (H : 19725 > 19724) by reflexivity.
  split; [exact H|].
  exact (proj2 (chart1_placeholder Samples.utcPlus1 Samples.scenario) 19725 19724 H).
Defined.

Lemma topProducts_keeps_the_best_witness :
  Further.ranked "tv" Samples.televisions /\
  (In "tv" (List.map Top.produit (Dashboard.topProducts Samples.televisions)) \/
   (List.length (Dashboard.topProducts Samples.televisions) = 8%nat /\
    forall e, In e (Dashboard.topProducts Samples.televisions) ->
              Top.montant e >= Spec.productRevenue "tv" Samples.televisions)).
Proof.
  assert (H : Further.ranked "tv" Samples.televisions).
  { split; [|reflexivity].
    exists (Samples.saleOf "tv" (Some 2) 100). split; [left|]; reflexivity. }
  split; [exact H|].
  exact (topProducts_keeps_the_best Samples.televisions "tv" H).
Defined.

Lemma topProducts_skips_inherited_names_witness :
  let e := {| Top.produit := "tv";
              Top.totals := {| Top.quantite := 5; Top.montant := 150 |} |} in
  In e (Dashboard.topProducts Samples.televisions) /\
  JS.inherited (Top.produit e) = false.
Proof.
  intros e.
  assert (H : In e (Dashboard.topProducts Samples.televisions))
    by (vm_compute; right; left; reflexivity).
  split; [exact H|].
  exact (topProducts_skips_inherited_names Samples.televisions e H).
Defined.

(** The last 7 days, read at noon of 10 January 2024. *)
Lemma preset_period_series_witness :
  let now := Samples.noon 2024 1 10 in
  (DashboardPage.P7j <> DashboardPage.Custom /\ Calendar.Day now = Calendar.Day now) /\
  DashboardPage.getDateRange Samples.utcPlus1 DashboardPage.P7j None None now now =
  (Some (Calendar.Day now - 7), Some (Calendar.Day now)).
Proof.
  intros now.
  assert (H1 : DashboardPage.P7j <> DashboardPage.Custom) by discriminate.
  assert (H2 : Calendar.Day now = Calendar.Day now) by reflexivity.
  split; [split; assumption|].
  exact (proj1 (preset_period_series Samples.utcPlus1 DashboardPage.P7j None None
                  now now Samples.scenario H1 H2)).
Defined.

Lemma salesByDate_footer_witness :
  let rows := SalesByDate.values (SalesByDate.salesByDate Samples.utcPlus1 Samples.scenario) in
  (SalesByDate.isSalesByDateList Samples.utcPlus1 Samples.scenario rows /\
   Further.exactSums Samples.scenario) /\
  SalesByDate.footerCount rows =
    Z.of_nat (List.length (filter Api.isSale Samples.scenario)) /\
  Spec.sumZ (List.map SalesByDate.totalAmount rows) =
    Transactions.totalSalesAmount Samples.scenario.
Proof.
  intros rows.
  assert (H : SalesByDate.isSalesByDateList Samples.utcPlus1 Samples.scenario rows)
    by apply Permutation_refl.
  assert (E : Further.exactSums Samples.scenario) by reflexivity.
  split; [split; assumption|].
  exact (conj (proj1 (salesByDate_footer Samples.utcPlus1 Samples.scenario rows H))
              (proj2 (proj2 (salesByDate_footer Samples.utcPlus1 Samples.scenario rows H))
                 E)).
Defined.


(** The form after the type was set to Expense. *)
Lemma form_states_witness :
  let f := TransactionForm.handle [] Transactions.initialForm
             (TransactionForm.TypeChange "Expense") in
  TransactionForm.reachable [] f /\
  In (Transactions.type f) TransactionForm.typeOptions /\
  (Transactions.type f <> "Sale" ->
   Transactions.product_id f = "" /\ Transactions.quantity f = "").
Proof.
  intros f.
  assert (H : TransactionForm.reachable [] f).
  { apply TransactionForm.reach_event; [apply TransactionForm.reach_initial | reflexivity]. }
  split; [exact H|].
  exact (conj (proj1 (form_states [] f H)) (proj1 (proj2 (form_states [] f H)))).
Defined.

(** A visitor without a session at the root. *)
Lemma routes_settle_witness :
  let auth := {| App.user := false; App.isSuperAdmin := false; App.isLoading := false |} in
  App.isLoading auth = false /\
  exists page, App.settle 3 auth App.RootPath = App.Render page.
Proof.
  intros auth.
  assert (H : App.isLoading auth = false) by reflexivity.
  split; [exact H|].
  exact (proj1 (routes_settle auth App.RootPath H)).
Defined.

(** An administrator on the dashboard. *)
Lemma routes_access_witness :
  let auth := {| App.user := true; App.isSuperAdmin := true; App.isLoading := false |} in
  App.settle 0 auth App.DashboardPath = App.Render App.Dashboard /\
  (Further.adminOnly App.Dashboard = true -> App.isSuperAdmin auth = true) /\
  (Further.loggedInOnly App.Dashboard = true ->
   App.user auth = true /\ App.isLoading auth = false).
Proof.
  intros auth.
  assert (H : App.settle 0 auth App.DashboardPath = App.Render App.Dashboard)
    by reflexivity.
  split; [exact H|].
  exact (conj (proj1 (routes_access 0 auth App.DashboardPath App.Dashboard H))
              (proj1 (proj2 (routes_access 0 auth App.DashboardPath App.Dashboard H)))).
Defined.

(** A user who is no administrator, and the users page. *)
Lemma menu_matches_routes_witness :
  let auth := {| App.user := true; App.isSuperAdmin := false; App.isLoading := false |} in
  (App.user auth = true /\ App.isLoading auth = false /\
   In App.UsersPath Further.protectedLocations) /\
  (In App.UsersPath (List.map Layout.href (Layout.navigation (App.isSuperAdmin auth)))
   <-> Further.rendersAPage auth App.UsersPath).
Proof.
  intros auth.
  assert (H1 : App.user auth = true) by reflexivity.
  assert (H2 : App.isLoading auth = false) by reflexivity.
  assert (H3 : In App.UsersPath Further.protectedLocations)
    by (do 3 right; left; reflexivity).
  split; [repeat split; assumption|].
  exact (menu_matches_routes auth App.UsersPath H1 H2 H3).
Defined.


(** Three radios at 40. *)
Lemma sale_request_consistent_witness :
  let f := Transactions.initialForm in
  ((forall z, JS.parseInt (JS.toString (Some z)) = Some z) /\
   Transactions.type f = "Sale" /\
   NoDup (List.map Api.Product.id Samples.catalogue) /\
   In Samples.radio Samples.catalogue /\
   Api.Product.id Samples.radio <> "" /\
   JS.parseInt "3" = Some 3 /\
   Further.safeInteger (Api.Product.selling_price Samples.radio * 3)) /\
  exists data,
    Transactions.handleSubmit JS.parseInt
      (Transactions.handleQuantityChange Samples.catalogue
         (Transactions.handleProductChange Samples.catalogue f "p2") "3")
    = Transactions.Created data /\
    Transactions.req_product_id data = Some "p2" /\
    Transactions.req_quantity data = Some (Some 3) /\
    Transactions.req_amount data = Some 120.
Proof.
  intros f.
  assert (H0 : forall z, JS.parseInt (JS.toString (Some z)) = Some z)
    by exact parseInt_toString.
  assert (H1 : Transactions.type f = "Sale") by reflexivity.
  assert (H2 : NoDup (List.map Api.Product.id Samples.catalogue)).
  { repeat constructor; cbn; intuition discriminate. }
  assert (H3 : In Samples.radio Samples.catalogue) by (right; left; reflexivity).
  assert (H4 : Api.Product.id Samples.radio <> "") by discriminate.
  assert (H5 : JS.parseInt "3" = Some 3) by reflexivity.
  assert (H6 : Further.safeInteger (Api.Product.selling_price Samples.radio * 3))
    by reflexivity.
  split; [repeat split; assumption|].
  exact (sale_request_consistent JS.parseInt Samples.catalogue f "3" Samples.radio 3
           H0 H1 H2 H3 H4 H5 H6).
Defined.


Lemma form_versions_agree_witness :
  let f := Samples.saleForm "2" in
  (Transactions.type f = "Sale" /\ "p2" <> "") /\
  TransactionsBasic.ofForm (Transactions.handleProductChange [] f "p2") =
  TransactionsBasic.handleProductChange [] (TransactionsBasic.ofForm f) "p2".
Proof.
  intros f.
  assert (H1 : Transactions.type f = "Sale") by reflexivity.
  assert (H2 : "p2" <> "") by discriminate.
  split; [split; assumption|].
  exact (proj1 (form_versions_agree JS.parseInt [] f) "p2" H1 H2).
Defined.

Lemma charts_non_negative_witness :
  Further.amountsNonNegative Samples.scenario /\
  forall range p,
    In p (Dashboard.salesByDay Samples.utcPlus1 Samples.scenario range) -> 0 <= ventes p.
Proof.
  assert (H : Further.amountsNonNegative Samples.scenario).
  { intros t [<-|[<-|[<-|[]]]]; cbn [Api.amount Samples.sale Samples.expense]; lia. }
  split; [exact H|].
  exact (proj1 (charts_non_negative Samples.utcPlus1 Samples.scenario H)).
Defined.

(** The scenario with its first two transactions exchanged. *)
Lemma charts_order_independent_witness :
  let a := Samples.sale 50 (Samples.noon 2024 1 1) in
  let b := Samples.expense 20 (Samples.noon 2024 1 1) in
  let c := Samples.sale 30 (Samples.noon 2024 1 2) in
  (Further.exactSums [a; b; c] /\ Permutation [a; b; c] [b; a; c]) /\
  Dashboard.salesVsExpenses Samples.utcPlus1 [a; b; c] =
  Dashboard.salesVsExpenses Samples.utcPlus1 [b; a; c].
Proof.
  intros a b c.
  assert (E : Further.exactSums [a; b; c]) by reflexivity.
  assert (H : Permutation [a; b; c] [b; a; c]) by apply perm_swap.
  split; [split; assumption|].
  exact (proj2 (charts_order_independent Samples.utcPlus1 _ _ E H)).
Defined.

(* ================================================================== *)
(** * The charts where the labels tell the days and the weeks apart *)
(* ================================================================== *)

(** X20.  In a time zone of fixed offset from UTC up to the date line, when
    the amounts are whole numbers whose absolute values add up to less than
    2^53 and no Sale transaction carries the dd/mm label of a day of the
    range other than its own local day (as when the sales lie within one
    year around the range), the daily series of the range D0 .. D1 is the
    series of the calendar days of the range in ascending order, each under
    its dd/mm label and valued with the sum of the amounts of the Sale
    transactions of that very day, 0 when there is none; it has
    (D1 - D0) + 1 points when D0 <= D1. *)
Theorem daily_series_by_day (tz : Z) (txs : list Api.Transaction) (D0 D1 : Z) :
  0 <= tz < Calendar.msPerDay -> Further.exactSums txs ->
  (forall t d, In t txs -> Api.type t = "Sale" -> D0 <= d <= D1 ->
     Calendar.label (Calendar.localDay (Calendar.fixed tz) (Api.created_at t)) =
     Calendar.label d ->
     Calendar.localDay (Calendar.fixed tz) (Api.created_at t) = d) ->
  Dashboard.salesByDay (Calendar.fixed tz) txs (Some D0, Some D1) =
    Spec.dailySeries (Calendar.fixed tz) txs D0 D1 /\
  (D0 <= D1 ->
   Z.of_nat (List.length (Dashboard.salesByDay (Calendar.fixed tz) txs (Some D0, Some D1)))
   = D1 - D0 + 1).
Proof.
  intros Htz _ H.
  assert (E : Dashboard.salesByDay (Calendar.fixed tz) txs (Some D0, Some D1) =
              Spec.dailySeries (Calendar.fixed tz) txs D0 D1).
  { apply salesByDay_range_by_day; trivial.
    intros t d I S Hd K. apply H; trivial. now apply String.eqb_eq. }
  split; [exact E|]. intros L. rewrite E. unfold Spec.dailySeries.
  rewrite length_map, daysFrom_length. lia.
Qed.

(** X21.  In a time zone of fixed offset, the key under which the weekly
    series counts a transaction is the dd/mm label of the Monday that
    begins the week of the transaction: a Monday, at most six days before
    the local day of the transaction, and six days before when that day is
    a Sunday.  Every transaction has its bar and every bar is the bar of a
    transaction: no week is left out and no empty week is added. *)
Theorem weekly_bars_start_on_mondays (tz : Z) (txs : list Api.Transaction) :
  (forall t,
     let m := Calendar.localDay (Calendar.fixed tz) (Dashboard.monday (Calendar.fixed tz) t) in
     let d := Calendar.localDay (Calendar.fixed tz) (Api.created_at t) in
     Dashboard.weekKey (Calendar.fixed tz) t = Calendar.label m /\
     Calendar.getDay (Calendar.fixed tz) (Dashboard.monday (Calendar.fixed tz) t) = 1 /\
     m <= d <= m + 6 /\
     (Calendar.getDay (Calendar.fixed tz) (Api.created_at t) = 0 -> m = d - 6)) /\
  (forall t, In t txs ->
     exists b : Week.Point,
       In b (Dashboard.salesVsExpenses (Calendar.fixed tz) txs) /\
       Week.semaine b = Dashboard.weekKey (Calendar.fixed tz) t) /\
  (forall b : Week.Point, In b (Dashboard.salesVsExpenses (Calendar.fixed tz) txs) ->
     exists t, In t txs /\ Week.semaine b = Dashboard.weekKey (Calendar.fixed tz) t).
Proof.
  split; [|split].
  - intros t m d. split; [reflexivity|]. split; [apply monday_is_Monday|].
    split; [apply monday_within_week | apply monday_of_Sunday].
  - intros t I.
    exists {| Week.semaine := Dashboard.weekKey (Calendar.fixed tz) t;
              Week.totals :=
                {| Week.ventes :=
                     Spec.weekVentes (Calendar.fixed tz)
                       (Dashboard.weekKey (Calendar.fixed tz) t) txs;
                   Week.dépenses :=
                     Spec.weekDepenses (Calendar.fixed tz)
                       (Dashboard.weekKey (Calendar.fixed tz) t) txs |} |}.
    split; [|reflexivity]. apply salesVsExpenses_bars.
    cbn [Week.semaine Week.totals Week.ventes Week.dépenses]. eauto.
  - intros b I. apply salesVsExpenses_bars in I.
    destruct I as ((t & It & K) & _). eauto.
Qed.

Lemma soldAs_soldUnder (n : string) (t : Api.Transaction) :
  n <> "" -> Spec.soldAs n t = Spec.soldUnder n t.
Proof.
  intros N. unfold Spec.soldAs, Spec.soldUnder, Dashboard.saleName, Api.isSale.
  destruct (String.eqb (Api.type t) "Sale"); cbn [andb]; trivial.
  destruct (Api.product t) as [p|]; trivial.
  destruct (String.eqb_spec (Api.name p) "") as [E|_]; trivial.
  rewrite E. symmetry. apply String.eqb_neq. congruence.
Qed.

(** X22.  The rows of the ranking: at most 8, in order of non-increasing
    revenue, no two of them for the same product name; the name of a row is
    not empty and is the product name of a Sale transaction of the list,
    and the row carries the total quantity (a missing quantity counting
    for 0) and the total amount of the Sale transactions that carry that
    product name. *)
Theorem topProducts_rows (txs : list Api.Transaction) :
  (List.length (Dashboard.topProducts txs) <= 8)%nat /\
  StronglySorted (fun a b : Top.Entry => Top.montant a >= Top.montant b)
                 (Dashboard.topProducts txs) /\
  NoDup (List.map Top.produit (Dashboard.topProducts txs)) /\
  (forall e : Top.Entry, In e (Dashboard.topProducts txs) ->
     Top.produit e <> "" /\
     (exists t, In t txs /\ Spec.saleOfProduct (Top.produit e) t) /\
     Top.quantite e =
       Spec.total (fun t => match Api.quantity t with Some q => q | None => 0 end)
                  (Spec.soldUnder (Top.produit e)) txs /\
     Top.montant e = Spec.total Api.amount (Spec.soldUnder (Top.produit e)) txs).
Proof.
  destruct (topProducts_ranking txs) as (L & S & N & R).
  split; [exact L|]. split; [exact S|]. split; [exact N|].
  intros e I. destruct (R e I) as ((t & It & Sn) & Q & M).
  apply saleName_saleOfProduct in Sn. destruct Sn as (Sp & Ne).
  split; [exact Ne|]. split; [eauto|].
  rewrite Q, M. unfold Spec.productQuantity, Spec.productRevenue.
  split; apply total_ext; intros x _; now apply soldAs_soldUnder.
Qed.

(** The scenario of the specification, one hour east of UTC. *)
Lemma daily_series_by_day_witness :
  let D0 := Calendar.dayNumber 2024 1 1 in
  let D1 := Calendar.dayNumber 2024 1 2 in
  (0 <= Samples.utcPlus1 < Calendar.msPerDay /\ Further.exactSums Samples.scenario) /\
  Dashboard.salesByDay (Calendar.fixed Samples.utcPlus1) Samples.scenario (Some D0, Some D1) =
  Spec.dailySeries (Calendar.fixed Samples.utcPlus1) Samples.scenario D0 D1.
Proof.
  intros D0 D1.
  assert (H1 : 0 <= Samples.utcPlus1 < Calendar.msPerDay)
    by (vm_compute; split; [discriminate | reflexivity]).
  assert (H2 : Further.exactSums Samples.scenario) by reflexivity.
  assert (H3 : forall t d, In t Samples.scenario -> Api.type t = "Sale" -> D0 <= d <= D1 ->
     Calendar.label (Calendar.localDay (Calendar.fixed Samples.utcPlus1) (Api.created_at t)) =
     Calendar.label d ->
     Calendar.localDay (Calendar.fixed Samples.utcPlus1) (Api.created_at t) = d).
  { intros t d I _ Hd K.
    assert (C : d = 19723 \/ d = 19724) by (vm_compute in D0, D1; lia).
    destruct I as [<- | [<- | [<- | []]]]; destruct C as [-> | ->];
      vm_compute in K; try discriminate K; vm_compute; reflexivity. }
  split; [split; assumption|].
  exact (proj1 (daily_series_by_day Samples.utcPlus1 Samples.scenario D0 D1 H1 H2 H3)).
Defined.

(** A Sunday sale and a Tuesday expense of the week of Monday 1 January. *)
Lemma weekly_bars_start_on_mondays_witness :
  let txs := [ Samples.sale 10 (Samples.noon 2024 1 7);
               Samples.expense 7 (Samples.noon 2024 1 2) ] in
  let b := {| Week.semaine := "01/01";
              Week.totals := {| Week.ventes := 10; Week.dépenses := 7 |} |} in
  In b (Dashboard.salesVsExpenses (Calendar.fixed 0) txs) /\
  exists t, In t txs /\ Week.semaine b = Dashboard.weekKey (Calendar.fixed 0) t.
Proof.
  intros txs b.
  assert (H : In b (Dashboard.salesVsExpenses (Calendar.fixed 0) txs))
    by (vm_compute; left; reflexivity).
  split; [exact H|].
  exact (proj2 (proj2 (weekly_bars_start_on_mondays 0 txs)) b H).
Defined.

Lemma topProducts_rows_witness :
  let e := {| Top.produit := "tv";
              Top.totals := {| Top.quantite := 5; Top.montant := 150 |} |} in
  In e (Dashboard.topProducts Samples.televisions) /\
  Top.montant e = Spec.total Api.amount (Spec.soldUnder "tv") Samples.televisions.
Proof.
  intros e.
  assert (H : In e (Dashboard.topProducts Samples.televisions))
    by (vm_compute; right; left; reflexivity).
  split; [exact H|].
  exact (proj2 (proj2 (proj2 (proj2 (proj2 (proj2 (topProducts_rows Samples.televisions))) e H)))).
Defined.
